(** * Tweet activity analyzer: aggregation of timestamps into histograms

    A shallow embedding of [src/scraper.py] (function
    [analyze_scraped_data]) and of [src/main.py] (functions
    [generate_demo_data], [fetch_via_scraper] and [analyze_user]),
    together with the properties of the activity summary they produce.

    Python integers that are counts, hours or days are natural numbers;
    instants on the time line are integers (microseconds).  Python
    strings are [string]s of one-byte characters. *)

From Stdlib Require Import List String Ascii Arith ZArith Lia Bool.
From Stdlib Require Import DecimalString DecimalNat DecimalFacts.
From Stdlib Require Import Permutation.
Import ListNotations.

Local Open Scope string_scope.
Local Open Scope list_scope.
Local Open Scope nat_scope.

(** ** Python built-ins used by the program *)

Module Py.

(** [str(n)] for a non-negative integer. *)
Definition str (n : nat) : string :=
  NilZero.string_of_uint (Nat.to_uint n).

(** [s.endswith(c)] for a one-character suffix. *)
Fixpoint endswith (s : string) (c : ascii) : bool :=
  match s with
  | EmptyString => false
  | String a EmptyString => Ascii.eqb a c
  | String _ rest => endswith rest c
  end.

(** [s.replace(c, r)] for a one-character pattern: every occurrence is
    replaced. *)
Fixpoint replace (s : string) (c : ascii) (r : string) : string :=
  match s with
  | EmptyString => EmptyString
  | String a rest =>
      if Ascii.eqb a c then (r ++ replace rest c r)%string
      else String a (replace rest c r)
  end.

(** [s.lower()] on ASCII letters. *)
Definition lower_char (a : ascii) : ascii :=
  let n := nat_of_ascii a in
  if (65 <=? n) && (n <=? 90) then ascii_of_nat (n + 32) else a.

Fixpoint lower (s : string) : string :=
  match s with
  | EmptyString => EmptyString
  | String a rest => String (lower_char a) (lower rest)
  end.

(** [sub in s]. *)
Fixpoint contains (sub s : string) : bool :=
  if prefix sub s then true
  else match s with
       | EmptyString => false
       | String _ rest => contains sub rest
       end.

(** Characters removed by [str.strip()] with no argument: the white
    space of Python among the one-byte characters. *)
Definition isspace (a : ascii) : bool :=
  let n := nat_of_ascii a in
  ((9 <=? n) && (n <=? 13)) || ((28 <=? n) && (n <=? 32))
  || (n =? 133) || (n =? 160).

(** [s.lstrip(chars)], with the set of characters given as a predicate. *)
Fixpoint lstrip_by (p : ascii -> bool) (s : string) : string :=
  match s with
  | EmptyString => EmptyString
  | String a rest => if p a then lstrip_by p rest else s
  end.

(** [s.rstrip(chars)]. *)
Fixpoint rstrip_by (p : ascii -> bool) (s : string) : string :=
  match s with
  | EmptyString => EmptyString
  | String a rest =>
      match rstrip_by p rest with
      | EmptyString => if p a then EmptyString else String a EmptyString
      | r => String a r
      end
  end.

Definition strip (s : string) : string :=
  rstrip_by isspace (lstrip_by isspace s).

Definition lstrip (s : string) (c : ascii) : string :=
  lstrip_by (Ascii.eqb c) s.

(** Truth value of a string: [not s] holds for the empty string only. *)
Definition is_empty (s : string) : bool :=
  match s with EmptyString => true | _ => false end.

End Py.

(** ** The standard library's [datetime]

    The program relies on [datetime.fromisoformat], on the attributes
    [hour] and [weekday()], on the ordering of datetimes (through [max])
    and on [isoformat()].  They are modelled after the reference
    implementation of the standard library; the grammar accepted by
    [fromisoformat] is the documented one,
    [YYYY-MM-DD[*HH[:MM[:SS[.fff[fff]]]][+HH:MM[:SS[.ffffff]]]]]. *)

Module Datetime.

(** A datetime holds the wall-clock fields as written, and the offset
    from UTC (in microseconds) when it is aware. *)
Record datetime := mkDatetime {
  year : nat;
  month : nat;
  day : nat;
  hour : nat;
  minute : nat;
  second : nat;
  microsecond : nat;
  tzinfo : option Z
}.

Definition is_leap (y : nat) : bool :=
  ((y mod 4 =? 0) && negb (y mod 100 =? 0)) || (y mod 400 =? 0).

Definition days_in_month (y m : nat) : nat :=
  match m with
  | 1 => 31 | 2 => if is_leap y then 29 else 28 | 3 => 31 | 4 => 30
  | 5 => 31 | 6 => 30 | 7 => 31 | 8 => 31 | 9 => 30 | 10 => 31
  | 11 => 30 | 12 => 31 | _ => 0
  end.

Definition days_before_year (y : nat) : nat :=
  let p := y - 1 in p * 365 + p / 4 - p / 100 + p / 400.

Fixpoint days_before_month_aux (y m : nat) : nat :=
  match m with
  | O => 0
  | S m' => days_in_month y m' + days_before_month_aux y m'
  end.

Definition days_before_month (y m : nat) : nat :=
  days_before_month_aux y m.

(** [toordinal()]: 1 January of year 1 is day 1. *)
Definition toordinal (d : datetime) : nat :=
  days_before_year (year d) + days_before_month (year d) (month d) + day d.

(** [weekday()]: Monday is 0 and Sunday is 6. *)
Definition weekday (d : datetime) : nat :=
  (toordinal d + 6) mod 7.

(** Microseconds of the wall-clock fields since the start of day 0. *)
Definition wall_micros (d : datetime) : Z :=
  ((Z.of_nat (toordinal d) * 86400
    + Z.of_nat (hour d) * 3600 + Z.of_nat (minute d) * 60
    + Z.of_nat (second d)) * 1000000 + Z.of_nat (microsecond d))%Z.

(** The instant on the UTC time line of an aware datetime: the wall
    clock minus the offset. *)
Definition utc_micros (d : datetime) (off : Z) : Z :=
  (wall_micros d - off)%Z.

(** Hour of day and weekday of the instant once normalised to UTC (what
    [d.astimezone(timezone.utc)] has in [hour] and [weekday()]); a naive
    datetime has no offset to remove. *)
Definition utc_hour (d : datetime) : nat :=
  match tzinfo d with
  | Some off => Z.to_nat ((utc_micros d off / 3600000000) mod 24)
  | None => hour d
  end.

Definition utc_weekday (d : datetime) : nat :=
  match tzinfo d with
  | Some off => Z.to_nat ((utc_micros d off / 86400000000 + 6) mod 7)
  | None => weekday d
  end.

(** *** Parsing *)

Definition digit_val (a : ascii) : option nat :=
  let n := nat_of_ascii a in
  if (48 <=? n) && (n <=? 57) then Some (n - 48) else None.

(** A string made of decimal digits only, as a number. *)
Fixpoint parse_digits_from (acc : nat) (s : string) : option nat :=
  match s with
  | EmptyString => Some acc
  | String a rest =>
      match digit_val a with
      | Some v => parse_digits_from (acc * 10 + v) rest
      | None => None
      end
  end.

Definition parse_digits (s : string) : option nat :=
  match s with
  | EmptyString => None
  | _ => parse_digits_from 0 s
  end.

(** [_parse_isoformat_date]: ten characters [YYYY-MM-DD]. *)
Definition parse_isoformat_date (dstr : string) : option (nat * nat * nat) :=
  if negb (String.length dstr =? 10) then None else
  match parse_digits (substring 0 4 dstr), get 4 dstr,
        parse_digits (substring 5 2 dstr), get 7 dstr,
        parse_digits (substring 8 2 dstr) with
  | Some y, Some "-"%char, Some m, Some "-"%char, Some d => Some (y, m, d)
  | _, _, _, _, _ => None
  end.

(** [_parse_hh_mm_ss_ff]: [HH[:MM[:SS[.fff[fff]]]]].  The loop over the
    three two-digit components is unrolled by [comp]. *)
Definition parse_fraction (rest : string) : option nat :=
  match rest with
  | EmptyString => Some 0
  | String "."%char frac =>
      match String.length frac with
      | 3 => option_map (fun n => n * 1000) (parse_digits frac)
      | 6 => parse_digits frac
      | _ => None
      end
  | String _ _ => None
  end.

Fixpoint parse_comps (fuel : nat) (tstr : string)
  : option (list nat * string) :=
  match fuel with
  | O => Some ([], tstr)
  | S fuel' =>
      if String.length tstr <? 2 then None else
      match parse_digits (substring 0 2 tstr) with
      | None => None
      | Some v =>
          let rest := substring 2 (String.length tstr - 2) tstr in
          match fuel', rest with
          | O, _ => Some ([v], rest)
          | _, EmptyString => Some ([v], rest)
          | _, String ":"%char rest' =>
              match parse_comps fuel' rest' with
              | Some (vs, r) => Some (v :: vs, r)
              | None => None
              end
          | _, String _ _ => None
          end
      end
  end.

Definition parse_hh_mm_ss_ff (tstr : string)
  : option (nat * nat * nat * nat) :=
  match parse_comps 3 tstr with
  | None => None
  | Some (vs, rest) =>
      match parse_fraction rest with
      | None => None
      | Some us => Some (nth 0 vs 0, nth 1 vs 0, nth 2 vs 0, us)
      end
  end.

(** [tstr.find(c)], as the position when the character occurs. *)
Definition find (c : ascii) (s : string) : option nat :=
  index 0 (String c EmptyString) s.

(** [_parse_isoformat_time]: the time of day and the optional offset.
    The offset starts at the first ["-"], or else at the first ["+"]. *)
Definition parse_isoformat_time (tstr : string)
  : option (nat * nat * nat * nat * option Z) :=
  if String.length tstr <? 2 then None else
  let tz_pos := match find "-" tstr with
                | Some i => Some i
                | None => find "+" tstr
                end in
  match tz_pos with
  | None =>
      match parse_hh_mm_ss_ff tstr with
      | Some (h, m, s, us) => Some (h, m, s, us, None)
      | None => None
      end
  | Some i =>
      let timestr := substring 0 i tstr in
      let tzstr := substring (i + 1) (String.length tstr - (i + 1)) tstr in
      match parse_hh_mm_ss_ff timestr with
      | None => None
      | Some (h, m, s, us) =>
          let n := String.length tzstr in
          if negb ((n =? 5) || (n =? 8) || (n =? 15)) then None else
          match parse_hh_mm_ss_ff tzstr with
          | None => None
          | Some (th, tm, ts, tus) =>
              let td := ((Z.of_nat th * 3600 + Z.of_nat tm * 60
                          + Z.of_nat ts) * 1000000 + Z.of_nat tus)%Z in
              let tzsign := match get i tstr with
                            | Some "-"%char => (-1)%Z
                            | _ => 1%Z
                            end in
              (* timezone(): the offset lies strictly within a day *)
              if (td <? 86400000000)%Z
              then Some (h, m, s, us, Some (tzsign * td)%Z)
              else None
          end
      end
  end.

(** The checks of the [datetime] constructor on its fields. *)
Definition check_fields (d : datetime) : bool :=
  (1 <=? year d) && (year d <=? 9999)
  && (1 <=? month d) && (month d <=? 12)
  && (1 <=? day d) && (day d <=? days_in_month (year d) (month d))
  && (hour d <=? 23) && (minute d <=? 59) && (second d <=? 59)
  && (microsecond d <? 1000 * 1000).

(** [datetime.fromisoformat]; [None] stands for the [ValueError]. *)
Definition fromisoformat (date_string : string) : option datetime :=
  let dstr := substring 0 10 date_string in
  let tstr := substring 11 (String.length date_string - 11) date_string in
  match parse_isoformat_date dstr with
  | None => None
  | Some (y, mo, d) =>
      let comps := if Py.is_empty tstr then Some (0, 0, 0, 0, None)
                   else parse_isoformat_time tstr in
      match comps with
      | None => None
      | Some (h, mi, s, us, tz) =>
          let dt := mkDatetime y mo d h mi s us tz in
          if check_fields dt then Some dt else None
      end
  end.

(** *** Ordering

    Two naive datetimes, or two aware ones with the same offset, are
    compared field by field; two aware ones with different offsets by
    their instants; a naive and an aware one cannot be compared
    ([TypeError], here [None]). *)

Fixpoint cmp_fields (a b : list nat) : comparison :=
  match a, b with
  | x :: a', y :: b' =>
      match Nat.compare x y with
      | Eq => cmp_fields a' b'
      | c => c
      end
  | [], [] => Eq
  | [], _ :: _ => Lt
  | _ :: _, [] => Gt
  end.

Definition fields (d : datetime) : list nat :=
  [year d; month d; day d; hour d; minute d; second d; microsecond d].

Definition cmp (a b : datetime) : option comparison :=
  match tzinfo a, tzinfo b with
  | None, None => Some (cmp_fields (fields a) (fields b))
  | Some oa, Some ob =>
      if (oa =? ob)%Z then Some (cmp_fields (fields a) (fields b))
      else Some (Z.compare (utc_micros a oa) (utc_micros b ob))
  | _, _ => None
  end.

(** [max(l)] for a non-empty list, given its first element: a later
    item replaces the current maximum when it is strictly greater. *)
Fixpoint max_from (cur : datetime) (l : list datetime) : option datetime :=
  match l with
  | [] => Some cur
  | x :: rest =>
      match cmp x cur with
      | None => None
      | Some Gt => max_from x rest
      | Some _ => max_from cur rest
      end
  end.

(** *** Printing *)

(** ["%0<w>d" % n] *)
Definition pad (w n : nat) : string :=
  let s := Py.str n in
  (string_of_list_ascii (repeat "0"%char (w - String.length s)) ++ s)%string.

Definition format_offset (off : Z) : string :=
  let sign := if (off <? 0)%Z then "-" else "+" in
  let a := Z.abs off in
  let hh := Z.to_nat (a / 3600000000) in
  let mm := Z.to_nat ((a mod 3600000000) / 60000000) in
  let ss := Z.to_nat ((a mod 60000000) / 1000000) in
  let us := Z.to_nat (a mod 1000000) in
  (sign ++ pad 2 hh ++ ":" ++ pad 2 mm
   ++ (if Nat.eqb ss 0 && Nat.eqb us 0 then "" else ":" ++ pad 2 ss)
   ++ (if Nat.eqb us 0 then "" else "." ++ pad 6 us))%string.

(** [isoformat()] with the default separator and time precision. *)
Definition isoformat (d : datetime) : string :=
  (pad 4 (year d) ++ "-" ++ pad 2 (month d) ++ "-" ++ pad 2 (day d) ++ "T"
   ++ pad 2 (hour d) ++ ":" ++ pad 2 (minute d) ++ ":" ++ pad 2 (second d)
   ++ (if Nat.eqb (microsecond d) 0 then ""
       else "." ++ pad 6 (microsecond d))
   ++ match tzinfo d with
      | Some off => format_offset off
      | None => ""
      end)%string.

End Datetime.

(** ** Counters shared by the aggregator and the demo generator *)

Module Counters.

(** A [defaultdict(int)] with integer keys, as the list of its items in
    insertion order (the order [items()] yields them in). *)
Definition defaultdict := list (nat * nat).

(** [d[k] += 1]: a missing key is inserted, at the end. *)
Fixpoint incr (k : nat) (d : defaultdict) : defaultdict :=
  match d with
  | [] => [(k, 1)]
  | (k', v) :: rest =>
      if k' =? k then (k', S v) :: rest else (k', v) :: incr k rest
  end.

(** The value [d[k]] reads, 0 for a missing key. *)
Fixpoint lookup (k : nat) (d : defaultdict) : nat :=
  match d with
  | [] => 0
  | (k', v) :: rest => if k' =? k then v else lookup k rest
  end.

(** The dictionary after reading [d[k]]: a missing key is inserted with
    the value 0, at the end. *)
Fixpoint touch (k : nat) (d : defaultdict) : defaultdict :=
  match d with
  | [] => [(k, 0)]
  | (k', v) :: rest =>
      if k' =? k then d else (k', v) :: touch k rest
  end.

(** [{str(k): d[k] for k in keys}]: the new dictionary (its items in
    insertion order) and [d] as the reads leave it. *)
Fixpoint to_dict (keys : list nat) (d : defaultdict)
  : list (string * nat) * defaultdict :=
  match keys with
  | [] => ([], d)
  | k :: keys' =>
      let v := lookup k d in
      let (kvs, d') := to_dict keys' (touch k d) in
      ((Py.str k, v) :: kvs, d')
  end.

(** [sorted(items, key=lambda x: x[1], reverse=True)]: a stable sort by
    decreasing count; items of equal count keep their order. *)
Fixpoint insert_desc (x : nat * nat) (l : list (nat * nat))
  : list (nat * nat) :=
  match l with
  | [] => [x]
  | y :: rest =>
      if snd x <? snd y then y :: insert_desc x rest else x :: y :: rest
  end.

Fixpoint sorted_desc (l : list (nat * nat)) : list (nat * nat) :=
  match l with
  | [] => []
  | x :: rest => insert_desc x (sorted_desc rest)
  end.

(** The 7 x 24 matrix [[[0 for _ in range(24)] for _ in range(7)]]. *)
Definition heatmap := list (list nat).

Definition empty_heatmap : heatmap := repeat (repeat 0 24) 7.

(** [l[i] = x] for an index within the list. *)
Fixpoint set_nth {A} (i : nat) (x : A) (l : list A) : list A :=
  match l, i with
  | [], _ => []
  | _ :: rest, O => x :: rest
  | y :: rest, S i' => y :: set_nth i' x rest
  end.

(** [heatmap[day][hour] += 1]; [None] is the [IndexError] of an index
    out of range, which leaves the matrix as it was. *)
Definition heatmap_incr (day hour : nat) (hm : heatmap) : option heatmap :=
  match nth_error hm day with
  | None => None
  | Some row =>
      match nth_error row hour with
      | None => None
      | Some v => Some (set_nth day (set_nth hour (S v) row) hm)
      end
  end.

Definition sum (l : list nat) : nat := fold_right Nat.add 0 l.

(** [sum(d.values())] *)
Definition sum_values {K} (d : list (K * nat)) : nat := sum (map snd d).

(** [sum(sum(row) for row in heatmap)] *)
Definition sum_heatmap (hm : heatmap) : nat := sum (map sum hm).

(** The two counters and the matrix a run works on. *)
Record counters := mkCounters {
  hourly : defaultdict;
  daily : defaultdict;
  heatmap_of : heatmap
}.

Definition init_counters : counters := mkCounters [] [] empty_heatmap.

(** The three increments of one event: lines 146-148 of [scraper.py]
    and lines 65-67 of [main.py].  The third one may fail, after the first
    two have been done. *)
Definition tally (hour day : nat) (st : counters) : counters * bool :=
  let hourly' := incr hour (hourly st) in
  let daily' := incr day (daily st) in
  match heatmap_incr day hour (heatmap_of st) with
  | Some hm => (mkCounters hourly' daily' hm, true)
  | None => (mkCounters hourly' daily' (heatmap_of st), false)
  end.

End Counters.

(** ** [src/scraper.py] *)

Module Scraper.

Import Counters.

(** An element of [result["tweets"]]: the dictionary
    [{"datetime": datetime_str}]. *)
Record tweet := mkTweet { tw_datetime : string }.

(** The dictionary [scrape_twitter_activity] returns; it always has its
    six keys.  The value of ["error"] may be Python's [None]; the source
    attribute of the profile image is a string. *)
Record scraped_data := mkScraped {
  success : bool;
  username : string;
  display_name : string;
  profile_image : string;
  tweets : list tweet;
  error : option string
}.

Record peak_hour := mkPeakHour { ph_hour : nat; ph_count : nat }.
Record peak_day := mkPeakDay { pd_day : nat; pd_count : nat }.

(** The dictionary [analyze_scraped_data] returns. *)
Record analysis := mkAnalysis {
  a_username : string;
  a_display_name : string;
  a_profile_image : string;
  total_tweets_analyzed : nat;
  hourly_activity : list (string * nat);
  daily_activity : list (string * nat);
  heatmap_data : heatmap;
  peak_hours : list peak_hour;
  peak_days : list peak_day;
  timezone_note : string;
  last_tweet_time : option string;
  is_demo : bool;
  is_scraped : bool
}.

(** Lines 136-141 (and again 170-174): the trailing ["Z"] decides which
    string goes to [fromisoformat]. *)
Definition parse_datetime (dt_str : string) : option Datetime.datetime :=
  if Py.endswith dt_str "Z"
  then Datetime.fromisoformat (Py.replace dt_str "Z" "+00:00")
  else Datetime.fromisoformat dt_str.

(** The body of the loop of lines 133-151: any exception sends to the
    next tweet. *)
Definition count_tweet (st : counters) (tw : tweet) : counters :=
  match parse_datetime (tw_datetime tw) with
  | None => st
  | Some dt =>
      let hour := Datetime.hour dt in
      let day := Datetime.weekday dt in
      fst (tally hour day st)
  end.

(** Lines 158-162 for one counter: the items sorted by decreasing count,
    the first three of them, those with a positive count. *)
Definition top3_positive (d : defaultdict) : list (nat * nat) :=
  filter (fun hc => 0 <? snd hc) (firstn 3 (sorted_desc d)).

(** Lines 165-179: every string is parsed again, inside one [try]; an
    exception anywhere leaves [None]. *)
Fixpoint parse_all (l : list tweet) : option (list Datetime.datetime) :=
  match l with
  | [] => Some []
  | tw :: rest =>
      match parse_datetime (tw_datetime tw) with
      | None => None
      | Some dt =>
          match parse_all rest with
          | None => None
          | Some dts => Some (dt :: dts)
          end
      end
  end.

Definition most_recent (l : list tweet) : option string :=
  match l with
  | [] => None
  | _ =>
      match parse_all l with
      | None => None
      | Some [] => None
      | Some (dt :: dts) =>
          option_map Datetime.isoformat (Datetime.max_from dt dts)
      end
  end.

(** [analyze_scraped_data]; the outer [None] is the [None] it returns. *)
Definition analyze_scraped_data (sd : scraped_data) : option analysis :=
  if negb (success sd) || (match tweets sd with [] => true | _ => false end)
  then None
  else
    let st := fold_left count_tweet (tweets sd) init_counters in
    let (hourly_dict, hourly') := to_dict (seq 0 24) (hourly st) in
    let (daily_dict, daily') := to_dict (seq 0 7) (daily st) in
    Some {|
      a_username := username sd;
      a_display_name := display_name sd;
      a_profile_image := profile_image sd;
      total_tweets_analyzed := List.length (tweets sd);
      hourly_activity := hourly_dict;
      daily_activity := daily_dict;
      heatmap_data := heatmap_of st;
      peak_hours :=
        map (fun hc => mkPeakHour (fst hc) (snd hc)) (top3_positive hourly');
      peak_days :=
        map (fun dc => mkPeakDay (fst dc) (snd dc)) (top3_positive daily');
      timezone_note := "Times shown in UTC (scraped)";
      last_tweet_time := most_recent (tweets sd);
      is_demo := false;
      is_scraped := true
    |}.

End Scraper.

(** ** [src/main.py] *)

Module Main.

Import Counters.

(** The pydantic model of the response. *)
Record ActivityResponse := mkResponse {
  username : string;
  display_name : string;
  profile_image : string;
  total_tweets_analyzed : nat;
  hourly_activity : list (string * nat);
  daily_activity : list (string * nat);
  heatmap_data : heatmap;
  peak_hours : list Scraper.peak_hour;
  peak_days : list Scraper.peak_day;
  timezone_note : string;
  is_demo : bool
}.

(** What a call may raise: FastAPI's [HTTPException], or any other
    exception [e], kept as [str(e)]. *)
Inductive exn :=
| HTTPException (status_code : nat) (detail : string)
| Exception (message : string).

Inductive result (A : Type) :=
| Ok (a : A)
| Raise (e : exn).
Arguments Ok {A} a.
Arguments Raise {A} e.

(** The world outside the functions: the state of the module [random],
    as the raw draws still to come, and the calls made to the scraper so
    far (user name and [max_tweets]), latest first. *)
Record world := mkWorld {
  rng : list nat;
  scraper_calls : list (string * nat)
}.

Definition M (A : Type) : Type := world -> result A * world.

Definition ret {A} (a : A) : M A := fun w => (Ok a, w).

Definition raise {A} (e : exn) : M A := fun w => (Raise e, w).

Definition bind {A B} (m : M A) (k : A -> M B) : M B :=
  fun w =>
    match m w with
    | (Ok a, w') => k a w'
    | (Raise e, w') => (Raise e, w')
    end.

Notation "x <- m ;; k" := (bind m (fun x => k))
  (at level 61, m at next level, right associativity).

(** [try: m except HTTPException: raise except Exception as e: h e] *)
Definition try_except {A} (m : M A) (h : string -> M A) : M A :=
  fun w =>
    match m w with
    | (Raise (Exception msg), w') => h msg w'
    | r => r
    end.

(** *** The module [random]

    One raw draw is taken from the source for each call; the results
    range over all that the library functions can return. *)
Definition draw : M nat :=
  fun w =>
    match rng w with
    | [] => (Ok 0, w)
    | r :: rest => (Ok r, mkWorld rest (scraper_calls w))
    end.

(** [random.randint(a, b)]: an integer between [a] and [b], both
    included. *)
Definition randint (a b : nat) : M nat :=
  r <- draw ;; ret (a + r mod (b - a + 1)).

(** The position at which the point [x] falls among the cumulated
    weights; the last position closes the range. *)
Fixpoint pick (weights : list nat) (x : nat) (i : nat) : nat :=
  match weights with
  | [] => i
  | [_] => i
  | w :: rest => if x <? w then i else pick rest (x - w) (S i)
  end.

(** [random.choices(range(n), weights=weights)[0]] for [n] weights. *)
Definition choices (weights : list nat) : M nat :=
  r <- draw ;; ret (pick weights (r mod sum weights) 0).

Definition hour_weights : list nat :=
  [1; 1; 1; 1; 1; 2; 3; 5; 8; 10; 12; 14;
   15; 14; 13; 14; 16; 18; 20; 22; 18; 12; 6; 3].

Definition day_weights : list nat := [18; 20; 22; 20; 18; 12; 10].

(** The loop of lines 57-67.  Nothing catches the [IndexError] of the
    matrix here. *)
Fixpoint demo_loop (n : nat) (st : counters) : M counters :=
  match n with
  | O => ret st
  | S n' =>
      hour <- choices hour_weights ;;
      day <- choices day_weights ;;
      match tally hour day st with
      | (st', true) => demo_loop n' st'
      | (_, false) => raise (Exception "list index out of range")
      end
  end.

Definition to_peak_hour (hc : nat * nat) : Scraper.peak_hour :=
  Scraper.mkPeakHour (fst hc) (snd hc).

Definition to_peak_day (dc : nat * nat) : Scraper.peak_day :=
  Scraper.mkPeakDay (fst dc) (snd dc).

(** [generate_demo_data] *)
Definition generate_demo_data (username : string) : M ActivityResponse :=
  num_tweets <- randint 150 300 ;;
  st <- demo_loop num_tweets init_counters ;;
  let (hourly_dict, hourly') := to_dict (seq 0 24) (hourly st) in
  let (daily_dict, daily') := to_dict (seq 0 7) (daily st) in
  let sorted_hours := sorted_desc hourly' in
  let sorted_days := sorted_desc daily' in
  ret {|
    username := username;
    display_name := "@" ++ username;
    profile_image := "";
    total_tweets_analyzed := num_tweets;
    hourly_activity := hourly_dict;
    daily_activity := daily_dict;
    heatmap_data := heatmap_of st;
    peak_hours := map to_peak_hour (firstn 3 sorted_hours);
    peak_days := map to_peak_day (firstn 3 sorted_days);
    timezone_note := "Times shown in UTC (demo mode)";
    is_demo := true
  |}.

Section WithScraper.

(** The external collaborator [scrape_twitter_activity], as what a call
    returns or raises for a user name and [max_tweets]. *)
Variable scraper : string -> nat -> result Scraper.scraped_data.

Definition scrape_twitter_activity (username : string) (max_tweets : nat)
  : M Scraper.scraped_data :=
  fun w =>
    (scraper username max_tweets,
     mkWorld (rng w) ((username, max_tweets) :: scraper_calls w)).

(** [fetch_via_scraper].  The key ["error"] is always in the dictionary,
    so the default of [get] is not used; the value [None] has no
    [lower()]. *)
Definition fetch_via_scraper (username : string) : M ActivityResponse :=
  scraped_data <- scrape_twitter_activity username 50 ;;
  if negb (Scraper.success scraped_data) then
    match Scraper.error scraped_data with
    | None => raise (Exception "'NoneType' object has no attribute 'lower'")
    | Some error_msg =>
        if Py.contains "not found" (Py.lower error_msg)
           || Py.contains "suspended" (Py.lower error_msg)
        then raise (HTTPException 404 error_msg)
        else if Py.contains "timed out" (Py.lower error_msg)
        then raise (HTTPException 504 error_msg)
        else raise (HTTPException 500 error_msg)
    end
  else
    match Scraper.analyze_scraped_data scraped_data with
    | None => raise (HTTPException 404 ("No tweets found for @" ++ username))
    | Some analysis =>
        ret {|
          username := Scraper.a_username analysis;
          display_name := Scraper.a_display_name analysis;
          profile_image := Scraper.a_profile_image analysis;
          total_tweets_analyzed := Scraper.total_tweets_analyzed analysis;
          hourly_activity := Scraper.hourly_activity analysis;
          daily_activity := Scraper.daily_activity analysis;
          heatmap_data := Scraper.heatmap_data analysis;
          peak_hours := Scraper.peak_hours analysis;
          peak_days := Scraper.peak_days analysis;
          timezone_note := Scraper.timezone_note analysis;
          is_demo := false
        |}
    end.

(** [analyze_user], the handler of [/api/analyze/{username}]. *)
Definition analyze_user (username : string) (demo : bool)
  : M ActivityResponse :=
  let username := Py.lstrip (Py.strip username) "@" in
  if Py.is_empty username then
    raise (HTTPException 400 "Username is required")
  else if demo then generate_demo_data username
  else
    try_except (fetch_via_scraper username)
      (fun msg => raise (HTTPException 500 ("Error: " ++ msg))).

End WithScraper.

End Main.

(** ** Reading the summary: the notions the properties are stated with *)

Module Spec.

Import Counters.

(** The datetimes of the entries that parse, in the order of the input. *)
Fixpoint parsed (l : list Scraper.tweet) : list Datetime.datetime :=
  match l with
  | [] => []
  | tw :: rest =>
      match Scraper.parse_datetime (Scraper.tw_datetime tw) with
      | Some dt => dt :: parsed rest
      | None => parsed rest
      end
  end.

(** The (hour, day) pair an entry is counted under. *)
Definition bucket (dt : Datetime.datetime) : nat * nat :=
  (Datetime.hour dt, Datetime.weekday dt).

(** The pair of the instant once normalised to UTC. *)
Definition utc_bucket (dt : Datetime.datetime) : nat * nat :=
  (Datetime.utc_hour dt, Datetime.utc_weekday dt).

Definition same_bucket (a b : nat * nat) : bool :=
  (fst a =? fst b) && (snd a =? snd b).

(** How many of the events fall in the hour, in the day, in the cell. *)
Definition count_hour (h : nat) (ev : list (nat * nat)) : nat :=
  List.length (filter (fun e => fst e =? h) ev).

Definition count_day (d : nat) (ev : list (nat * nat)) : nat :=
  List.length (filter (fun e => snd e =? d) ev).

Definition count_cell (d h : nat) (ev : list (nat * nat)) : nat :=
  List.length (filter (same_bucket (h, d)) ev).

(** [heatmap[d][h]], 0 outside the matrix. *)
Definition cell (d h : nat) (hm : heatmap) : nat :=
  nth h (nth d hm []) 0.

(** [dict[key]] of a dictionary given by its items. *)
Fixpoint get_item (key : string) (d : list (string * nat)) : option nat :=
  match d with
  | [] => None
  | (k, v) :: rest => if String.eqb k key then Some v else get_item key rest
  end.

(** A pair (bucket, count) with a positive count. *)
Definition positive (bc : nat * nat) : bool := 0 <? snd bc.

(** The peak rule as the specification words it: the [n] pairs
    (bucket, count) in the order of the buckets, sorted by decreasing
    count with ties in that order, then the first three with a positive
    count. *)
Definition peaks_by_bucket_order (n : nat) (count : nat -> nat)
  : list (nat * nat) :=
  firstn 3
    (filter positive (sorted_desc (map (fun b => (b, count b)) (seq 0 n)))).

(** The peak rule with the pairs in the order the counter holds them. *)
Definition peaks_by_insertion_order (items : defaultdict)
  : list (nat * nat) :=
  firstn 3 (filter positive (sorted_desc items)).

(** [d.keys()], in insertion order. *)
Definition keys (d : defaultdict) : list nat := map fst d.

(** The keys of a counter after [k] is counted or read: a new key goes
    to the end. *)
Definition add_key (k : nat) (ks : list nat) : list nat :=
  if existsb (Nat.eqb k) ks then ks else ks ++ [k].

Definition add_keys (l : list nat) (ks : list nat) : list nat :=
  fold_left (fun ks k => add_key k ks) l ks.

(** The order in which a counter holds its [n] buckets at the time the
    peaks are taken: the buckets of the counted events in the order of
    their first occurrence, then the other buckets in increasing
    order. *)
Definition insertion_order (n : nat) (seen : list nat) : list nat :=
  add_keys (seq 0 n) (add_keys seen []).

(** A list of pairs is in decreasing order of count. *)
Fixpoint decreasing (l : list (nat * nat)) : bool :=
  match l with
  | [] => true
  | x :: rest =>
      match rest with
      | [] => true
      | y :: _ => (snd y <=? snd x) && decreasing rest
      end
  end.

(** The events fed to the counters by a run of [tally]s. *)
Definition tally_all (ev : list (nat * nat)) (st : counters) : counters :=
  fold_left (fun st e => fst (tally (fst e) (snd e) st)) ev st.

(** The dictionary has exactly the keys ["0"] .. [str(n-1)], in this
    order, and holds [count k] under [str(k)]. *)
Definition exposes (n : nat) (count : nat -> nat) (d : list (string * nat))
  : Prop :=
  map fst d = map Py.str (seq 0 n)
  /\ forall k, k < n -> get_item (Py.str k) d = Some (count k).

(** The counters at the end of the loop of [analyze_scraped_data]. *)
Definition final_counters (sd : Scraper.scraped_data) : counters :=
  fold_left Scraper.count_tweet (Scraper.tweets sd) init_counters.

(** The matrix has 7 rows of 24 cells. *)
Definition shaped (hm : heatmap) : Prop :=
  List.length hm = 7 /\ Forall (fun row => List.length row = 24) hm.

(** An event names an hour of the day and a day of the week. *)
Definition in_range (e : nat * nat) : Prop := fst e < 24 /\ snd e < 7.

(** The string does not start with a character of the set. *)
Definition starts_clean (p : ascii -> bool) (s : string) : Prop :=
  match s with
  | EmptyString => True
  | String a _ => p a = false
  end.

(** The categories of failure the boundary reports. *)
Inductive category := NotFound | TimedOut | Generic.

Definition classify (error_msg : string) : category :=
  if Py.contains "not found" (Py.lower error_msg)
     || Py.contains "suspended" (Py.lower error_msg)
  then NotFound
  else if Py.contains "timed out" (Py.lower error_msg) then TimedOut
  else Generic.

Definition status_of (c : category) : nat :=
  match c with NotFound => 404 | TimedOut => 504 | Generic => 500 end.

End Spec.

(** ** Inputs used as examples *)

Module Samples.

(** A successful scrape of the given timestamp strings. *)
Definition scraped (l : list string) : Scraper.scraped_data :=
  Scraper.mkScraped true "user" "@user" "" (map Scraper.mkTweet l) None.

Definition mixed : Scraper.scraped_data :=
  scraped ["2024-01-01T09:00:00Z"; "garbage"; "2024-01-01T09:30:00Z"].

Definition unparseable : Scraper.scraped_data := scraped ["not-a-date"].

Definition ties : Scraper.scraped_data :=
  scraped ["2024-01-01T10:00:00Z"; "2024-01-02T05:00:00Z"].

Definition with_offset : Scraper.scraped_data :=
  scraped ["2024-01-01T23:30:00-05:00"].

Definition one_bad : Scraper.scraped_data :=
  scraped ["2024-01-01T09:00:00Z"; "garbage"].

Definition all_good : Scraper.scraped_data :=
  scraped ["2024-01-01T09:00:00Z"; "2024-01-03T21:15:00.000Z"].

Definition fresh_world : Main.world := Main.mkWorld [7; 100; 200; 229; 3] [].

(** A failed scrape with the given error message. *)
Definition failed (msg : string) : Scraper.scraped_data :=
  Scraper.mkScraped false "ghost" "@ghost" "" [] (Some msg).

Definition not_found : Scraper.scraped_data :=
  failed "User @ghost not found or suspended".

Definition timed_out : Scraper.scraped_data :=
  failed "Request timed out. Twitter may be slow or blocking requests.".

(** A scraper that returns the same dictionary for every user. *)
Definition scraper_of (sd : Scraper.scraped_data)
  : string -> nat -> Main.result Scraper.scraped_data :=
  fun _ _ => Main.Ok sd.

End Samples.

(** ** [scrape_twitter_activity]

    The browser is outside the program.  A session gives in advance what
    each awaited call of the page returns or raises; the function is
    modelled from the point where the page exists (launching the browser
    and closing it are taken to succeed). *)

Module Scrape.

Import Scraper.

(** What an awaited call comes to: a value, Playwright's [TimeoutError],
    or another exception [e], kept as [str(e)]. *)
Inductive outcome (A : Type) :=
| Done (a : A)
| Timeout
| Failed (message : string).
Arguments Done {A} a.
Arguments Timeout {A}.
Arguments Failed {A} message.

(** - [goto]: loading the profile (line 44);
    - [content]: [page.content()] (line 50);
    - [user_name]: the text of the [UserName] element, [None] when there
      is no such element or a call of lines 58-60 raises (the [except]
      of line 63 passes);
    - [avatar_src]: the source of the profile image, [None] likewise
      (lines 67-72);
    - [tweet_elements i]: at the turn [i] of the loop, the tweets that
      [query_selector_all] finds (line 81), each as the [datetime]
      attribute of its [time] element, [None] when it has none or a call
      of lines 86-88 raises (the [except] of line 93 continues);
    - [scroll_by i]: scrolling down at the turn [i] (line 97). *)
Record session := mkSession {
  goto : outcome unit;
  content : outcome string;
  user_name : option string;
  avatar_src : option string;
  tweet_elements : nat -> outcome (list (option string));
  scroll_by : nat -> outcome unit
}.

(** [name_text.split('\n')[0]] *)
Fixpoint first_line (s : string) : string :=
  match s with
  | EmptyString => EmptyString
  | String c rest =>
      if Ascii.eqb c "010"%char then EmptyString
      else String c (first_line rest)
  end.

(** [datetime_str in [t["datetime"] for t in tweets_data]] *)
Definition known (datetime_str : string) (tweets_data : list tweet) : bool :=
  existsb (fun t => String.eqb (tw_datetime t) datetime_str) tweets_data.

(** The [for] loop of lines 83-94 over the tweets found at one turn. *)
Fixpoint collect (tweets_data : list tweet) (elems : list (option string))
  : list tweet :=
  match elems with
  | [] => tweets_data
  | Some datetime_str :: rest =>
      if negb (Py.is_empty datetime_str)
         && negb (known datetime_str tweets_data)
      then collect (tweets_data ++ [mkTweet datetime_str]) rest
      else collect tweets_data rest
  | None :: rest => collect tweets_data rest
  end.

Definition max_scrolls : nat := 10.

(** The [while] loop of lines 79-103, with [turns] turns left before
    [scroll_attempts] reaches [max_scrolls]. *)
Fixpoint scroll_loop (turns scroll_attempts max_tweets : nat) (s : session)
         (tweets_data : list tweet) : outcome (list tweet) :=
  match turns with
  | O => Done tweets_data
  | S turns' =>
      if List.length tweets_data <? max_tweets then
        match tweet_elements s scroll_attempts with
        | Done elems =>
            let tweets_data := collect tweets_data elems in
            match scroll_by s scroll_attempts with
            | Done _ =>
                if max_tweets <=? List.length tweets_data
                then Done tweets_data
                else scroll_loop turns' (S scroll_attempts) max_tweets s
                       tweets_data
            | Timeout => Timeout
            | Failed m => Failed m
            end
        | Timeout => Timeout
        | Failed m => Failed m
        end
      else Done tweets_data
  end.

Definition set_error (r : scraped_data) (msg : string) : scraped_data :=
  mkScraped (success r) (username r) (display_name r) (profile_image r)
    (tweets r) (Some msg).

Definition set_display_name (r : scraped_data) (name : string)
  : scraped_data :=
  mkScraped (success r) (username r) name (profile_image r) (tweets r)
    (error r).

Definition set_profile_image (r : scraped_data) (src : string)
  : scraped_data :=
  mkScraped (success r) (username r) (display_name r) src (tweets r)
    (error r).

(** Line 112, the [except] of [PlaywrightTimeout]. *)
Definition timed_out (r : scraped_data) : scraped_data :=
  set_error r "Request timed out. Twitter may be slow or blocking requests.".

(** Line 114, the [except] of any other exception. *)
Definition scraping_error (r : scraped_data) (e : string) : scraped_data :=
  set_error r ("Scraping error: " ++ e).

(** [scrape_twitter_activity] *)
Definition scrape_twitter_activity (s : session) (username : string)
           (max_tweets : nat) : scraped_data :=
  let result := mkScraped false username ("@" ++ username) "" [] None in
  match goto s with
  | Timeout => timed_out result
  | Failed e => scraping_error result e
  | Done _ =>
      match content s with
      | Timeout => timed_out result
      | Failed e => scraping_error result e
      | Done page_content =>
          if Py.contains "This account doesn't exist" page_content
             || Py.contains "Account suspended" page_content
          then set_error result
                 ("User @" ++ username ++ " not found or suspended")
          else
            let result :=
              match user_name s with
              | Some name_text =>
                  set_display_name result
                    (if Py.is_empty name_text then "@" ++ username
                     else first_line name_text)
              | None => result
              end in
            let result :=
              match avatar_src s with
              | Some src => set_profile_image result src
              | None => result
              end in
            match scroll_loop max_scrolls 0 max_tweets s [] with
            | Timeout => timed_out result
            | Failed e => scraping_error result e
            | Done tweets_data =>
                let found := 0 <? List.length tweets_data in
                mkScraped found username (display_name result)
                  (profile_image result) (firstn max_tweets tweets_data)
                  (if found then None
                   else Some ("No tweets found for @" ++ username)%string)
            end
      end
  end.

(** The scraper [fetch_via_scraper] calls, for a browser that behaves as
    the session says. *)
Definition scraper (s : session)
  : string -> nat -> Main.result scraped_data :=
  fun username max_tweets =>
    Main.Ok (scrape_twitter_activity s username max_tweets).

End Scrape.

(** ** Further notions *)

Module Notions.

Import Counters.

(** [sum(row[h] for row in heatmap)] *)
Definition column_sum (h : nat) (hm : heatmap) : nat :=
  sum (map (fun row => nth h row 0) hm).

(** [sum(heatmap[d])], 0 outside the matrix. *)
Definition row_sum (d : nat) (hm : heatmap) : nat :=
  sum (nth d hm []).

(** The datetime carries an offset. *)
Definition aware (dt : Datetime.datetime) : bool :=
  match Datetime.tzinfo dt with Some _ => true | None => false end.

(** [a <= b] for the wall-clock fields. *)
Definition fields_le (a b : Datetime.datetime) : Prop :=
  Datetime.cmp_fields (Datetime.fields a) (Datetime.fields b) <> Gt.

(** The pairs of the peak lists. *)
Definition hour_pair (p : Scraper.peak_hour) : nat * nat :=
  (Scraper.ph_hour p, Scraper.ph_count p).

Definition day_pair (p : Scraper.peak_day) : nat * nat :=
  (Scraper.pd_day p, Scraper.pd_count p).

(** The pairs (bucket, count) are a ranking of the [n] buckets: each
    pair holds a bucket below [n] with its count, no bucket comes twice,
    the counts decrease, and the first pair holds a greatest count. *)
Definition ranking (n : nat) (count : nat -> nat) (pairs : list (nat * nat))
  : Prop :=
  (forall b c, In (b, c) pairs -> b < n /\ c = count b)
  /\ NoDup (map fst pairs)
  /\ Spec.decreasing pairs = true
  /\ (forall b c rest, pairs = (b, c) :: rest ->
      forall k, k < n -> count k <= c).

(** A session in which the profile shows the same tweets at every
    turn. *)
Definition steady (l : list string) : Scrape.session :=
  Scrape.mkSession (Scrape.Done tt) (Scrape.Done "<html>profile</html>")
    (Some "Some One") None
    (fun _ => Scrape.Done (map (@Some string) l))
    (fun _ => Scrape.Done tt).

(** A session that lands on the page of an account that does not
    exist. *)
Definition missing : Scrape.session :=
  Scrape.mkSession (Scrape.Done tt)
    (Scrape.Done "<html>This account doesn't exist</html>")
    None None
    (fun _ => Scrape.Done [])
    (fun _ => Scrape.Done tt).

(** A session whose page does not load in time. *)
Definition slow : Scrape.session :=
  Scrape.mkSession Scrape.Timeout (Scrape.Done "") None None
    (fun _ => Scrape.Done [])
    (fun _ => Scrape.Done tt).

(** What each entry parses to. *)
Definition parses (l : list Scraper.tweet)
  : list (option Datetime.datetime) :=
  map (fun tw => Scraper.parse_datetime (Scraper.tw_datetime tw)) l.

(** No timestamp comes twice and none is empty. *)
Definition distinct (tweets_data : list Scraper.tweet) : Prop :=
  NoDup (map Scraper.tw_datetime tweets_data)
  /\ Forall (fun tw => Scraper.tw_datetime tw <> "") tweets_data.

(** The scrape up to the loop went through: the page loaded and showed
    a profile. *)
Definition profile_shown (s : Scrape.session) : Prop :=
  Scrape.goto s = Scrape.Done tt
  /\ exists page_content,
       Scrape.content s = Scrape.Done page_content
       /\ Py.contains "This account doesn't exist" page_content
          || Py.contains "Account suspended" page_content = false.

End Notions.

(** * Properties *)

Import Counters.

(** ** Counters *)

Section CounterFacts.

Lemma lookup_incr (h k : nat) (d : defaultdict) :
  lookup h (incr k d) = lookup h d + (if k =? h then 1 else 0).
Proof.
  induction d as [|[k' v] d IH]; simpl.
  - destruct (k =? h); reflexivity.
  - destruct (k' =? k) eqn:Ek; simpl.
    + apply Nat.eqb_eq in Ek; subst k'.
      destruct (k =? h); lia.
    + destruct (k' =? h) eqn:Eh.
      * apply Nat.eqb_eq in Eh; subst k'.
        rewrite Nat.eqb_sym, Ek. lia.
      * exact IH.
Qed.

Lemma lookup_touch (h k : nat) (d : defaultdict) :
  lookup h (touch k d) = lookup h d.
Proof.
  induction d as [|[k' v] d IH]; simpl.
  - destruct (k =? h); reflexivity.
  - destruct (k' =? k) eqn:Ek; simpl; [reflexivity|].
    destruct (k' =? h); [reflexivity | exact IH].
Qed.

Lemma to_dict_items (keys : list nat) (d : defaultdict) :
  fst (to_dict keys d) = map (fun k => (Py.str k, lookup k d)) keys.
Proof.
  revert d; induction keys as [|k keys IH]; intros d; simpl; [reflexivity|].
  specialize (IH (touch k d)).
  destruct (to_dict keys (touch k d)) as [kvs d']; simpl in *.
  rewrite IH. f_equal.
  apply map_ext; intros a. now rewrite lookup_touch.
Qed.

Lemma sum_app (l1 l2 : list nat) : sum (l1 ++ l2) = sum l1 + sum l2.
Proof.
  unfold sum. induction l1; simpl; [reflexivity | lia].
Qed.

(** One more in the bucket [k] is one more in the total over the
    buckets [a .. a+n-1] when [k] is among them. *)
Lemma sum_bump (f g : nat -> nat) (k a n : nat) :
  (forall h, g h = f h + (if k =? h then 1 else 0)) ->
  sum (map g (seq a n))
  = sum (map f (seq a n)) + (if (a <=? k) && (k <? a + n) then 1 else 0).
Proof.
  intros Hg. revert a; induction n as [|n IH]; intros a; simpl.
  - destruct (a <=? k) eqn:E1; simpl; [|reflexivity].
    destruct (k <? a + 0) eqn:E2; [|reflexivity].
    apply Nat.leb_le in E1. apply Nat.ltb_lt in E2. lia.
  - rewrite IH, Hg.
    destruct (k =? a) eqn:Ea.
    + apply Nat.eqb_eq in Ea; subst k.
      replace (a <=? a) with true by (symmetry; apply Nat.leb_le; lia).
      replace (S a <=? a) with false by (symmetry; apply Nat.leb_gt; lia).
      replace (a <? a + S n) with true by (symmetry; apply Nat.ltb_lt; lia).
      simpl. lia.
    + apply Nat.eqb_neq in Ea.
      replace (k <? S a + n) with (k <? a + S n) by (f_equal; lia).
      destruct (k <? a + S n); rewrite ?andb_false_r, ?andb_true_r.
      * destruct (a <=? k) eqn:E1, (S a <=? k) eqn:E2; try lia;
          [ apply Nat.leb_le in E1; apply Nat.leb_gt in E2; lia
          | apply Nat.leb_gt in E1; apply Nat.leb_le in E2; lia ].
      * lia.
Qed.

End CounterFacts.

(** ** The matrix *)

Section HeatmapFacts.

Lemma set_nth_length {A} (i : nat) (x : A) (l : list A) :
  List.length (set_nth i x l) = List.length l.
Proof.
  revert i; induction l as [|y l IH]; intros [|i]; simpl; auto.
Qed.

Lemma nth_set_nth {A} (i j : nat) (x d : A) (l : list A) :
  i < List.length l ->
  nth j (set_nth i x l) d = if j =? i then x else nth j l d.
Proof.
  revert i j; induction l as [|y l IH]; intros i j Hi; simpl in Hi; [lia|].
  destruct i as [|i], j as [|j]; simpl; try reflexivity.
  apply IH. lia.
Qed.

Lemma sum_set_nth {A} (f : A -> nat) (i : nat) (x y : A) (l : list A) :
  nth_error l i = Some y ->
  sum (map f (set_nth i x l)) + f y = sum (map f l) + f x.
Proof.
  revert i; induction l as [|z l IH]; intros [|i] H; simpl in *;
    try discriminate.
  - injection H as ->. lia.
  - specialize (IH i H). unfold sum in *. lia.
Qed.

Lemma Forall_set_nth {A} (P : A -> Prop) (i : nat) (x : A) (l : list A) :
  P x -> Forall P l -> Forall P (set_nth i x l).
Proof.
  intros Hx Hl. revert i; induction Hl as [|y l Hy Hl IH]; intros [|i];
    simpl; auto.
Qed.

Lemma shaped_empty : Spec.shaped empty_heatmap.
Proof.
  split; [reflexivity|]. unfold empty_heatmap.
  apply Forall_forall. intros row Hrow.
  apply repeat_spec in Hrow. subst row. reflexivity.
Qed.

Lemma cell_empty (d h : nat) : Spec.cell d h empty_heatmap = 0.
Proof.
  unfold Spec.cell, empty_heatmap.
  do 7 (destruct d as [|d]; [apply nth_repeat|]).
  cbn. destruct d, h; reflexivity.
Qed.

(** Within the matrix the increment succeeds, keeps the shape, adds one
    to the total and touches the one cell only. *)
Lemma heatmap_incr_in_range (day hour : nat) (hm : heatmap) :
  Spec.shaped hm -> hour < 24 -> day < 7 ->
  exists hm',
    heatmap_incr day hour hm = Some hm'
    /\ Spec.shaped hm'
    /\ sum_heatmap hm' = S (sum_heatmap hm)
    /\ forall d h,
         Spec.cell d h hm'
         = Spec.cell d h hm
           + (if Spec.same_bucket (hour, day) (h, d) then 1 else 0).
Proof.
  intros [Hlen Hrows] Hh Hd. unfold heatmap_incr.
  destruct (nth_error hm day) as [row|] eqn:Erow;
    [| apply nth_error_None in Erow; lia ].
  assert (Hrow : List.length row = 24).
  { apply nth_error_In in Erow.
    rewrite Forall_forall in Hrows. now apply Hrows. }
  destruct (nth_error row hour) as [v|] eqn:Ev;
    [| apply nth_error_None in Ev; lia ].
  eexists; split; [reflexivity|]. split; [|split].
  - split.
    + now rewrite set_nth_length.
    + apply Forall_set_nth; [now rewrite set_nth_length | exact Hrows].
  - unfold sum_heatmap.
    pose proof (sum_set_nth sum day (set_nth hour (S v) row) row hm Erow) as H1.
    pose proof (sum_set_nth (fun n => n) hour (S v) v row Ev) as H2.
    rewrite !map_id in H2. lia.
  - intros d h. unfold Spec.cell, Spec.same_bucket; simpl.
    rewrite nth_set_nth by lia.
    destruct (d =? day) eqn:Ed.
    + apply Nat.eqb_eq in Ed; subst d.
      rewrite Nat.eqb_refl, andb_true_r.
      rewrite nth_set_nth by lia.
      rewrite (nth_error_nth hm day [] Erow).
      rewrite (Nat.eqb_sym hour h).
      destruct (h =? hour) eqn:Eh.
      * apply Nat.eqb_eq in Eh; subst h.
        rewrite (nth_error_nth row hour 0 Ev). lia.
      * lia.
    + rewrite (Nat.eqb_sym day d), Ed, andb_false_r. lia.
Qed.

End HeatmapFacts.

(** ** A run of increments *)

Section TallyFacts.

Lemma tally_all_cons (e : nat * nat) (ev : list (nat * nat)) (st : counters) :
  Spec.tally_all (e :: ev) st
  = Spec.tally_all ev (fst (tally (fst e) (snd e) st)).
Proof. reflexivity. Qed.

Lemma tally_hourly (hour day : nat) (st : counters) :
  hourly (fst (tally hour day st)) = incr hour (hourly st).
Proof.
  unfold tally. now destruct (heatmap_incr day hour (heatmap_of st)).
Qed.

Lemma tally_daily (hour day : nat) (st : counters) :
  daily (fst (tally hour day st)) = incr day (daily st).
Proof.
  unfold tally. now destruct (heatmap_incr day hour (heatmap_of st)).
Qed.

Lemma count_hour_cons (h : nat) (e : nat * nat) (ev : list (nat * nat)) :
  Spec.count_hour h (e :: ev)
  = Spec.count_hour h ev + (if fst e =? h then 1 else 0).
Proof.
  unfold Spec.count_hour; simpl. destruct (fst e =? h); simpl; lia.
Qed.

Lemma count_day_cons (d : nat) (e : nat * nat) (ev : list (nat * nat)) :
  Spec.count_day d (e :: ev)
  = Spec.count_day d ev + (if snd e =? d then 1 else 0).
Proof.
  unfold Spec.count_day; simpl. destruct (snd e =? d); simpl; lia.
Qed.

Lemma count_cell_cons (d h : nat) (e : nat * nat) (ev : list (nat * nat)) :
  Spec.count_cell d h (e :: ev)
  = Spec.count_cell d h ev
    + (if Spec.same_bucket e (h, d) then 1 else 0).
Proof.
  unfold Spec.count_cell; simpl.
  replace (Spec.same_bucket (h, d) e) with (Spec.same_bucket e (h, d)).
  - destruct (Spec.same_bucket e (h, d)); simpl; lia.
  - unfold Spec.same_bucket; simpl.
    now rewrite (Nat.eqb_sym h), (Nat.eqb_sym d).
Qed.

(** Each counter holds, for every key, what it held plus the number of
    events of that key. *)
Lemma tally_all_hourly (h : nat) (ev : list (nat * nat)) (st : counters) :
  lookup h (hourly (Spec.tally_all ev st))
  = lookup h (hourly st) + Spec.count_hour h ev.
Proof.
  revert st; induction ev as [|e ev IH]; intros st.
  - simpl. unfold Spec.count_hour; simpl. lia.
  - rewrite tally_all_cons, IH, tally_hourly, lookup_incr, count_hour_cons.
    lia.
Qed.

Lemma tally_all_daily (d : nat) (ev : list (nat * nat)) (st : counters) :
  lookup d (daily (Spec.tally_all ev st))
  = lookup d (daily st) + Spec.count_day d ev.
Proof.
  revert st; induction ev as [|e ev IH]; intros st.
  - simpl. unfold Spec.count_day; simpl. lia.
  - rewrite tally_all_cons, IH, tally_daily, lookup_incr, count_day_cons.
    lia.
Qed.

(** Over events within range the matrix keeps its shape, its total grows
    by the number of events, and each cell by the events of that cell. *)
Lemma tally_all_heatmap (ev : list (nat * nat)) (st : counters) :
  Spec.shaped (heatmap_of st) -> Forall Spec.in_range ev ->
  Spec.shaped (heatmap_of (Spec.tally_all ev st))
  /\ sum_heatmap (heatmap_of (Spec.tally_all ev st))
     = sum_heatmap (heatmap_of st) + List.length ev
  /\ forall d h,
       Spec.cell d h (heatmap_of (Spec.tally_all ev st))
       = Spec.cell d h (heatmap_of st) + Spec.count_cell d h ev.
Proof.
  intros Hs Hev. revert st Hs.
  induction Hev as [|e ev [Hh Hd] Hev IH]; intros st Hs.
  - unfold Spec.tally_all; simpl.
    split; [exact Hs|]. split; [lia|].
    intros d h. unfold Spec.count_cell; simpl. lia.
  - rewrite tally_all_cons.
    destruct (heatmap_incr_in_range (snd e) (fst e) (heatmap_of st) Hs Hh Hd)
      as (hm' & Hinc & Hs' & Hsum & Hcell).
    assert (Hst : heatmap_of (fst (tally (fst e) (snd e) st)) = hm').
    { unfold tally. now rewrite Hinc. }
    specialize (IH (fst (tally (fst e) (snd e) st))).
    rewrite Hst in IH. destruct (IH Hs') as (IH1 & IH2 & IH3).
    split; [exact IH1|]. split.
    + rewrite IH2, Hsum. simpl. lia.
    + intros d h. rewrite IH3, Hcell, count_cell_cons.
      destruct e as [eh ed]; simpl. lia.
Qed.

(** The counts by hour over the 24 hours add up to the number of events;
    likewise the counts by day over the 7 days. *)
Lemma sum_count_hour (ev : list (nat * nat)) :
  Forall Spec.in_range ev ->
  sum (map (fun h => Spec.count_hour h ev) (seq 0 24)) = List.length ev.
Proof.
  induction 1 as [|e ev [Hh Hd] Hev IH].
  - reflexivity.
  - rewrite (sum_bump (fun h => Spec.count_hour h ev) _ (fst e) 0 24)
      by (intros h; apply count_hour_cons).
    rewrite IH.
    replace (0 <=? fst e) with true by (symmetry; apply Nat.leb_le; lia).
    replace (fst e <? 0 + 24) with true by (symmetry; apply Nat.ltb_lt; lia).
    simpl. lia.
Qed.

Lemma sum_count_day (ev : list (nat * nat)) :
  Forall Spec.in_range ev ->
  sum (map (fun d => Spec.count_day d ev) (seq 0 7)) = List.length ev.
Proof.
  induction 1 as [|e ev [Hh Hd] Hev IH].
  - reflexivity.
  - rewrite (sum_bump (fun d => Spec.count_day d ev) _ (snd e) 0 7)
      by (intros d; apply count_day_cons).
    rewrite IH.
    replace (0 <=? snd e) with true by (symmetry; apply Nat.leb_le; lia).
    replace (snd e <? 0 + 7) with true by (symmetry; apply Nat.ltb_lt; lia).
    simpl. lia.
Qed.

(** The dictionaries built from the counters of a run that started from
    nothing. *)
Lemma hourly_dict_of_run (ev : list (nat * nat)) :
  fst (to_dict (seq 0 24) (hourly (Spec.tally_all ev init_counters)))
  = map (fun h => (Py.str h, Spec.count_hour h ev)) (seq 0 24).
Proof.
  rewrite to_dict_items. apply map_ext. intros h.
  now rewrite tally_all_hourly.
Qed.

Lemma daily_dict_of_run (ev : list (nat * nat)) :
  fst (to_dict (seq 0 7) (daily (Spec.tally_all ev init_counters)))
  = map (fun d => (Py.str d, Spec.count_day d ev)) (seq 0 7).
Proof.
  rewrite to_dict_items. apply map_ext. intros d.
  now rewrite tally_all_daily.
Qed.

Lemma sum_values_dict (f : nat -> nat) (keys : list nat) :
  sum_values (map (fun k => (Py.str k, f k)) keys) = sum (map f keys).
Proof.
  unfold sum_values. now rewrite map_map.
Qed.

End TallyFacts.

(** ** The aggregator *)

Section ScraperFacts.

Import Scraper.

(** A datetime that [fromisoformat] returns has passed the checks of
    the constructor. *)
Lemma fromisoformat_checked (s : string) (dt : Datetime.datetime) :
  Datetime.fromisoformat s = Some dt -> Datetime.check_fields dt = true.
Proof.
  unfold Datetime.fromisoformat.
  destruct (Datetime.parse_isoformat_date _) as [[[y mo] d]|]; [|discriminate].
  destruct (if Py.is_empty _ then _ else _) as [[[[[h mi] sec] us] tz]|];
    [|discriminate].
  destruct (Datetime.check_fields _) eqn:E; [|discriminate].
  intros H. injection H as <-. exact E.
Qed.

Lemma parse_datetime_in_range (s : string) (dt : Datetime.datetime) :
  parse_datetime s = Some dt -> Spec.in_range (Spec.bucket dt).
Proof.
  intros H.
  assert (Hc : Datetime.check_fields dt = true).
  { unfold parse_datetime in H.
    destruct (Py.endswith s "Z"); eapply fromisoformat_checked; exact H. }
  split; simpl.
  - unfold Datetime.check_fields in Hc.
    repeat (apply andb_prop in Hc; destruct Hc as [Hc ?]).
    match goal with
    | Hh : (Datetime.hour dt <=? 23) = true |- _ =>
        apply Nat.leb_le in Hh; lia
    end.
  - unfold Datetime.weekday. apply Nat.mod_upper_bound. discriminate.
Qed.

Lemma parsed_in_range (l : list tweet) :
  Forall Spec.in_range (map Spec.bucket (Spec.parsed l)).
Proof.
  induction l as [|tw l IH]; simpl; [constructor|].
  destruct (parse_datetime (tw_datetime tw)) as [dt|] eqn:E; [|exact IH].
  simpl. constructor; [|exact IH].
  eapply parse_datetime_in_range; exact E.
Qed.

(** The loop over the tweets is a run of increments over the entries
    that parse. *)
Lemma count_tweets_run (l : list tweet) (st : counters) :
  fold_left count_tweet l st
  = Spec.tally_all (map Spec.bucket (Spec.parsed l)) st.
Proof.
  revert st; induction l as [|tw l IH]; intros st; simpl; [reflexivity|].
  unfold count_tweet at 2.
  destruct (parse_datetime (tw_datetime tw)) as [dt|]; simpl.
  - rewrite IH. reflexivity.
  - apply IH.
Qed.

(** What [analyze_scraped_data] returns when it returns a summary. *)
Lemma analyze_some (sd : scraped_data) :
  success sd = true -> tweets sd <> [] ->
  exists a,
    analyze_scraped_data sd = Some a
    /\ total_tweets_analyzed a = List.length (tweets sd)
    /\ hourly_activity a
       = fst (to_dict (seq 0 24) (hourly (Spec.final_counters sd)))
    /\ daily_activity a
       = fst (to_dict (seq 0 7) (daily (Spec.final_counters sd)))
    /\ heatmap_data a = heatmap_of (Spec.final_counters sd)
    /\ peak_hours a
       = map (fun hc => mkPeakHour (fst hc) (snd hc))
           (top3_positive
              (snd (to_dict (seq 0 24) (hourly (Spec.final_counters sd)))))
    /\ peak_days a
       = map (fun dc => mkPeakDay (fst dc) (snd dc))
           (top3_positive
              (snd (to_dict (seq 0 7) (daily (Spec.final_counters sd)))))
    /\ last_tweet_time a = most_recent (tweets sd)
    /\ timezone_note a = "Times shown in UTC (scraped)".
Proof.
  intros Hs Hne. unfold analyze_scraped_data, Spec.final_counters.
  rewrite Hs. destruct (tweets sd) as [|tw l] eqn:El; [congruence|].
  cbn [negb orb].
  destruct (to_dict (seq 0 24) _) as [hd h'].
  destruct (to_dict (seq 0 7) _) as [dd d'].
  eexists; split; [reflexivity|]. cbn. repeat split; reflexivity.
Qed.

End ScraperFacts.

(** ** The demo generator *)

Section DemoFacts.

Import Main.

Lemma pick_lt (weights : list nat) (x i : nat) :
  weights <> [] -> pick weights x i < i + List.length weights.
Proof.
  revert x i; induction weights as [|w rest IH]; intros x i Hne;
    [congruence|].
  destruct rest as [|w2 rest]; [simpl; lia|].
  change (pick (w :: w2 :: rest) x i)
    with (if x <? w then i else pick (w2 :: rest) (x - w) (S i)).
  destruct (x <? w).
  - simpl. lia.
  - specialize (IH (x - w) (S i)). simpl in *.
    assert (w2 :: rest <> []) by discriminate. intuition lia.
Qed.

(** A draw moves the random source only. *)
Lemma draw_spec (w : world) :
  exists r w', draw w = (Ok r, w') /\ scraper_calls w' = scraper_calls w.
Proof.
  unfold draw. destruct (rng w) as [|r rest]; eauto.
Qed.

Lemma randint_spec (a b : nat) (w : world) :
  a <= b ->
  exists n w',
    randint a b w = (Ok n, w') /\ a <= n <= b
    /\ scraper_calls w' = scraper_calls w.
Proof.
  intros Hab. unfold randint, bind, ret.
  destruct (draw_spec w) as (r & w' & -> & Hc).
  eexists; eexists; split; [reflexivity|]. split; [|exact Hc].
  pose proof (Nat.mod_upper_bound r (b - a + 1)). lia.
Qed.

Lemma choices_spec (weights : list nat) (w : world) :
  weights <> [] ->
  exists k w',
    choices weights w = (Ok k, w') /\ k < List.length weights
    /\ scraper_calls w' = scraper_calls w.
Proof.
  intros Hne. unfold choices, bind, ret.
  destruct (draw_spec w) as (r & w' & -> & Hc).
  eexists; eexists; split; [reflexivity|]. split; [|exact Hc].
  apply (pick_lt weights _ 0 Hne).
Qed.

(** The loop of the generator never fails: it is a run of increments
    over as many events, within range, as it has turns. *)
Lemma demo_loop_run (n : nat) (st : counters) (w : world) :
  Spec.shaped (heatmap_of st) ->
  exists ev w',
    demo_loop n st w = (Ok (Spec.tally_all ev st), w')
    /\ List.length ev = n
    /\ Forall Spec.in_range ev
    /\ scraper_calls w' = scraper_calls w.
Proof.
  revert st w; induction n as [|n IH]; intros st w Hs.
  - exists [], w. repeat split; constructor.
  - cbn [demo_loop]. unfold bind at 1.
    destruct (choices_spec hour_weights w) as (hour & w1 & -> & Hh & Hc1);
      [discriminate|].
    unfold bind at 1.
    destruct (choices_spec day_weights w1) as (day & w2 & -> & Hd & Hc2);
      [discriminate|].
    change (List.length hour_weights) with 24 in Hh.
    change (List.length day_weights) with 7 in Hd.
    destruct (heatmap_incr_in_range day hour (heatmap_of st) Hs Hh Hd)
      as (hm' & Hinc & Hs' & _).
    assert (Ht : tally hour day st
                 = (fst (tally hour day st), true)).
    { unfold tally. now rewrite Hinc. }
    assert (Hhm : heatmap_of (fst (tally hour day st)) = hm').
    { unfold tally. now rewrite Hinc. }
    rewrite Ht.
    destruct (IH (fst (tally hour day st)) w2) as (ev & w' & -> & Hl & Hr & Hc).
    { now rewrite Hhm. }
    exists ((hour, day) :: ev), w'.
    split; [reflexivity|]. split; [simpl; lia|]. split.
    + constructor; [split; assumption | exact Hr].
    + congruence.
Qed.

(** What [generate_demo_data] returns: always a response. *)
Lemma generate_demo_data_ok (username : string) (w : world) :
  exists n ev w',
    150 <= n <= 300
    /\ List.length ev = n
    /\ Forall Spec.in_range ev
    /\ scraper_calls w' = scraper_calls w
    /\ generate_demo_data username w
       = (Ok {|
            Main.username := username;
            display_name := "@" ++ username;
            profile_image := "";
            total_tweets_analyzed := n;
            hourly_activity :=
              fst (to_dict (seq 0 24)
                     (hourly (Spec.tally_all ev init_counters)));
            daily_activity :=
              fst (to_dict (seq 0 7)
                     (daily (Spec.tally_all ev init_counters)));
            heatmap_data := heatmap_of (Spec.tally_all ev init_counters);
            peak_hours :=
              map to_peak_hour
                (firstn 3
                   (sorted_desc
                      (snd (to_dict (seq 0 24)
                              (hourly (Spec.tally_all ev init_counters))))));
            peak_days :=
              map to_peak_day
                (firstn 3
                   (sorted_desc
                      (snd (to_dict (seq 0 7)
                              (daily (Spec.tally_all ev init_counters))))));
            timezone_note := "Times shown in UTC (demo mode)";
            is_demo := true
          |}, w').
Proof.
  unfold generate_demo_data. unfold bind at 1.
  destruct (randint_spec 150 300 w) as (n & w1 & -> & Hn & Hc1); [lia|].
  unfold bind at 1.
  destruct (demo_loop_run n init_counters w1 shaped_empty)
    as (ev & w' & -> & Hl & Hr & Hc2).
  exists n, ev, w'.
  split; [exact Hn|]. split; [exact Hl|]. split; [exact Hr|].
  split; [congruence|].
  destruct (to_dict (seq 0 24) _) as [hd h'].
  destruct (to_dict (seq 0 7) _) as [dd d'].
  reflexivity.
Qed.

End DemoFacts.

(** ** Keys of the dictionaries *)

Section KeyFacts.

Lemma to_uint_nonnil (n : nat) : Nat.to_uint n <> Decimal.Nil.
Proof.
  rewrite <- (Unsigned.of_to n) at 1. rewrite Unsigned.to_of.
  apply unorm_nonnil.
Qed.

(** Two numbers with the same decimal writing are equal. *)
Lemma str_inj (n m : nat) : Py.str n = Py.str m -> n = m.
Proof.
  unfold Py.str. intros H.
  apply Unsigned.to_uint_inj.
  pose proof (NilZero.usu _ (to_uint_nonnil n)) as Hn.
  pose proof (NilZero.usu _ (to_uint_nonnil m)) as Hm.
  rewrite H in Hn. congruence.
Qed.

Lemma get_item_dict (f : nat -> nat) (keys : list nat) (k : nat) :
  In k keys ->
  Spec.get_item (Py.str k) (map (fun j => (Py.str j, f j)) keys)
  = Some (f k).
Proof.
  induction keys as [|j keys IH]; intros Hin; [destruct Hin|].
  simpl. destruct (String.eqb (Py.str j) (Py.str k)) eqn:E.
  - apply String.eqb_eq in E. apply str_inj in E. now subst.
  - apply String.eqb_neq in E. destruct Hin as [->|Hin]; [congruence|].
    now apply IH.
Qed.

Lemma keys_dict (f : nat -> nat) (keys : list nat) :
  map fst (map (fun j => (Py.str j, f j)) keys) = map Py.str keys.
Proof.
  rewrite map_map. reflexivity.
Qed.

Lemma count_hour_none (h : nat) (ev : list (nat * nat)) :
  (forall e, In e ev -> fst e <> h) -> Spec.count_hour h ev = 0.
Proof.
  unfold Spec.count_hour.
  induction ev as [|e ev IH]; intros H; simpl; [reflexivity|].
  destruct (fst e =? h) eqn:E.
  - apply Nat.eqb_eq in E. exfalso. apply (H e); [now left | exact E].
  - apply IH. intros e' He'. apply H. now right.
Qed.

Lemma count_day_none (d : nat) (ev : list (nat * nat)) :
  (forall e, In e ev -> snd e <> d) -> Spec.count_day d ev = 0.
Proof.
  unfold Spec.count_day.
  induction ev as [|e ev IH]; intros H; simpl; [reflexivity|].
  destruct (snd e =? d) eqn:E.
  - apply Nat.eqb_eq in E. exfalso. apply (H e); [now left | exact E].
  - apply IH. intros e' He'. apply H. now right.
Qed.

End KeyFacts.

(** ** The summary of a run *)

Section SummaryFacts.

Import Scraper.

(** The events the aggregator counts: the buckets of the entries that
    parse. *)
Lemma analyze_counts (sd : scraped_data) :
  success sd = true -> tweets sd <> [] ->
  exists a,
    analyze_scraped_data sd = Some a
    /\ total_tweets_analyzed a = List.length (tweets sd)
    /\ hourly_activity a
       = map (fun h => (Py.str h,
                        Spec.count_hour h
                          (map Spec.bucket (Spec.parsed (tweets sd)))))
           (seq 0 24)
    /\ daily_activity a
       = map (fun d => (Py.str d,
                        Spec.count_day d
                          (map Spec.bucket (Spec.parsed (tweets sd)))))
           (seq 0 7)
    /\ Spec.shaped (heatmap_data a)
    /\ sum_heatmap (heatmap_data a)
       = List.length (Spec.parsed (tweets sd))
    /\ forall d h,
         Spec.cell d h (heatmap_data a)
         = Spec.count_cell d h (map Spec.bucket (Spec.parsed (tweets sd))).
Proof.
  intros Hs Hne.
  destruct (analyze_some sd Hs Hne)
    as (a & Ha & Ht & Hh & Hd & Hm & _).
  exists a. split; [exact Ha|]. split; [exact Ht|].
  unfold Spec.final_counters in *. rewrite count_tweets_run in *.
  rewrite hourly_dict_of_run in Hh. rewrite daily_dict_of_run in Hd.
  split; [exact Hh|]. split; [exact Hd|].
  destruct (tally_all_heatmap (map Spec.bucket (Spec.parsed (tweets sd)))
              init_counters shaped_empty (parsed_in_range _))
    as (H1 & H2 & H3).
  rewrite Hm. split; [exact H1|]. split.
  - rewrite H2, length_map. reflexivity.
  - intros d h. rewrite H3. cbn [heatmap_of init_counters].
    now rewrite cell_empty.
Qed.

End SummaryFacts.

Section DemoSummary.

Import Main.

(** The events the generator counts. *)
Lemma demo_counts (username : string) (w : world) :
  exists n ev r w',
    generate_demo_data username w = (Ok r, w')
    /\ 150 <= n <= 300
    /\ List.length ev = n
    /\ Forall Spec.in_range ev
    /\ total_tweets_analyzed r = n
    /\ hourly_activity r
       = map (fun h => (Py.str h, Spec.count_hour h ev)) (seq 0 24)
    /\ daily_activity r
       = map (fun d => (Py.str d, Spec.count_day d ev)) (seq 0 7)
    /\ heatmap_data r = heatmap_of (Spec.tally_all ev init_counters)
    /\ sum_heatmap (heatmap_data r) = n
    /\ is_demo r = true
    /\ timezone_note r = "Times shown in UTC (demo mode)"
    /\ scraper_calls w' = scraper_calls w.
Proof.
  destruct (generate_demo_data_ok username w)
    as (n & ev & w' & Hn & Hl & Hr & Hc & Hg).
  eexists n, ev, _, w'. split; [exact Hg|].
  cbn [total_tweets_analyzed hourly_activity daily_activity heatmap_data
       is_demo timezone_note].
  split; [exact Hn|]. split; [exact Hl|]. split; [exact Hr|].
  split; [reflexivity|].
  split; [apply hourly_dict_of_run|].
  split; [apply daily_dict_of_run|].
  split; [reflexivity|].
  destruct (tally_all_heatmap ev init_counters shaped_empty Hr)
    as (_ & H2 & _).
  split; [rewrite H2; cbn; lia|].
  repeat split. exact Hc.
Qed.

End DemoSummary.

(** * The claims *)

Section Totals.

Import Scraper.

(** C1 (as amended).  In a run of [analyze_scraped_data] over a
    non-empty input, the values of the hourly map, the values of the
    daily map and the cells of the matrix each add up to the number of
    entries that parse, while the reported total is the number of
    entries of the input; the four are equal when every entry parses.
    In [generate_demo_data] the four are always equal. *)
Theorem C1_totals_of_a_run
  (sd : scraped_data) (username : string) (w : Main.world) :
  (success sd = true -> tweets sd <> [] ->
   exists a,
     analyze_scraped_data sd = Some a
     /\ sum_values (hourly_activity a)
        = List.length (Spec.parsed (tweets sd))
     /\ sum_values (daily_activity a)
        = List.length (Spec.parsed (tweets sd))
     /\ sum_heatmap (heatmap_data a)
        = List.length (Spec.parsed (tweets sd))
     /\ total_tweets_analyzed a = List.length (tweets sd))
  /\ (exists r w',
        Main.generate_demo_data username w = (Main.Ok r, w')
        /\ sum_values (Main.hourly_activity r)
           = Main.total_tweets_analyzed r
        /\ sum_values (Main.daily_activity r)
           = Main.total_tweets_analyzed r
        /\ sum_heatmap (Main.heatmap_data r)
           = Main.total_tweets_analyzed r).
Proof.
  split.
  - intros Hs Hne.
    destruct (analyze_counts sd Hs Hne)
      as (a & Ha & Ht & Hh & Hd & _ & Hm & _).
    exists a. split; [exact Ha|].
    rewrite Hh, Hd, !sum_values_dict.
    rewrite sum_count_hour, sum_count_day by apply parsed_in_range.
    rewrite length_map. auto.
  - destruct (demo_counts username w)
      as (n & ev & r & w' & Hg & _ & Hl & Hr & Ht & Hh & Hd & _ & Hm & _).
    exists r, w'. split; [exact Hg|].
    rewrite Hh, Hd, !sum_values_dict, Ht, Hm.
    rewrite sum_count_hour, sum_count_day by exact Hr.
    auto.
Qed.

Lemma C1_totals_witness :
  exists a,
    analyze_scraped_data Samples.all_good = Some a
    /\ sum_values (hourly_activity a) = 2
    /\ sum_values (daily_activity a) = 2
    /\ sum_heatmap (heatmap_data a) = 2
    /\ total_tweets_analyzed a = 2.
Proof.
  apply (proj1 (C1_totals_of_a_run Samples.all_good "x" Samples.fresh_world)).
  - reflexivity.
  - discriminate.
Defined.

(** C1 as stated fails: with an entry that does not parse, the hourly
    values add up to less than the reported total. *)
Lemma C1_counterexample :
  ~ (forall sd a,
       tweets sd <> [] -> analyze_scraped_data sd = Some a ->
       sum_values (hourly_activity a) = total_tweets_analyzed a).
Proof.
  intros H.
  specialize (H Samples.one_bad).
  vm_compute in H.
  specialize (H _ ltac:(discriminate) eq_refl).
  discriminate.
Qed.

End Totals.

Section Buckets.

Import Scraper.

Lemma exposes_dict (n : nat) (count : nat -> nat) :
  Spec.exposes n count (map (fun k => (Py.str k, count k)) (seq 0 n)).
Proof.
  split; [apply keys_dict|].
  intros k Hk. apply get_item_dict. apply in_seq. lia.
Qed.

(** C2 (as amended).  An entry that does not parse is left out of the
    hourly, daily and matrix counts, which hold the entries that parse,
    and is counted in the reported total, which is the number of entries
    of the input.  For the input
    ["2024-01-01T09:00:00Z", "garbage", "2024-01-01T09:30:00Z"] the
    total is 3, the hour ["9"] holds 2 and every other hour 0. *)
Theorem C2_entries_that_do_not_parse (sd : scraped_data) :
  (success sd = true -> tweets sd <> [] ->
   exists a,
     analyze_scraped_data sd = Some a
     /\ Spec.exposes 24
          (fun h => Spec.count_hour h
                      (map Spec.bucket (Spec.parsed (tweets sd))))
          (hourly_activity a)
     /\ Spec.exposes 7
          (fun d => Spec.count_day d
                      (map Spec.bucket (Spec.parsed (tweets sd))))
          (daily_activity a)
     /\ (forall d h,
           Spec.cell d h (heatmap_data a)
           = Spec.count_cell d h
               (map Spec.bucket (Spec.parsed (tweets sd))))
     /\ total_tweets_analyzed a = List.length (tweets sd))
  /\ (exists a,
        analyze_scraped_data Samples.mixed = Some a
        /\ total_tweets_analyzed a = 3
        /\ Spec.get_item "9" (hourly_activity a) = Some 2
        /\ forall k v,
             In (k, v) (hourly_activity a) -> k <> "9" -> v = 0).
Proof.
  split.
  - intros Hs Hne.
    destruct (analyze_counts sd Hs Hne)
      as (a & Ha & Ht & Hh & Hd & _ & _ & Hc).
    exists a. split; [exact Ha|].
    rewrite Hh, Hd.
    split; [apply exposes_dict|]. split; [apply exposes_dict|].
    split; [exact Hc | exact Ht].
  - eexists. split; [vm_compute; reflexivity|].
    split; [reflexivity|]. split; [reflexivity|].
    intros k v Hin Hk. cbn in Hin.
    repeat (destruct Hin as [Hin|Hin];
            [injection Hin as <- <-; try reflexivity; congruence|]).
    destruct Hin.
Qed.

Lemma C2_entries_witness :
  exists a,
    analyze_scraped_data Samples.mixed = Some a
    /\ Spec.exposes 24
         (fun h => Spec.count_hour h
                     (map Spec.bucket (Spec.parsed (tweets Samples.mixed))))
         (hourly_activity a)
    /\ Spec.exposes 7
         (fun d => Spec.count_day d
                     (map Spec.bucket (Spec.parsed (tweets Samples.mixed))))
         (daily_activity a)
    /\ (forall d h,
          Spec.cell d h (heatmap_data a)
          = Spec.count_cell d h
              (map Spec.bucket (Spec.parsed (tweets Samples.mixed))))
    /\ total_tweets_analyzed a = List.length (tweets Samples.mixed).
Proof.
  apply (proj1 (C2_entries_that_do_not_parse Samples.mixed)).
  - reflexivity.
  - discriminate.
Defined.

(** C2 as stated fails: on its own example the reported total is 3,
    not 2. *)
Lemma C2_counterexample :
  ~ (exists a,
       analyze_scraped_data Samples.mixed = Some a
       /\ total_tweets_analyzed a = 2).
Proof.
  intros (a & Ha & Ht). vm_compute in Ha.
  injection Ha as <-. discriminate Ht.
Qed.

End Buckets.

Section NoSummary.

Import Scraper.

Lemma parse_all_none (l : list tweet) :
  l <> [] -> Spec.parsed l = [] -> parse_all l = None.
Proof.
  destruct l as [|tw l]; [congruence|]. intros _. simpl.
  destruct (parse_datetime (tw_datetime tw)); [discriminate | reflexivity].
Qed.

(** C3 (as amended).  [analyze_scraped_data] returns [None] exactly when
    the success flag is off or the list of entries is empty.  Over a
    non-empty list in which no entry parses it returns a summary: every
    hourly and daily value is 0, the peak lists are empty, there is no
    most recent timestamp, and the total is the number of entries. *)
Theorem C3_when_there_is_no_summary (sd : scraped_data) :
  (analyze_scraped_data sd = None <-> success sd = false \/ tweets sd = [])
  /\ (success sd = true -> tweets sd <> [] ->
      Spec.parsed (tweets sd) = [] ->
      exists a,
        analyze_scraped_data sd = Some a
        /\ (forall k v, In (k, v) (hourly_activity a) -> v = 0)
        /\ (forall k v, In (k, v) (daily_activity a) -> v = 0)
        /\ sum_heatmap (heatmap_data a) = 0
        /\ peak_hours a = [] /\ peak_days a = []
        /\ last_tweet_time a = None
        /\ total_tweets_analyzed a = List.length (tweets sd)).
Proof.
  split.
  - split.
    + intros H. destruct (success sd) eqn:Hs; [|now left].
      destruct (tweets sd) as [|tw l] eqn:Hl; [now right|].
      destruct (analyze_some sd Hs) as (a & Ha & _); [congruence|].
      congruence.
    + unfold analyze_scraped_data. intros [-> | ->]; [reflexivity|].
      now rewrite orb_true_r.
  - intros Hs Hne Hp.
    destruct (analyze_some sd Hs Hne)
      as (a & Ha & Ht & Hh & Hd & Hm & Hph & Hpd & Hl & _).
    assert (Hc : Spec.final_counters sd = init_counters).
    { unfold Spec.final_counters. now rewrite count_tweets_run, Hp. }
    rewrite Hc in *.
    exists a. split; [exact Ha|].
    rewrite Hh, Hd, Hm, Hph, Hpd, Hl.
    split.
    { intros k v Hin. cbn in Hin.
      repeat (destruct Hin as [Hin|Hin]; [now injection Hin|]).
      destruct Hin. }
    split.
    { intros k v Hin. cbn in Hin.
      repeat (destruct Hin as [Hin|Hin]; [now injection Hin|]).
      destruct Hin. }
    split; [reflexivity|]. split; [reflexivity|]. split; [reflexivity|].
    split; [|exact Ht].
    unfold most_recent. rewrite (parse_all_none _ Hne Hp).
    now destruct (tweets sd).
Qed.

Lemma C3_no_summary_witness :
  exists a,
    analyze_scraped_data Samples.unparseable = Some a
    /\ (forall k v, In (k, v) (hourly_activity a) -> v = 0)
    /\ (forall k v, In (k, v) (daily_activity a) -> v = 0)
    /\ sum_heatmap (heatmap_data a) = 0
    /\ peak_hours a = [] /\ peak_days a = []
    /\ last_tweet_time a = None
    /\ total_tweets_analyzed a = 1.
Proof.
  apply (proj2 (C3_when_there_is_no_summary Samples.unparseable)).
  - reflexivity.
  - discriminate.
  - reflexivity.
Defined.

(** C3 as stated fails: no entry of [["not-a-date"]] parses, and a
    summary is returned all the same. *)
Lemma C3_counterexample :
  Spec.parsed (tweets Samples.unparseable) = []
  /\ analyze_scraped_data Samples.unparseable <> None.
Proof.
  split; [reflexivity|]. vm_compute. discriminate.
Qed.

End NoSummary.

Section AllKeys.

Import Scraper.

(** C8.  Whenever a summary is produced, by [analyze_scraped_data] or by
    [generate_demo_data], its hourly map has exactly the 24 keys ["0"]
    to ["23"] and its daily map exactly the 7 keys ["0"] to ["6"]; each
    key holds the number of counted events of its bucket, hence 0 for a
    bucket that received none. *)
Theorem C8_all_keys_present
  (sd : scraped_data) (username : string) (w : Main.world) :
  (success sd = true -> tweets sd <> [] ->
   exists a,
     analyze_scraped_data sd = Some a
     /\ let ev := map Spec.bucket (Spec.parsed (tweets sd)) in
        Spec.exposes 24 (fun h => Spec.count_hour h ev) (hourly_activity a)
        /\ Spec.exposes 7 (fun d => Spec.count_day d ev) (daily_activity a)
        /\ (forall h, h < 24 -> (forall e, In e ev -> fst e <> h) ->
            Spec.get_item (Py.str h) (hourly_activity a) = Some 0)
        /\ (forall d, d < 7 -> (forall e, In e ev -> snd e <> d) ->
            Spec.get_item (Py.str d) (daily_activity a) = Some 0))
  /\ (exists ev r w',
        Main.generate_demo_data username w = (Main.Ok r, w')
        /\ Spec.exposes 24 (fun h => Spec.count_hour h ev)
             (Main.hourly_activity r)
        /\ Spec.exposes 7 (fun d => Spec.count_day d ev)
             (Main.daily_activity r)
        /\ (forall h, h < 24 -> (forall e, In e ev -> fst e <> h) ->
            Spec.get_item (Py.str h) (Main.hourly_activity r) = Some 0)
        /\ (forall d, d < 7 -> (forall e, In e ev -> snd e <> d) ->
            Spec.get_item (Py.str d) (Main.daily_activity r) = Some 0)).
Proof.
  split.
  - intros Hs Hne.
    destruct (analyze_counts sd Hs Hne) as (a & Ha & _ & Hh & Hd & _).
    exists a. split; [exact Ha|]. cbv zeta.
    rewrite Hh, Hd.
    split; [apply exposes_dict|]. split; [apply exposes_dict|]. split.
    + intros h Hlt Hnone.
      rewrite (proj2 (exposes_dict 24 _) h Hlt).
      now rewrite count_hour_none.
    + intros d Hlt Hnone.
      rewrite (proj2 (exposes_dict 7 _) d Hlt).
      now rewrite count_day_none.
  - destruct (demo_counts username w)
      as (n & ev & r & w' & Hg & _ & _ & _ & _ & Hh & Hd & _).
    exists ev, r, w'. split; [exact Hg|].
    rewrite Hh, Hd.
    split; [apply exposes_dict|]. split; [apply exposes_dict|]. split.
    + intros h Hlt Hnone.
      rewrite (proj2 (exposes_dict 24 _) h Hlt).
      now rewrite count_hour_none.
    + intros d Hlt Hnone.
      rewrite (proj2 (exposes_dict 7 _) d Hlt).
      now rewrite count_day_none.
Qed.

Lemma C8_all_keys_witness :
  exists a,
    analyze_scraped_data Samples.mixed = Some a
    /\ let ev := map Spec.bucket (Spec.parsed (tweets Samples.mixed)) in
       Spec.exposes 24 (fun h => Spec.count_hour h ev) (hourly_activity a)
       /\ Spec.exposes 7 (fun d => Spec.count_day d ev) (daily_activity a)
       /\ (forall h, h < 24 -> (forall e, In e ev -> fst e <> h) ->
           Spec.get_item (Py.str h) (hourly_activity a) = Some 0)
       /\ (forall d, d < 7 -> (forall e, In e ev -> snd e <> d) ->
           Spec.get_item (Py.str d) (daily_activity a) = Some 0).
Proof.
  apply (proj1 (C8_all_keys_present Samples.mixed "x" Samples.fresh_world)).
  - reflexivity.
  - discriminate.
Defined.

End AllKeys.

Section Demo.

(** C9.  For every identifier and every state of the random source,
    [generate_demo_data] returns a response; it draws a total [n]
    between 150 and 300 and feeds [n] events, each an hour below 24 and
    a day below 7, to the increments the aggregator uses ([tally]), so
    that the maps and the matrix are those of the [n] events and the
    reported total is [n]; the response is marked as demo data with the
    note ["Times shown in UTC (demo mode)"]; and the scraper is not
    called. *)
Theorem C9_demo_generator (username : string) (w : Main.world) :
  exists n ev r w',
    Main.generate_demo_data username w = (Main.Ok r, w')
    /\ 150 <= n <= 300
    /\ List.length ev = n
    /\ Forall Spec.in_range ev
    /\ Main.total_tweets_analyzed r = n
    /\ Main.hourly_activity r
       = fst (to_dict (seq 0 24) (hourly (Spec.tally_all ev init_counters)))
    /\ Main.daily_activity r
       = fst (to_dict (seq 0 7) (daily (Spec.tally_all ev init_counters)))
    /\ Main.heatmap_data r = heatmap_of (Spec.tally_all ev init_counters)
    /\ sum_heatmap (Main.heatmap_data r) = n
    /\ sum_values (Main.hourly_activity r) = n
    /\ Main.is_demo r = true
    /\ Main.timezone_note r = "Times shown in UTC (demo mode)"
    /\ Main.scraper_calls w' = Main.scraper_calls w
    /\ forall sd,
         Spec.final_counters sd
         = Spec.tally_all
             (map Spec.bucket (Spec.parsed (Scraper.tweets sd)))
             init_counters.
Proof.
  destruct (demo_counts username w)
    as (n & ev & r & w' & Hg & Hn & Hl & Hr & Ht & Hh & Hd & Hm & Hs
        & Hdemo & Hnote & Hc).
  exists n, ev, r, w'.
  split; [exact Hg|]. split; [exact Hn|]. split; [exact Hl|].
  split; [exact Hr|]. split; [exact Ht|].
  split; [now rewrite hourly_dict_of_run|].
  split; [now rewrite daily_dict_of_run|].
  split; [exact Hm|]. split; [exact Hs|].
  split.
  { rewrite Hh, sum_values_dict, sum_count_hour by exact Hr. exact Hl. }
  split; [exact Hdemo|]. split; [exact Hnote|]. split; [exact Hc|].
  intros sd. apply count_tweets_run.
Qed.

End Demo.

(** ** Sorting and the order of the items *)

Section SortFacts.

Lemma insert_desc_decreasing (x : nat * nat) (l : list (nat * nat)) :
  Spec.decreasing l = true -> Spec.decreasing (insert_desc x l) = true.
Proof.
  induction l as [|y l IH]; intros Hl; [reflexivity|].
  cbn [insert_desc]. destruct (snd x <? snd y) eqn:E.
  - apply Nat.ltb_lt in E.
    destruct l as [|z l].
    + cbn. rewrite andb_true_r. apply Nat.leb_le. lia.
    + cbn [Spec.decreasing] in Hl. apply andb_prop in Hl as [Hzy Hl].
      specialize (IH Hl). cbn [insert_desc] in *.
      destruct (snd x <? snd z) eqn:E2.
      * cbn [Spec.decreasing]. cbn [Spec.decreasing] in IH.
        now rewrite Hzy, IH.
      * cbn [Spec.decreasing]. cbn [Spec.decreasing] in IH.
        rewrite IH, andb_true_r.
        apply Nat.leb_le. lia.
  - apply Nat.ltb_ge in E.
    change (Spec.decreasing (x :: y :: l))
      with ((snd y <=? snd x) && Spec.decreasing (y :: l)).
    rewrite Hl, andb_true_r. apply Nat.leb_le. lia.
Qed.

Lemma sorted_desc_decreasing (l : list (nat * nat)) :
  Spec.decreasing (sorted_desc l) = true.
Proof.
  induction l as [|x l IH]; [reflexivity|].
  simpl. now apply insert_desc_decreasing.
Qed.

Lemma decreasing_tail (x : nat * nat) (l : list (nat * nat)) :
  Spec.decreasing (x :: l) = true -> Spec.decreasing l = true.
Proof.
  destruct l as [|y l]; [reflexivity|].
  cbn [Spec.decreasing]. intros H. now apply andb_prop in H.
Qed.

(** After a count of 0 in a decreasing list, no count is positive. *)
Lemma decreasing_zero (x : nat * nat) (l : list (nat * nat)) (n : nat) :
  Spec.decreasing (x :: l) = true -> snd x = 0 ->
  filter Spec.positive (firstn n l) = [].
Proof.
  revert x n; induction l as [|y l IH]; intros x n Hd Hx.
  - now destruct n.
  - destruct n as [|n]; [reflexivity|].
    cbn [Spec.decreasing] in Hd. apply andb_prop in Hd as [Hyx Hd].
    apply Nat.leb_le in Hyx.
    assert (Hy : snd y = 0) by lia.
    cbn [firstn filter]. unfold Spec.positive at 1. rewrite Hy.
    cbn. now apply (IH y).
Qed.

(** In a decreasing list, keeping the positive counts among the first
    [n] items or the first [n] of the positive counts is the same. *)
Lemma filter_firstn_decreasing (n : nat) (l : list (nat * nat)) :
  Spec.decreasing l = true ->
  filter Spec.positive (firstn n l) = firstn n (filter Spec.positive l).
Proof.
  revert n; induction l as [|x l IH]; intros n Hd.
  - now destruct n.
  - destruct n as [|n]; [reflexivity|].
    cbn [firstn filter]. destruct (Spec.positive x) eqn:Hx.
    + cbn [firstn]. f_equal. apply IH. now apply decreasing_tail in Hd.
    + assert (H0 : snd x = 0).
      { unfold Spec.positive in Hx. apply Nat.ltb_ge in Hx. lia. }
      rewrite (decreasing_zero x l n Hd H0).
      pose proof (decreasing_zero x l (List.length l) Hd H0) as Hall.
      rewrite firstn_all in Hall. now rewrite Hall.
Qed.

Lemma top3_positive_rule (d : defaultdict) :
  Scraper.top3_positive d = Spec.peaks_by_insertion_order d.
Proof.
  unfold Scraper.top3_positive, Spec.peaks_by_insertion_order.
  apply (filter_firstn_decreasing 3). apply sorted_desc_decreasing.
Qed.

End SortFacts.

Section KeyOrder.

Lemma keys_incr (k : nat) (d : defaultdict) :
  Spec.keys (incr k d) = Spec.add_key k (Spec.keys d).
Proof.
  unfold Spec.add_key, Spec.keys.
  induction d as [|[k' v] d IH]; [reflexivity|].
  cbn [incr map fst existsb]. rewrite (Nat.eqb_sym k k').
  destruct (k' =? k); [reflexivity|].
  cbn [map fst orb]. rewrite IH.
  now destruct (existsb (Nat.eqb k) (map fst d)).
Qed.

Lemma keys_touch (k : nat) (d : defaultdict) :
  Spec.keys (touch k d) = Spec.add_key k (Spec.keys d).
Proof.
  unfold Spec.add_key, Spec.keys.
  induction d as [|[k' v] d IH]; [reflexivity|].
  cbn [touch map fst existsb]. rewrite (Nat.eqb_sym k k').
  destruct (k' =? k); [reflexivity|].
  cbn [map fst orb]. rewrite IH.
  now destruct (existsb (Nat.eqb k) (map fst d)).
Qed.

Lemma add_key_nodup (k : nat) (ks : list nat) :
  NoDup ks -> NoDup (Spec.add_key k ks).
Proof.
  intros H. unfold Spec.add_key.
  destruct (existsb (Nat.eqb k) ks) eqn:E; [exact H|].
  apply NoDup_app; [exact H | repeat constructor; intros [] |].
  intros x Hx [Hk|[]]. subst x.
  assert (existsb (Nat.eqb k) ks = true); [|congruence].
  apply existsb_exists. exists k. split; [exact Hx | apply Nat.eqb_refl].
Qed.

Lemma add_keys_nodup (l ks : list nat) :
  NoDup ks -> NoDup (Spec.add_keys l ks).
Proof.
  unfold Spec.add_keys. revert ks; induction l as [|k l IH]; intros ks H;
    [exact H|].
  simpl. apply IH. now apply add_key_nodup.
Qed.

(** A dictionary is the list of its keys with their values. *)
Lemma items_by_keys (d : defaultdict) :
  NoDup (Spec.keys d) -> d = map (fun k => (k, lookup k d)) (Spec.keys d).
Proof.
  unfold Spec.keys. induction d as [|[k v] d IH]; intros H; [reflexivity|].
  inversion H as [|? ? Hk Hd]; subst.
  cbn [map fst lookup]. rewrite Nat.eqb_refl. f_equal.
  rewrite (IH Hd) at 1. apply map_ext_in. intros j Hj.
  destruct (k =? j) eqn:E; [|reflexivity].
  apply Nat.eqb_eq in E. subst j. contradiction.
Qed.

(** The counter as the reads of [to_dict] leave it. *)
Lemma to_dict_touched (ks : list nat) (d : defaultdict) :
  snd (to_dict ks d) = fold_left (fun d k => touch k d) ks d.
Proof.
  revert d; induction ks as [|k ks IH]; intros d; [reflexivity|].
  cbn [to_dict fold_left]. specialize (IH (touch k d)).
  destruct (to_dict ks (touch k d)). exact IH.
Qed.

Lemma keys_touched (ks : list nat) (d : defaultdict) :
  Spec.keys (fold_left (fun d k => touch k d) ks d) = Spec.add_keys ks (Spec.keys d).
Proof.
  unfold Spec.add_keys.
  revert d; induction ks as [|k ks IH]; intros d; [reflexivity|].
  cbn [fold_left]. now rewrite IH, keys_touch.
Qed.

Lemma lookup_touched (h : nat) (ks : list nat) (d : defaultdict) :
  lookup h (fold_left (fun d k => touch k d) ks d) = lookup h d.
Proof.
  revert d; induction ks as [|k ks IH]; intros d; [reflexivity|].
  cbn [fold_left]. now rewrite IH, lookup_touch.
Qed.

Lemma keys_hourly_run (ev : list (nat * nat)) (st : counters) :
  Spec.keys (hourly (Spec.tally_all ev st))
  = Spec.add_keys (map fst ev) (Spec.keys (hourly st)).
Proof.
  unfold Spec.add_keys.
  revert st; induction ev as [|e ev IH]; intros st; [reflexivity|].
  rewrite tally_all_cons, IH, tally_hourly, keys_incr. reflexivity.
Qed.

Lemma keys_daily_run (ev : list (nat * nat)) (st : counters) :
  Spec.keys (daily (Spec.tally_all ev st))
  = Spec.add_keys (map snd ev) (Spec.keys (daily st)).
Proof.
  unfold Spec.add_keys.
  revert st; induction ev as [|e ev IH]; intros st; [reflexivity|].
  rewrite tally_all_cons, IH, tally_daily, keys_incr. reflexivity.
Qed.

(** The items of the two counters at the time the peaks are taken. *)
Lemma hourly_items_of_run (ev : list (nat * nat)) :
  snd (to_dict (seq 0 24) (hourly (Spec.tally_all ev init_counters)))
  = map (fun h => (h, Spec.count_hour h ev))
      (Spec.insertion_order 24 (map fst ev)).
Proof.
  rewrite to_dict_touched.
  set (d := fold_left _ _ _).
  assert (Hk : Spec.keys d = Spec.insertion_order 24 (map fst ev)).
  { unfold d. rewrite keys_touched, keys_hourly_run.
    change (Spec.keys (hourly init_counters)) with (@nil nat).
    unfold Spec.insertion_order. reflexivity. }
  rewrite (items_by_keys d).
  - rewrite Hk. apply map_ext. intros h. unfold d.
    rewrite lookup_touched, tally_all_hourly.
    change (lookup h (hourly init_counters)) with 0. now rewrite Nat.add_0_l.
  - rewrite Hk. unfold Spec.insertion_order.
    apply add_keys_nodup, add_keys_nodup. constructor.
Qed.

Lemma daily_items_of_run (ev : list (nat * nat)) :
  snd (to_dict (seq 0 7) (daily (Spec.tally_all ev init_counters)))
  = map (fun d => (d, Spec.count_day d ev))
      (Spec.insertion_order 7 (map snd ev)).
Proof.
  rewrite to_dict_touched.
  set (d := fold_left _ _ _).
  assert (Hk : Spec.keys d = Spec.insertion_order 7 (map snd ev)).
  { unfold d. rewrite keys_touched, keys_daily_run.
    change (Spec.keys (daily init_counters)) with (@nil nat).
    unfold Spec.insertion_order. reflexivity. }
  rewrite (items_by_keys d).
  - rewrite Hk. apply map_ext. intros h. unfold d.
    rewrite lookup_touched, tally_all_daily.
    change (lookup h (daily init_counters)) with 0. now rewrite Nat.add_0_l.
  - rewrite Hk. unfold Spec.insertion_order.
    apply add_keys_nodup, add_keys_nodup. constructor.
Qed.

End KeyOrder.

Section Peaks.

Import Scraper.

Lemma peaks_length (items : defaultdict) :
  List.length (Spec.peaks_by_insertion_order items) <= 3.
Proof. apply firstn_le_length. Qed.

Lemma in_firstn {A} (n : nat) (x : A) (l : list A) :
  In x (firstn n l) -> In x l.
Proof.
  revert n; induction l as [|y l IH]; intros [|n] H; simpl in *;
    try contradiction.
  destruct H as [H|H]; [now left | right; eauto].
Qed.

Lemma peaks_positive (items : defaultdict) :
  Forall (fun bc => 0 < snd bc) (Spec.peaks_by_insertion_order items).
Proof.
  apply Forall_forall. intros bc Hin.
  apply in_firstn in Hin. apply filter_In in Hin as [_ Hp].
  now apply Nat.ltb_lt in Hp.
Qed.

(** C4 (as amended).  The peak-hour list is obtained by sorting the 24
    (hour, count) pairs by decreasing count, pairs of equal count being
    kept in the order in which the counter holds them (the hours of the
    counted entries in the order of their first occurrence in the input,
    then the other hours in increasing order), and taking the first 3
    pairs whose count is positive; the same rule gives the peak-day list
    from the 7 (day, count) pairs.  Both lists have at most 3 entries,
    all of positive count. *)
Theorem C4_peak_lists (sd : scraped_data) :
  success sd = true -> tweets sd <> [] ->
  exists a,
    analyze_scraped_data sd = Some a
    /\ let ev := map Spec.bucket (Spec.parsed (tweets sd)) in
       peak_hours a
       = map (fun hc => mkPeakHour (fst hc) (snd hc))
           (Spec.peaks_by_insertion_order
              (map (fun h => (h, Spec.count_hour h ev))
                 (Spec.insertion_order 24 (map fst ev))))
       /\ peak_days a
          = map (fun dc => mkPeakDay (fst dc) (snd dc))
              (Spec.peaks_by_insertion_order
                 (map (fun d => (d, Spec.count_day d ev))
                    (Spec.insertion_order 7 (map snd ev))))
       /\ List.length (peak_hours a) <= 3
       /\ List.length (peak_days a) <= 3
       /\ Forall (fun p => 0 < ph_count p) (peak_hours a)
       /\ Forall (fun p => 0 < pd_count p) (peak_days a).
Proof.
  intros Hs Hne.
  destruct (analyze_some sd Hs Hne)
    as (a & Ha & _ & _ & _ & _ & Hph & Hpd & _).
  exists a. split; [exact Ha|]. cbv zeta.
  unfold Spec.final_counters in Hph, Hpd.
  rewrite count_tweets_run in Hph, Hpd.
  rewrite hourly_items_of_run, top3_positive_rule in Hph.
  rewrite daily_items_of_run, top3_positive_rule in Hpd.
  rewrite Hph, Hpd.
  split; [reflexivity|]. split; [reflexivity|].
  rewrite !length_map.
  split; [apply peaks_length|]. split; [apply peaks_length|].
  split; apply Forall_map; cbn [ph_count pd_count]; apply peaks_positive.
Qed.

Lemma C4_peak_lists_witness :
  exists a,
    analyze_scraped_data Samples.ties = Some a
    /\ let ev := map Spec.bucket (Spec.parsed (tweets Samples.ties)) in
       peak_hours a
       = map (fun hc => mkPeakHour (fst hc) (snd hc))
           (Spec.peaks_by_insertion_order
              (map (fun h => (h, Spec.count_hour h ev))
                 (Spec.insertion_order 24 (map fst ev))))
       /\ peak_days a
          = map (fun dc => mkPeakDay (fst dc) (snd dc))
              (Spec.peaks_by_insertion_order
                 (map (fun d => (d, Spec.count_day d ev))
                    (Spec.insertion_order 7 (map snd ev))))
       /\ List.length (peak_hours a) <= 3
       /\ List.length (peak_days a) <= 3
       /\ Forall (fun p => 0 < ph_count p) (peak_hours a)
       /\ Forall (fun p => 0 < pd_count p) (peak_days a).
Proof.
  apply (C4_peak_lists Samples.ties).
  - reflexivity.
  - discriminate.
Defined.

(** C4 as stated fails: with one entry at 10 o'clock followed by one at
    5 o'clock the list is hour 10 then hour 5, while ties in the order
    of the hours would give 5 then 10. *)
Lemma C4_counterexample :
  ~ (forall sd a,
       analyze_scraped_data sd = Some a ->
       peak_hours a
       = map (fun hc => mkPeakHour (fst hc) (snd hc))
           (Spec.peaks_by_bucket_order 24
              (fun h => Spec.count_hour h
                          (map Spec.bucket (Spec.parsed (tweets sd)))))).
Proof.
  intros H. specialize (H Samples.ties).
  vm_compute in H. specialize (H _ eq_refl). discriminate.
Qed.

End Peaks.

Section TimeZones.

Import Scraper.

Lemma endswith_app_char (p : string) (c d : ascii) (s : string) :
  Py.endswith (p ++ String c s) d = Py.endswith (String c s) d.
Proof.
  induction p as [|a p IH]; [reflexivity|].
  cbn [append]. cbn [Py.endswith].
  destruct (p ++ String c s)%string eqn:E; [|exact IH].
  destruct p; discriminate.
Qed.

Lemma replace_without (p : string) (c : ascii) (r s : string) :
  Py.contains (String c EmptyString) p = false ->
  Py.replace (p ++ s) c r = (p ++ Py.replace s c r)%string.
Proof.
  induction p as [|a p IH]; intros H; [reflexivity|].
  cbn [append Py.replace]. cbn [Py.contains prefix] in H.
  destruct (Ascii.ascii_dec c a) as [->|Hne].
  - destruct p; discriminate.
  - destruct (Ascii.eqb a c) eqn:E.
    + apply Ascii.eqb_eq in E. congruence.
    + f_equal. apply IH.
      destruct (Ascii.ascii_dec c a); [contradiction|exact H].
Qed.

(** A timestamp that ends in the zone marker and the same timestamp
    with the offset written out are parsed alike (the marker occurring
    nowhere else). *)
Lemma zone_marker_same_as_offset (p : string) :
  Py.contains "Z" p = false ->
  parse_datetime (p ++ "Z") = parse_datetime (p ++ "+00:00").
Proof.
  intros H. unfold parse_datetime.
  rewrite !endswith_app_char. cbn [Py.endswith Ascii.eqb Bool.eqb andb].
  rewrite (replace_without p "Z" "+00:00" "Z" H). reflexivity.
Qed.

(** C5 at the input ["2024-01-01T23:30:00-05:00"]: the instant is
    Tuesday, 4 o'clock in UTC; the entry is counted under Monday,
    23 o'clock, the fields as written, and the summary is annotated as
    being in UTC. *)
Theorem C5_offset_is_not_normalised :
  exists a dt,
    analyze_scraped_data Samples.with_offset = Some a
    /\ Spec.parsed (tweets Samples.with_offset) = [dt]
    /\ Spec.utc_bucket dt = (4, 1)
    /\ Spec.bucket dt = (23, 0)
    /\ Spec.cell 1 4 (heatmap_data a) = 0
    /\ Spec.cell 0 23 (heatmap_data a) = 1
    /\ Spec.get_item "4" (hourly_activity a) = Some 0
    /\ Spec.get_item "23" (hourly_activity a) = Some 1
    /\ timezone_note a = "Times shown in UTC (scraped)".
Proof.
  eexists; eexists.
  split; [vm_compute; reflexivity|].
  split; [vm_compute; reflexivity|].
  repeat split; vm_compute; reflexivity.
Qed.

(** C6 at the input [["2024-01-01T09:00:00Z", "garbage"]]: one entry
    parses, to the instant printed ["2024-01-01T09:00:00+00:00"], and
    the summary has no most recent timestamp; without the entry that
    does not parse it has one. *)
Theorem C6_most_recent_lost :
  exists a dt,
    analyze_scraped_data Samples.one_bad = Some a
    /\ Spec.parsed (tweets Samples.one_bad) = [dt]
    /\ Datetime.isoformat dt = "2024-01-01T09:00:00+00:00"
    /\ last_tweet_time a = None
    /\ option_map last_tweet_time
         (analyze_scraped_data (Samples.scraped ["2024-01-01T09:00:00Z"]))
       = Some (Some "2024-01-01T09:00:00+00:00").
Proof.
  eexists; eexists.
  split; [vm_compute; reflexivity|].
  split; [vm_compute; reflexivity|].
  repeat split; vm_compute; reflexivity.
Qed.

End TimeZones.

(** ** The boundary *)

Section Boundary.

Import Main.

Variable scraper : string -> nat -> result Scraper.scraped_data.

Lemma fetch_unfold (username : string) (w : world)
      (sd : Scraper.scraped_data) :
  scraper username 50 = Ok sd ->
  fetch_via_scraper scraper username w
  = (if negb (Scraper.success sd) then
       match Scraper.error sd with
       | None =>
           raise (Exception "'NoneType' object has no attribute 'lower'")
       | Some msg =>
           raise (HTTPException (Spec.status_of (Spec.classify msg)) msg)
       end
     else
       match Scraper.analyze_scraped_data sd with
       | None =>
           raise (HTTPException 404 ("No tweets found for @" ++ username))
       | Some analysis =>
           ret {|
             username := Scraper.a_username analysis;
             display_name := Scraper.a_display_name analysis;
             profile_image := Scraper.a_profile_image analysis;
             total_tweets_analyzed :=
               Scraper.total_tweets_analyzed analysis;
             hourly_activity := Scraper.hourly_activity analysis;
             daily_activity := Scraper.daily_activity analysis;
             heatmap_data := Scraper.heatmap_data analysis;
             peak_hours := Scraper.peak_hours analysis;
             peak_days := Scraper.peak_days analysis;
             timezone_note := Scraper.timezone_note analysis;
             is_demo := false
           |}
       end)
      (mkWorld (rng w) ((username, 50) :: scraper_calls w)).
Proof.
  intros Hsc. unfold fetch_via_scraper, bind, scrape_twitter_activity.
  rewrite Hsc.
  destruct (negb (Scraper.success sd)); [|reflexivity].
  destruct (Scraper.error sd) as [msg|]; [|reflexivity].
  unfold Spec.classify.
  destruct (Py.contains "not found" (Py.lower msg)
            || Py.contains "suspended" (Py.lower msg)); [reflexivity|].
  destruct (Py.contains "timed out" (Py.lower msg)); reflexivity.
Qed.

End Boundary.

Section Failures.

Import Main.

(** C7 (as amended).  When the scraper reports a failure with a
    message, [fetch_via_scraper] raises an HTTP error that carries the
    message unchanged, in one of three categories decided in this order:
    404 when the lowered message contains ["not found"] or
    ["suspended"], else 504 when it contains ["timed out"], else 500.
    When the scrape succeeded with an empty list of entries it raises
    404 with ["No tweets found for @<user>"]; when the list is not empty
    it returns a response, also when no entry parses.  No other HTTP
    status is raised. *)
Theorem C7_failures_at_the_boundary
  (scraper : string -> nat -> result Scraper.scraped_data)
  (username : string) (w : world) (sd : Scraper.scraped_data) :
  scraper username 50 = Ok sd ->
  let out := fst (fetch_via_scraper scraper username w) in
  (forall msg,
     Scraper.success sd = false -> Scraper.error sd = Some msg ->
     out = Raise (HTTPException (Spec.status_of (Spec.classify msg)) msg)
     /\ (Spec.classify msg = Spec.NotFound <->
         Py.contains "not found" (Py.lower msg) = true
         \/ Py.contains "suspended" (Py.lower msg) = true)
     /\ (Spec.classify msg = Spec.TimedOut <->
         Py.contains "not found" (Py.lower msg) = false
         /\ Py.contains "suspended" (Py.lower msg) = false
         /\ Py.contains "timed out" (Py.lower msg) = true))
  /\ (Scraper.success sd = true -> Scraper.tweets sd = [] ->
      out = Raise (HTTPException 404 ("No tweets found for @" ++ username)))
  /\ (Scraper.success sd = true -> Scraper.tweets sd <> [] ->
      exists resp, out = Ok resp /\ is_demo resp = false)
  /\ (forall status detail,
        out = Raise (HTTPException status detail) ->
        status = 404 \/ status = 504 \/ status = 500).
Proof.
  intros Hsc out. unfold out. rewrite (fetch_unfold scraper _ w sd Hsc).
  split; [|split; [|split]].
  - intros msg Hs He. rewrite Hs, He. split; [reflexivity|].
    unfold Spec.classify.
    destruct (Py.contains "not found" (Py.lower msg)),
             (Py.contains "suspended" (Py.lower msg)),
             (Py.contains "timed out" (Py.lower msg));
      cbn; split; split; intros H;
        try discriminate; try reflexivity; auto;
        try (destruct H as [H|H]; discriminate);
        try (destruct H as (H1 & H2 & H3); discriminate).
  - intros Hs Ht. rewrite Hs. cbn [negb].
    unfold Scraper.analyze_scraped_data. rewrite Hs, Ht. reflexivity.
  - intros Hs Hne. rewrite Hs. cbn [negb].
    destruct (analyze_some sd Hs Hne) as (a & -> & _).
    eexists. split; reflexivity.
  - intros status detail.
    destruct (Scraper.success sd) eqn:Hs; cbn [negb].
    + destruct (Scraper.analyze_scraped_data sd); cbn.
      * discriminate.
      * intros H. injection H as <- _. now left.
    + destruct (Scraper.error sd) as [msg|]; cbn; [|discriminate].
      intros H. injection H as <- _.
      destruct (Spec.classify msg); cbn; auto.
Qed.

Lemma C7_failures_witness :
  let out :=
    fst (fetch_via_scraper (Samples.scraper_of Samples.timed_out) "ghost"
           Samples.fresh_world) in
  (forall msg,
     Scraper.success Samples.timed_out = false ->
     Scraper.error Samples.timed_out = Some msg ->
     out = Raise (HTTPException (Spec.status_of (Spec.classify msg)) msg)
     /\ (Spec.classify msg = Spec.NotFound <->
         Py.contains "not found" (Py.lower msg) = true
         \/ Py.contains "suspended" (Py.lower msg) = true)
     /\ (Spec.classify msg = Spec.TimedOut <->
         Py.contains "not found" (Py.lower msg) = false
         /\ Py.contains "suspended" (Py.lower msg) = false
         /\ Py.contains "timed out" (Py.lower msg) = true))
  /\ (Scraper.success Samples.timed_out = true ->
      Scraper.tweets Samples.timed_out = [] ->
      out = Raise (HTTPException 404 ("No tweets found for @" ++ "ghost")))
  /\ (Scraper.success Samples.timed_out = true ->
      Scraper.tweets Samples.timed_out <> [] ->
      exists resp, out = Ok resp /\ is_demo resp = false)
  /\ (forall status detail,
        out = Raise (HTTPException status detail) ->
        status = 404 \/ status = 504 \/ status = 500).
Proof.
  apply (C7_failures_at_the_boundary
           (Samples.scraper_of Samples.timed_out) "ghost"
           Samples.fresh_world Samples.timed_out).
  reflexivity.
Defined.

(** C7 as stated fails in its last part: the scrape of
    [["not-a-date"]] succeeds and leaves nothing to analyse once parsed,
    and a response is returned, not the 404 error. *)
Lemma C7_counterexample :
  Spec.parsed (Scraper.tweets Samples.unparseable) = []
  /\ exists resp,
       fst (fetch_via_scraper (Samples.scraper_of Samples.unparseable)
              "user" Samples.fresh_world)
       = Ok resp.
Proof.
  split; [reflexivity|]. eexists. vm_compute. reflexivity.
Qed.

End Failures.

Section Username.

Import Main.

Lemma lstrip_clean (p : ascii -> bool) (s : string) :
  Spec.starts_clean p (Py.lstrip_by p s).
Proof.
  induction s as [|a s IH]; [exact I|].
  cbn [Py.lstrip_by]. destruct (p a) eqn:E; [exact IH | exact E].
Qed.

Lemma rstrip_keeps_clean (p : ascii -> bool) (s : string) :
  Spec.starts_clean p s -> Spec.starts_clean p (Py.rstrip_by p s).
Proof.
  destruct s as [|a s]; [trivial|].
  cbn [Spec.starts_clean Py.rstrip_by]. intros Ha.
  destruct (Py.rstrip_by p s); [rewrite Ha|]; exact Ha.
Qed.

Lemma rstrip_idem (p : ascii -> bool) (s : string) :
  Py.rstrip_by p (Py.rstrip_by p s) = Py.rstrip_by p s.
Proof.
  induction s as [|a s IH]; [reflexivity|].
  cbn [Py.rstrip_by].
  destruct (Py.rstrip_by p s) as [|b t] eqn:E.
  - destruct (p a) eqn:Ea; [reflexivity|].
    cbn [Py.rstrip_by]. now rewrite Ea.
  - cbn [Py.rstrip_by] in *. rewrite IH. reflexivity.
Qed.

(** A call of the scraper is recorded whatever comes of it, and the
    random source is left alone. *)
Lemma fetch_world
      (scraper : string -> nat -> result Scraper.scraped_data)
      (username : string) (w : world) :
  snd (fetch_via_scraper scraper username w)
  = mkWorld (rng w) ((username, 50) :: scraper_calls w).
Proof.
  destruct (scraper username 50) as [sd|e] eqn:Hsc.
  - rewrite (fetch_unfold scraper username w sd Hsc).
    destruct (negb (Scraper.success sd)).
    + now destruct (Scraper.error sd).
    + now destruct (Scraper.analyze_scraped_data sd).
  - unfold fetch_via_scraper, bind, scrape_twitter_activity.
    now rewrite Hsc.
Qed.

Lemma try_except_world {A} (m : M A) (e : string -> exn) (w : world) :
  snd (try_except m (fun msg => raise (e msg)) w) = snd (m w).
Proof.
  unfold try_except, raise.
  destruct (m w) as [[a|[status detail|msg]] w']; reflexivity.
Qed.

(** C10.  [analyze_user] works on the name left once the white space
    around it, then the ["@"]s in front of it, are removed: this name
    does not start with ["@"], and the name stripped of white space
    neither starts nor ends with white space.  When nothing is left the
    call raises the HTTP error 400 ["Username is required"] and leaves
    the world as it was: no random draw, no call of the scraper.
    Otherwise the name goes to the demo generator, or to the scraper. *)
Theorem C10_username_is_required
  (scraper : string -> nat -> result Scraper.scraped_data)
  (username : string) (demo : bool) (w : world) :
  let u := Py.lstrip (Py.strip username) "@" in
  (u = "" ->
   analyze_user scraper username demo w
   = (Raise (HTTPException 400 "Username is required"), w))
  /\ (u <> "" -> demo = true ->
      exists r w',
        analyze_user scraper username demo w = (Ok r, w')
        /\ Main.username r = u
        /\ scraper_calls w' = scraper_calls w)
  /\ (u <> "" -> demo = false ->
      snd (analyze_user scraper username demo w)
      = mkWorld (rng w) ((u, 50) :: scraper_calls w))
  /\ Spec.starts_clean (Ascii.eqb "@") u
  /\ Spec.starts_clean Py.isspace (Py.strip username)
  /\ Py.rstrip_by Py.isspace (Py.strip username) = Py.strip username.
Proof.
  intros u. unfold analyze_user. fold u.
  split; [|split; [|split; [|split; [|split]]]].
  - intros ->. reflexivity.
  - intros Hu ->. destruct u as [|c u'] eqn:Eu; [congruence|].
    cbn [Py.is_empty].
    destruct (generate_demo_data_ok (String c u') w)
      as (n & ev & w' & _ & _ & _ & Hc & Hg).
    eexists; exists w'. split; [exact Hg|]. split; [reflexivity | exact Hc].
  - intros Hu ->. destruct u as [|c u'] eqn:Eu; [congruence|].
    cbn [Py.is_empty].
    rewrite (try_except_world _
               (fun msg => HTTPException 500 ("Error: " ++ msg))).
    apply fetch_world.
  - apply lstrip_clean.
  - apply rstrip_keeps_clean, lstrip_clean.
  - apply rstrip_idem.
Qed.

Lemma C10_username_witness :
  analyze_user (Samples.scraper_of Samples.all_good) " @@ " false
    Samples.fresh_world
  = (Raise (HTTPException 400 "Username is required"), Samples.fresh_world).
Proof.
  apply (proj1 (C10_username_is_required
                  (Samples.scraper_of Samples.all_good) " @@ " false
                  Samples.fresh_world)).
  reflexivity.
Defined.

End Username.

(** * Further properties *)

(** ** The matrix against the two maps *)

Section Marginals.

Lemma map_nth_seq {A B} (f : A -> B) (d : A) (l : list A) :
  map f l = map (fun i => f (nth i l d)) (seq 0 (List.length l)).
Proof.
  induction l as [|x l IH]; [reflexivity|].
  cbn [List.length seq map nth]. f_equal.
  rewrite <- seq_shift, map_map. exact IH.
Qed.

Lemma row_sum_cells (d : nat) (hm : heatmap) :
  Spec.shaped hm -> d < 7 ->
  Notions.row_sum d hm = sum (map (fun h => Spec.cell d h hm) (seq 0 24)).
Proof.
  intros [Hlen Hrows] Hd. unfold Notions.row_sum, Spec.cell.
  assert (Hrow : List.length (nth d hm []) = 24).
  { rewrite Forall_forall in Hrows. apply Hrows, nth_In. lia. }
  rewrite <- Hrow, <- (map_nth_seq (fun n => n) 0), map_id. reflexivity.
Qed.

Lemma column_sum_cells (h : nat) (hm : heatmap) :
  Spec.shaped hm ->
  Notions.column_sum h hm
  = sum (map (fun d => Spec.cell d h hm) (seq 0 7)).
Proof.
  intros [Hlen _]. unfold Notions.column_sum, Spec.cell.
  rewrite <- Hlen. now rewrite <- (map_nth_seq (fun row => nth h row 0) []).
Qed.

Lemma sum_count_cell_row (d : nat) (ev : list (nat * nat)) :
  Forall Spec.in_range ev ->
  sum (map (fun h => Spec.count_cell d h ev) (seq 0 24))
  = Spec.count_day d ev.
Proof.
  induction 1 as [|e ev [Hh Hd] Hev IH].
  - reflexivity.
  - rewrite count_day_cons, <- IH.
    destruct (snd e =? d) eqn:E.
    + rewrite (sum_bump (fun h => Spec.count_cell d h ev) _ (fst e) 0 24).
      * replace (0 <=? fst e) with true
          by (symmetry; apply Nat.leb_le; lia).
        replace (fst e <? 0 + 24) with true
          by (symmetry; apply Nat.ltb_lt; lia).
        reflexivity.
      * intros h. rewrite count_cell_cons. unfold Spec.same_bucket.
        cbn [fst snd]. rewrite E, andb_true_r. reflexivity.
    + rewrite Nat.add_0_r. f_equal. apply map_ext. intros h.
      rewrite count_cell_cons. unfold Spec.same_bucket.
      cbn [fst snd]. rewrite E, andb_false_r. lia.
Qed.

Lemma sum_count_cell_column (h : nat) (ev : list (nat * nat)) :
  Forall Spec.in_range ev ->
  sum (map (fun d => Spec.count_cell d h ev) (seq 0 7))
  = Spec.count_hour h ev.
Proof.
  induction 1 as [|e ev [Hh Hd] Hev IH].
  - reflexivity.
  - rewrite count_hour_cons, <- IH.
    destruct (fst e =? h) eqn:E.
    + rewrite (sum_bump (fun d => Spec.count_cell d h ev) _ (snd e) 0 7).
      * replace (0 <=? snd e) with true
          by (symmetry; apply Nat.leb_le; lia).
        replace (snd e <? 0 + 7) with true
          by (symmetry; apply Nat.ltb_lt; lia).
        reflexivity.
      * intros d. rewrite count_cell_cons. unfold Spec.same_bucket.
        cbn [fst snd]. rewrite E. reflexivity.
    + rewrite Nat.add_0_r. f_equal. apply map_ext. intros d.
      rewrite count_cell_cons. unfold Spec.same_bucket.
      cbn [fst snd]. rewrite E. cbn. lia.
Qed.

(** The rows and columns of the matrix of a run add up to the counts by
    day and by hour. *)
Lemma run_marginals (ev : list (nat * nat)) :
  Forall Spec.in_range ev ->
  let hm := heatmap_of (Spec.tally_all ev init_counters) in
  Spec.shaped hm
  /\ (forall d, d < 7 -> Notions.row_sum d hm = Spec.count_day d ev)
  /\ (forall h, Notions.column_sum h hm = Spec.count_hour h ev).
Proof.
  intros Hev hm.
  destruct (tally_all_heatmap ev init_counters shaped_empty Hev)
    as (Hs & _ & Hc).
  fold hm in Hs, Hc.
  split; [exact Hs|]. split.
  - intros d Hd. rewrite (row_sum_cells d hm Hs Hd).
    rewrite <- (sum_count_cell_row d ev Hev). f_equal.
    apply map_ext. intros h. rewrite Hc.
    cbn [heatmap_of init_counters]. now rewrite cell_empty.
  - intros h. rewrite (column_sum_cells h hm Hs).
    rewrite <- (sum_count_cell_column h ev Hev). f_equal.
    apply map_ext. intros d. rewrite Hc.
    cbn [heatmap_of init_counters]. now rewrite cell_empty.
Qed.

End Marginals.

Section MatrixOfTheSummary.

Import Scraper.

(** The matrix of the summary is the matrix of the run over the entries
    that parse. *)
Lemma analyze_heatmap (sd : scraped_data) :
  success sd = true -> tweets sd <> [] ->
  exists a,
    analyze_scraped_data sd = Some a
    /\ heatmap_data a
       = heatmap_of
           (Spec.tally_all (map Spec.bucket (Spec.parsed (tweets sd)))
              init_counters)
    /\ hourly_activity a
       = map (fun h => (Py.str h,
                        Spec.count_hour h
                          (map Spec.bucket (Spec.parsed (tweets sd)))))
           (seq 0 24)
    /\ daily_activity a
       = map (fun d => (Py.str d,
                        Spec.count_day d
                          (map Spec.bucket (Spec.parsed (tweets sd)))))
           (seq 0 7).
Proof.
  intros Hs Hne.
  destruct (analyze_some sd Hs Hne) as (a & Ha & _ & Hh & Hd & Hm & _).
  exists a. split; [exact Ha|].
  unfold Spec.final_counters in *. rewrite count_tweets_run in *.
  rewrite hourly_dict_of_run in Hh. rewrite daily_dict_of_run in Hd.
  auto.
Qed.

(** X1.  The matrix of a summary has 7 rows of 24 cells, whatever the
    input: in [analyze_scraped_data] and in [generate_demo_data]. *)
Theorem X1_heatmap_shape
  (sd : scraped_data) (username : string) (w : Main.world) :
  (success sd = true -> tweets sd <> [] ->
   exists a,
     analyze_scraped_data sd = Some a
     /\ List.length (heatmap_data a) = 7
     /\ forall row, In row (heatmap_data a) -> List.length row = 24)
  /\ (exists r w',
        Main.generate_demo_data username w = (Main.Ok r, w')
        /\ List.length (Main.heatmap_data r) = 7
        /\ forall row,
             In row (Main.heatmap_data r) -> List.length row = 24).
Proof.
  split.
  - intros Hs Hne.
    destruct (analyze_heatmap sd Hs Hne) as (a & Ha & Hm & _).
    exists a. split; [exact Ha|]. rewrite Hm.
    destruct (run_marginals _ (parsed_in_range (tweets sd)))
      as ([Hl Hr] & _).
    split; [exact Hl|]. now apply Forall_forall.
  - destruct (demo_counts username w)
      as (n & ev & r & w' & Hg & _ & _ & Hr & _ & _ & _ & Hm & _).
    exists r, w'. split; [exact Hg|]. rewrite Hm.
    destruct (run_marginals ev Hr) as ([Hl Hrows] & _).
    split; [exact Hl|]. now apply Forall_forall.
Qed.

Lemma X1_heatmap_shape_witness :
  exists a,
    analyze_scraped_data Samples.mixed = Some a
    /\ List.length (heatmap_data a) = 7
    /\ forall row, In row (heatmap_data a) -> List.length row = 24.
Proof.
  apply (proj1 (X1_heatmap_shape Samples.mixed "x" Samples.fresh_world)).
  - reflexivity.
  - discriminate.
Defined.

(** X2.  In a summary each row of the matrix adds up to the value of
    its day in the daily map, and each column to the value of its hour
    in the hourly map: in [analyze_scraped_data] and in
    [generate_demo_data]. *)
Theorem X2_heatmap_marginals
  (sd : scraped_data) (username : string) (w : Main.world) :
  (success sd = true -> tweets sd <> [] ->
   exists a,
     analyze_scraped_data sd = Some a
     /\ (forall d, d < 7 ->
         Spec.get_item (Py.str d) (daily_activity a)
         = Some (Notions.row_sum d (heatmap_data a)))
     /\ (forall h, h < 24 ->
         Spec.get_item (Py.str h) (hourly_activity a)
         = Some (Notions.column_sum h (heatmap_data a))))
  /\ (exists r w',
        Main.generate_demo_data username w = (Main.Ok r, w')
        /\ (forall d, d < 7 ->
            Spec.get_item (Py.str d) (Main.daily_activity r)
            = Some (Notions.row_sum d (Main.heatmap_data r)))
        /\ (forall h, h < 24 ->
            Spec.get_item (Py.str h) (Main.hourly_activity r)
            = Some (Notions.column_sum h (Main.heatmap_data r)))).
Proof.
  split.
  - intros Hs Hne.
    destruct (analyze_heatmap sd Hs Hne) as (a & Ha & Hm & Hh & Hd).
    exists a. split; [exact Ha|]. rewrite Hm, Hh, Hd.
    destruct (run_marginals _ (parsed_in_range (tweets sd)))
      as (_ & Hrow & Hcol).
    split.
    + intros d Hlt. rewrite (Hrow d Hlt).
      apply (get_item_dict (fun k => Spec.count_day k _)), in_seq. lia.
    + intros h Hlt. rewrite (Hcol h).
      apply (get_item_dict (fun k => Spec.count_hour k _)), in_seq. lia.
  - destruct (demo_counts username w)
      as (n & ev & r & w' & Hg & _ & _ & Hr & _ & Hh & Hd & Hm & _).
    exists r, w'. split; [exact Hg|]. rewrite Hm, Hh, Hd.
    destruct (run_marginals ev Hr) as (_ & Hrow & Hcol).
    split.
    + intros d Hlt. rewrite (Hrow d Hlt).
      apply (get_item_dict (fun k => Spec.count_day k _)), in_seq. lia.
    + intros h Hlt. rewrite (Hcol h).
      apply (get_item_dict (fun k => Spec.count_hour k _)), in_seq. lia.
Qed.

Lemma X2_heatmap_marginals_witness :
  exists a,
    analyze_scraped_data Samples.mixed = Some a
    /\ (forall d, d < 7 ->
        Spec.get_item (Py.str d) (daily_activity a)
        = Some (Notions.row_sum d (heatmap_data a)))
    /\ (forall h, h < 24 ->
        Spec.get_item (Py.str h) (hourly_activity a)
        = Some (Notions.column_sum h (heatmap_data a))).
Proof.
  apply (proj1 (X2_heatmap_marginals Samples.mixed "x" Samples.fresh_world)).
  - reflexivity.
  - discriminate.
Defined.

End MatrixOfTheSummary.

(** ** Rankings *)

Section Rankings.

Lemma insert_desc_perm (x : nat * nat) (l : list (nat * nat)) :
  Permutation (insert_desc x l) (x :: l).
Proof.
  induction l as [|y l IH]; [reflexivity|].
  cbn [insert_desc]. destruct (snd x <? snd y); [|reflexivity].
  rewrite IH. apply perm_swap.
Qed.

Lemma sorted_desc_perm (l : list (nat * nat)) :
  Permutation (sorted_desc l) l.
Proof.
  induction l as [|x l IH]; [reflexivity|].
  cbn [sorted_desc]. rewrite insert_desc_perm. now constructor.
Qed.

Lemma decreasing_head_max (x : nat * nat) (l : list (nat * nat)) :
  Spec.decreasing (x :: l) = true -> forall y, In y l -> snd y <= snd x.
Proof.
  revert x; induction l as [|z l IH]; intros x Hd y Hy; [destruct Hy|].
  cbn [Spec.decreasing] in Hd. apply andb_prop in Hd as [Hzx Hd].
  apply Nat.leb_le in Hzx. destruct Hy as [<-|Hy]; [exact Hzx|].
  specialize (IH z Hd y Hy). lia.
Qed.

Lemma decreasing_firstn (n : nat) (l : list (nat * nat)) :
  Spec.decreasing l = true -> Spec.decreasing (firstn n l) = true.
Proof.
  revert n; induction l as [|x l IH]; intros n Hd; [now destruct n|].
  destruct n as [|n]; [reflexivity|].
  cbn [firstn]. destruct l as [|y l]; [now destruct n|].
  destruct n as [|n]; [reflexivity|].
  cbn [Spec.decreasing] in Hd. apply andb_prop in Hd as [Hyx Hd].
  specialize (IH (S n) Hd). cbn [firstn] in IH. cbn [firstn].
  change (Spec.decreasing (x :: y :: firstn n l))
    with ((snd y <=? snd x) && Spec.decreasing (y :: firstn n l)).
  now rewrite Hyx, IH.
Qed.

(** In a decreasing list the positive counts come first. *)
Lemma filter_positive_prefix (l : list (nat * nat)) :
  Spec.decreasing l = true ->
  exists k, filter Spec.positive l = firstn k l.
Proof.
  induction l as [|x l IH]; intros Hd; [now exists 0|].
  cbn [filter]. destruct (Spec.positive x) eqn:Hx.
  - destruct (IH (decreasing_tail x l Hd)) as (k & ->). now exists (S k).
  - exists 0.
    assert (H0 : snd x = 0).
    { unfold Spec.positive in Hx. apply Nat.ltb_ge in Hx. lia. }
    pose proof (decreasing_zero x l (List.length l) Hd H0) as Hall.
    now rewrite firstn_all in Hall.
Qed.

Lemma nodup_firstn {A} (n : nat) (l : list A) :
  NoDup l -> NoDup (firstn n l).
Proof.
  intros H. rewrite <- (firstn_skipn n l) in H.
  now apply NoDup_app_remove_r in H.
Qed.

Variables (n : nat) (count : nat -> nat) (order : list nat).
Hypothesis order_nodup : NoDup order.
Hypothesis order_all : forall k, In k order <-> k < n.

(** Any number of the first items, once the pairs (bucket, count) are
    sorted, is a ranking. *)
Lemma firstn_sorted_ranking (m : nat) :
  Notions.ranking n count
    (firstn m (sorted_desc (map (fun k => (k, count k)) order))).
Proof.
  set (items := map (fun k => (k, count k)) order).
  assert (Hin : forall b c, In (b, c) (sorted_desc items) ->
                            b < n /\ c = count b).
  { intros b c H.
    apply (Permutation_in _ (sorted_desc_perm items)) in H.
    unfold items in H. apply in_map_iff in H as (k & Hk & Hko).
    injection Hk as <- <-. split; [now apply order_all | reflexivity]. }
  split; [|split; [|split]].
  - intros b c H. apply Hin. now apply in_firstn in H.
  - rewrite <- firstn_map. apply nodup_firstn.
    apply (Permutation_NoDup
             (Permutation_sym
                (Permutation_map fst (sorted_desc_perm items)))).
    unfold items. rewrite map_map. cbn [fst]. now rewrite map_id.
  - apply decreasing_firstn, sorted_desc_decreasing.
  - intros b c rest Hf k Hk.
    destruct (sorted_desc items) as [|x l] eqn:Es;
      [destruct m; discriminate|].
    destruct m as [|m]; [discriminate|].
    cbn [firstn] in Hf. injection Hf as Hx _. subst x.
    assert (Hk' : In (k, count k) ((b, c) :: l)).
    { rewrite <- Es.
      apply (Permutation_in _ (Permutation_sym (sorted_desc_perm items))).
      unfold items. apply in_map_iff. exists k.
      split; [reflexivity | now apply order_all]. }
    destruct Hk' as [Hx|Hl].
    + injection Hx as _ ->. apply Nat.le_refl.
    + pose proof (sorted_desc_decreasing items) as Hd. rewrite Es in Hd.
      apply (decreasing_head_max _ _ Hd _ Hl).
Qed.

(** So are the first of the pairs of positive count. *)
Lemma peaks_ranking :
  Notions.ranking n count
    (Spec.peaks_by_insertion_order (map (fun k => (k, count k)) order)).
Proof.
  unfold Spec.peaks_by_insertion_order.
  destruct (filter_positive_prefix _
              (sorted_desc_decreasing (map (fun k => (k, count k)) order)))
    as (k & ->).
  rewrite firstn_firstn. apply firstn_sorted_ranking.
Qed.

End Rankings.

Section PeakRankings.

Import Scraper.

Lemma in_add_key (k x : nat) (ks : list nat) :
  In k (Spec.add_key x ks) <-> k = x \/ In k ks.
Proof.
  unfold Spec.add_key.
  destruct (existsb (Nat.eqb x) ks) eqn:E.
  - split; [now right|]. intros [->|H]; [|exact H].
    apply existsb_exists in E as (y & Hy & Hxy).
    apply Nat.eqb_eq in Hxy. now subst.
  - rewrite in_app_iff. cbn [In]. intuition congruence.
Qed.

Lemma in_add_keys (k : nat) (l ks : list nat) :
  In k (Spec.add_keys l ks) <-> In k l \/ In k ks.
Proof.
  unfold Spec.add_keys. revert ks; induction l as [|x l IH]; intros ks.
  - cbn. intuition.
  - cbn [fold_left]. rewrite IH, in_add_key. cbn [In]. intuition.
Qed.

Lemma insertion_order_nodup (n : nat) (seen : list nat) :
  NoDup (Spec.insertion_order n seen).
Proof.
  unfold Spec.insertion_order.
  apply add_keys_nodup, add_keys_nodup. constructor.
Qed.

Lemma insertion_order_all (n : nat) (seen : list nat) :
  Forall (fun k => k < n) seen ->
  forall k, In k (Spec.insertion_order n seen) <-> k < n.
Proof.
  intros Hseen k. unfold Spec.insertion_order.
  rewrite !in_add_keys, in_seq. cbn [In].
  rewrite Forall_forall in Hseen. split.
  - intros [H|[H|[]]]; [lia | now apply Hseen].
  - intros H. left. lia.
Qed.

Lemma hours_in_range (ev : list (nat * nat)) :
  Forall Spec.in_range ev -> Forall (fun k => k < 24) (map fst ev).
Proof.
  intros H. apply Forall_map. eapply Forall_impl; [|exact H].
  now intros e [Hh _].
Qed.

Lemma days_in_range (ev : list (nat * nat)) :
  Forall Spec.in_range ev -> Forall (fun k => k < 7) (map snd ev).
Proof.
  intros H. apply Forall_map. eapply Forall_impl; [|exact H].
  now intros e [_ Hd].
Qed.

Lemma hour_pairs (l : list (nat * nat)) :
  map Notions.hour_pair (map (fun hc => mkPeakHour (fst hc) (snd hc)) l) = l.
Proof.
  rewrite map_map. rewrite <- (map_id l) at 2.
  apply map_ext. now intros [h c].
Qed.

Lemma day_pairs (l : list (nat * nat)) :
  map Notions.day_pair (map (fun dc => mkPeakDay (fst dc) (snd dc)) l) = l.
Proof.
  rewrite map_map. rewrite <- (map_id l) at 2.
  apply map_ext. now intros [d c].
Qed.

(** A pair of positive count gives a peak. *)
Lemma peaks_nonempty (items : defaultdict) (x : nat * nat) :
  In x items -> 0 < snd x -> Spec.peaks_by_insertion_order items <> [].
Proof.
  intros Hin Hpos. unfold Spec.peaks_by_insertion_order.
  assert (H : In x (filter Spec.positive (sorted_desc items))).
  { apply filter_In. split.
    - apply (Permutation_in _ (Permutation_sym (sorted_desc_perm items))).
      exact Hin.
    - now apply Nat.ltb_lt. }
  destruct (filter Spec.positive (sorted_desc items)); [destruct H|].
  discriminate.
Qed.

Lemma count_hour_first (e : nat * nat) (ev : list (nat * nat)) :
  0 < Spec.count_hour (fst e) (e :: ev).
Proof.
  rewrite count_hour_cons, Nat.eqb_refl. lia.
Qed.

Lemma count_day_first (e : nat * nat) (ev : list (nat * nat)) :
  0 < Spec.count_day (snd e) (e :: ev).
Proof.
  rewrite count_day_cons, Nat.eqb_refl. lia.
Qed.

(** The peak lists of the summary, from the events counted. *)
Lemma analyze_peaks (sd : scraped_data) :
  success sd = true -> tweets sd <> [] ->
  exists a,
    analyze_scraped_data sd = Some a
    /\ map Notions.hour_pair (peak_hours a)
       = Spec.peaks_by_insertion_order
           (map (fun h =>
                   (h, Spec.count_hour h
                         (map Spec.bucket (Spec.parsed (tweets sd)))))
              (Spec.insertion_order 24
                 (map fst (map Spec.bucket (Spec.parsed (tweets sd))))))
    /\ map Notions.day_pair (peak_days a)
       = Spec.peaks_by_insertion_order
           (map (fun d =>
                   (d, Spec.count_day d
                         (map Spec.bucket (Spec.parsed (tweets sd)))))
              (Spec.insertion_order 7
                 (map snd (map Spec.bucket (Spec.parsed (tweets sd)))))).
Proof.
  intros Hs Hne.
  destruct (analyze_some sd Hs Hne)
    as (a & Ha & _ & _ & _ & _ & Hph & Hpd & _).
  exists a. split; [exact Ha|].
  unfold Spec.final_counters in Hph, Hpd.
  rewrite count_tweets_run in Hph, Hpd.
  rewrite hourly_items_of_run, top3_positive_rule in Hph.
  rewrite daily_items_of_run, top3_positive_rule in Hpd.
  rewrite Hph, Hpd, hour_pairs, day_pairs. split; reflexivity.
Qed.

(** X3.  The peak lists of [analyze_scraped_data] rank the buckets: each
    entry holds an hour below 24 (a day below 7) with the number of
    entries counted under it, no hour (day) comes twice, the counts
    decrease along the list, and the first entry holds a greatest count
    among the 24 hours (7 days).  A list is empty exactly when no entry
    of the input parses. *)
Theorem X3_peaks_rank_the_buckets (sd : scraped_data) :
  success sd = true -> tweets sd <> [] ->
  exists a,
    analyze_scraped_data sd = Some a
    /\ let ev := map Spec.bucket (Spec.parsed (tweets sd)) in
       Notions.ranking 24 (fun h => Spec.count_hour h ev)
         (map Notions.hour_pair (peak_hours a))
       /\ Notions.ranking 7 (fun d => Spec.count_day d ev)
            (map Notions.day_pair (peak_days a))
       /\ (peak_hours a = [] <-> Spec.parsed (tweets sd) = [])
       /\ (peak_days a = [] <-> Spec.parsed (tweets sd) = []).
Proof.
  intros Hs Hne.
  destruct (analyze_peaks sd Hs Hne) as (a & Ha & Hph & Hpd).
  exists a. split; [exact Ha|]. cbv zeta.
  pose proof (parsed_in_range (tweets sd)) as Hr.
  set (ev := map Spec.bucket (Spec.parsed (tweets sd))) in *.
  split; [|split; [|split]].
  - rewrite Hph. apply peaks_ranking.
    + apply insertion_order_nodup.
    + apply insertion_order_all, hours_in_range, Hr.
  - rewrite Hpd. apply peaks_ranking.
    + apply insertion_order_nodup.
    + apply insertion_order_all, days_in_range, Hr.
  - split.
    + intros Hnil. rewrite Hnil in Hph. cbn [map] in Hph.
      destruct (Spec.parsed (tweets sd)) as [|dt dts] eqn:Ep;
        [reflexivity|].
      exfalso. symmetry in Hph. revert Hph.
      apply (peaks_nonempty _
               (fst (Spec.bucket dt), Spec.count_hour (fst (Spec.bucket dt)) ev)).
      * apply in_map_iff. exists (fst (Spec.bucket dt)). split; [reflexivity|].
        apply insertion_order_all; [apply hours_in_range, Hr|].
        unfold ev in Hr. cbn [map] in Hr. inversion Hr as [|? ? [Hh _] _].
        exact Hh.
      * unfold ev. cbn [map snd]. apply count_hour_first.
    + intros Hnil. unfold ev in Hph. rewrite Hnil in Hph.
      destruct (peak_hours a); [reflexivity|].
      vm_compute in Hph. discriminate.
  - split.
    + intros Hnil. rewrite Hnil in Hpd. cbn [map] in Hpd.
      destruct (Spec.parsed (tweets sd)) as [|dt dts] eqn:Ep;
        [reflexivity|].
      exfalso. symmetry in Hpd. revert Hpd.
      apply (peaks_nonempty _
               (snd (Spec.bucket dt), Spec.count_day (snd (Spec.bucket dt)) ev)).
      * apply in_map_iff. exists (snd (Spec.bucket dt)). split; [reflexivity|].
        apply insertion_order_all; [apply days_in_range, Hr|].
        unfold ev in Hr. cbn [map] in Hr. inversion Hr as [|? ? [_ Hd] _].
        exact Hd.
      * unfold ev. cbn [map snd]. apply count_day_first.
    + intros Hnil. unfold ev in Hpd. rewrite Hnil in Hpd.
      destruct (peak_days a); [reflexivity|].
      vm_compute in Hpd. discriminate.
Qed.

Lemma X3_peaks_witness :
  exists a,
    analyze_scraped_data Samples.ties = Some a
    /\ let ev := map Spec.bucket (Spec.parsed (tweets Samples.ties)) in
       Notions.ranking 24 (fun h => Spec.count_hour h ev)
         (map Notions.hour_pair (peak_hours a))
       /\ Notions.ranking 7 (fun d => Spec.count_day d ev)
            (map Notions.day_pair (peak_days a))
       /\ (peak_hours a = [] <-> Spec.parsed (tweets Samples.ties) = [])
       /\ (peak_days a = [] <-> Spec.parsed (tweets Samples.ties) = []).
Proof.
  apply (X3_peaks_rank_the_buckets Samples.ties).
  - reflexivity.
  - discriminate.
Defined.

End PeakRankings.

Section DemoPeaks.

Import Main.

Lemma hour_pairs_demo (l : list (nat * nat)) :
  map Notions.hour_pair (map to_peak_hour l) = l.
Proof.
  rewrite map_map. rewrite <- (map_id l) at 2.
  apply map_ext. now intros [h c].
Qed.

Lemma day_pairs_demo (l : list (nat * nat)) :
  map Notions.day_pair (map to_peak_day l) = l.
Proof.
  rewrite map_map. rewrite <- (map_id l) at 2.
  apply map_ext. now intros [d c].
Qed.

(** There are at least [n] keys once the [n] buckets have been read. *)
Lemma insertion_order_length (n : nat) (seen : list nat) :
  n <= List.length (Spec.insertion_order n seen).
Proof.
  rewrite <- (length_seq n 0) at 1.
  apply NoDup_incl_length; [apply seq_NoDup|].
  intros k Hk. unfold Spec.insertion_order.
  apply in_add_keys. now left.
Qed.

Lemma firstn3_sorted_length (items : defaultdict) :
  3 <= List.length items ->
  List.length (firstn 3 (sorted_desc items)) = 3.
Proof.
  intros H. rewrite length_firstn.
  rewrite (Permutation_length (sorted_desc_perm items)). lia.
Qed.

(** X4.  The peak lists of [generate_demo_data] have exactly 3 entries
    each and rank the buckets of the events drawn: each entry holds a
    bucket with its count, no bucket comes twice, the counts decrease,
    the first entry holds a greatest count, which is positive.  Unlike
    those of [analyze_scraped_data], the entries are not filtered: for
    some state of the random source a peak entry has the count 0. *)
Theorem X4_demo_peaks (username : string) (w : world) :
  (exists ev r w',
     generate_demo_data username w = (Ok r, w')
     /\ Notions.ranking 24 (fun h => Spec.count_hour h ev)
          (map Notions.hour_pair (peak_hours r))
     /\ Notions.ranking 7 (fun d => Spec.count_day d ev)
          (map Notions.day_pair (peak_days r))
     /\ List.length (peak_hours r) = 3
     /\ List.length (peak_days r) = 3
     /\ (forall p rest, peak_hours r = p :: rest -> 0 < Scraper.ph_count p)
     /\ (forall p rest, peak_days r = p :: rest -> 0 < Scraper.pd_count p))
  /\ (exists w0 r w' p,
        generate_demo_data username w0 = (Ok r, w')
        /\ In p (peak_hours r) /\ Scraper.ph_count p = 0).
Proof.
  split.
  - destruct (generate_demo_data_ok username w)
      as (n & ev & w' & Hn & Hl & Hr & _ & Hg).
    eexists ev, _, w'. split; [exact Hg|].
    cbn [peak_hours peak_days].
    rewrite hourly_items_of_run, daily_items_of_run.
    rewrite hour_pairs_demo, day_pairs_demo, !length_map.
    assert (Hrh : Notions.ranking 24 (fun h => Spec.count_hour h ev)
                    (firstn 3
                       (sorted_desc
                          (map (fun h => (h, Spec.count_hour h ev))
                             (Spec.insertion_order 24 (map fst ev)))))).
    { apply firstn_sorted_ranking.
      - apply insertion_order_nodup.
      - apply insertion_order_all, hours_in_range, Hr. }
    assert (Hrd : Notions.ranking 7 (fun d => Spec.count_day d ev)
                    (firstn 3
                       (sorted_desc
                          (map (fun d => (d, Spec.count_day d ev))
                             (Spec.insertion_order 7 (map snd ev)))))).
    { apply firstn_sorted_ranking.
      - apply insertion_order_nodup.
      - apply insertion_order_all, days_in_range, Hr. }
    split; [exact Hrh|]. split; [exact Hrd|].
    split.
    { apply firstn3_sorted_length. rewrite length_map.
      pose proof (insertion_order_length 24 (map fst ev)). lia. }
    split.
    { apply firstn3_sorted_length. rewrite length_map.
      pose proof (insertion_order_length 7 (map snd ev)). lia. }
    destruct ev as [|e ev]; [cbn in Hl; lia|].
    inversion Hr as [|? ? [Hh Hd] _]; subst.
    split.
    + intros [h c] rest Hp. cbn [Scraper.ph_count].
      apply (f_equal (map Notions.hour_pair)) in Hp.
      rewrite hour_pairs_demo in Hp. cbn [map Notions.hour_pair] in Hp.
      cbn [Scraper.ph_hour Scraper.ph_count] in Hp.
      destruct Hrh as (_ & _ & _ & Hmax).
      pose proof (Hmax h c _ Hp (fst e) Hh) as Hle.
      pose proof (count_hour_first e ev). lia.
    + intros [d c] rest Hp. cbn [Scraper.pd_count].
      apply (f_equal (map Notions.day_pair)) in Hp.
      rewrite day_pairs_demo in Hp. cbn [map Notions.day_pair] in Hp.
      cbn [Scraper.pd_day Scraper.pd_count] in Hp.
      destruct Hrd as (_ & _ & _ & Hmax).
      pose proof (Hmax d c _ Hp (snd e) Hd) as Hle.
      pose proof (count_day_first e ev). lia.
  - eexists (mkWorld [] []), _, _, (Scraper.mkPeakHour 1 0).
    split; [vm_compute; reflexivity|].
    split; [cbn; auto | reflexivity].
Qed.

End DemoPeaks.

(** ** Offsets *)

Section ZeroOffset.

Import Scraper.

Lemma checked_bounds (dt : Datetime.datetime) :
  Datetime.check_fields dt = true ->
  Datetime.hour dt < 24 /\ Datetime.minute dt < 60
  /\ Datetime.second dt < 60
  /\ (Z.of_nat (Datetime.microsecond dt) < 1000000)%Z.
Proof.
  unfold Datetime.check_fields. intros Hc.
  repeat (apply andb_prop in Hc; destruct Hc as [Hc ?]).
  repeat match goal with
         | H : (_ <=? _) = true |- _ => apply Nat.leb_le in H
         | H : (_ <? _) = true |- _ => apply Nat.ltb_lt in H
         end.
  repeat split; lia.
Qed.

(** With the offset zero the fields as written are those of the instant
    in UTC. *)
Lemma zero_offset_bucket (dt : Datetime.datetime) :
  Datetime.check_fields dt = true ->
  Datetime.tzinfo dt = Some 0%Z ->
  Spec.utc_bucket dt = Spec.bucket dt.
Proof.
  intros Hc Hz. destruct (checked_bounds dt Hc) as (Hh & Hm & Hs & Hu).
  unfold Spec.utc_bucket, Spec.bucket, Datetime.utc_hour,
    Datetime.utc_weekday. rewrite Hz.
  unfold Datetime.utc_micros, Datetime.wall_micros, Datetime.weekday.
  set (o := Datetime.toordinal dt).
  set (h := Datetime.hour dt) in *.
  set (m := Datetime.minute dt) in *.
  set (s := Datetime.second dt) in *.
  set (u := Datetime.microsecond dt) in *.
  rewrite Z.sub_0_r.
  assert (Hq1 : (((Z.of_nat o * 86400 + Z.of_nat h * 3600 + Z.of_nat m * 60
                   + Z.of_nat s) * 1000000 + Z.of_nat u) / 3600000000
                 = Z.of_nat o * 24 + Z.of_nat h)%Z).
  { symmetry.
    apply (Z.div_unique_pos _ _ _
             ((Z.of_nat m * 60 + Z.of_nat s) * 1000000 + Z.of_nat u)%Z);
      lia. }
  assert (Hq2 : (((Z.of_nat o * 86400 + Z.of_nat h * 3600 + Z.of_nat m * 60
                   + Z.of_nat s) * 1000000 + Z.of_nat u) / 86400000000
                 = Z.of_nat o)%Z).
  { symmetry.
    apply (Z.div_unique_pos _ _ _
             ((Z.of_nat h * 3600 + Z.of_nat m * 60 + Z.of_nat s) * 1000000
              + Z.of_nat u)%Z);
      lia. }
  rewrite Hq1, Hq2. f_equal.
  - rewrite Z.add_comm, Z.mod_add by lia.
    rewrite Z.mod_small by lia. apply Nat2Z.id.
  - change 6%Z with (Z.of_nat 6). change 7%Z with (Z.of_nat 7).
    rewrite <- Nat2Z.inj_add, <- Nat2Z.inj_mod. apply Nat2Z.id.
Qed.

Lemma parsed_checked (l : list tweet) :
  Forall (fun dt => Datetime.check_fields dt = true) (Spec.parsed l).
Proof.
  induction l as [|tw l IH]; cbn [Spec.parsed]; [constructor|].
  destruct (parse_datetime (tw_datetime tw)) as [dt|] eqn:E; [|exact IH].
  constructor; [|exact IH].
  unfold parse_datetime in E.
  destruct (Py.endswith (tw_datetime tw) "Z");
    eapply fromisoformat_checked; exact E.
Qed.

Lemma zero_offset_buckets (dts : list Datetime.datetime) :
  Forall (fun dt => Datetime.check_fields dt = true) dts ->
  Forall (fun dt => Datetime.tzinfo dt = Some 0%Z) dts ->
  map Spec.bucket dts = map Spec.utc_bucket dts.
Proof.
  induction 1 as [|dt dts Hc _ IH]; intros Hz; [reflexivity|].
  inversion Hz as [|? ? Hz1 Hz2]; subst. cbn [map].
  now rewrite IH, zero_offset_bucket.
Qed.

(** X5.  When every entry that parses carries the offset zero (as the
    timestamps ending in ["Z"] do), the summary counts the instants by
    their hour and weekday in UTC: each cell of the matrix and each
    value of the two maps is the number of instants in that bucket. *)
Theorem X5_zero_offsets_are_utc (sd : scraped_data) :
  success sd = true -> tweets sd <> [] ->
  Forall (fun dt => Datetime.tzinfo dt = Some 0%Z)
    (Spec.parsed (tweets sd)) ->
  exists a,
    analyze_scraped_data sd = Some a
    /\ let utc := map Spec.utc_bucket (Spec.parsed (tweets sd)) in
       (forall d h,
          Spec.cell d h (heatmap_data a) = Spec.count_cell d h utc)
       /\ Spec.exposes 24 (fun h => Spec.count_hour h utc)
            (hourly_activity a)
       /\ Spec.exposes 7 (fun d => Spec.count_day d utc)
            (daily_activity a).
Proof.
  intros Hs Hne Hz.
  destruct (analyze_counts sd Hs Hne)
    as (a & Ha & _ & Hh & Hd & _ & _ & Hc).
  exists a. split; [exact Ha|]. cbv zeta.
  rewrite <- (zero_offset_buckets _ (parsed_checked (tweets sd)) Hz).
  rewrite Hh, Hd.
  split; [exact Hc|]. split; apply exposes_dict.
Qed.

Lemma X5_zero_offsets_witness :
  exists a,
    analyze_scraped_data Samples.all_good = Some a
    /\ let utc :=
         map Spec.utc_bucket (Spec.parsed (tweets Samples.all_good)) in
       (forall d h,
          Spec.cell d h (heatmap_data a) = Spec.count_cell d h utc)
       /\ Spec.exposes 24 (fun h => Spec.count_hour h utc)
            (hourly_activity a)
       /\ Spec.exposes 7 (fun d => Spec.count_day d utc)
            (daily_activity a).
Proof.
  apply (X5_zero_offsets_are_utc Samples.all_good).
  - reflexivity.
  - discriminate.
  - vm_compute. repeat constructor.
Defined.

End ZeroOffset.

(** ** The most recent timestamp *)

Section MostRecent.

Import Scraper.

Lemma parse_all_some (l : list tweet) (dts : list Datetime.datetime) :
  parse_all l = Some dts -> dts = Spec.parsed l.
Proof.
  revert dts; induction l as [|tw l IH]; intros dts H; cbn in *.
  - now injection H as <-.
  - destruct (parse_datetime (tw_datetime tw)) as [dt|]; [|discriminate].
    destruct (parse_all l) as [dts'|]; [|discriminate].
    injection H as <-. now rewrite (IH dts').
Qed.

Lemma parse_all_fails (l : list tweet) :
  parse_all l = None
  <-> exists tw, In tw l /\ parse_datetime (tw_datetime tw) = None.
Proof.
  induction l as [|tw l IH]; cbn [parse_all].
  - split; [discriminate | intros (tw & [] & _)].
  - destruct (parse_datetime (tw_datetime tw)) as [dt|] eqn:E.
    + destruct (parse_all l) as [dts|].
      * split; [discriminate|]. intros (tw' & [<-|Hin] & Hn); [congruence|].
        assert (Some dts = None) by (apply IH; eauto). discriminate.
      * split; [|reflexivity]. intros _.
        destruct (proj1 IH eq_refl) as (tw' & Hin & Hn).
        exists tw'. split; [now right | exact Hn].
    + split; [|reflexivity]. intros _. exists tw. split; [now left | exact E].
Qed.

Lemma cmp_none (x y : Datetime.datetime) :
  Datetime.cmp x y = None <-> Notions.aware x <> Notions.aware y.
Proof.
  unfold Datetime.cmp, Notions.aware.
  destruct (Datetime.tzinfo x) as [ox|], (Datetime.tzinfo y) as [oy|];
    try (destruct (ox =? oy)%Z); split; congruence.
Qed.

Lemma cmp_some_aware (x y : Datetime.datetime) (c : comparison) :
  Datetime.cmp x y = Some c -> Notions.aware x = Notions.aware y.
Proof.
  intros H. destruct (Bool.bool_dec (Notions.aware x) (Notions.aware y))
    as [E|E]; [exact E|].
  apply cmp_none in E. congruence.
Qed.

(** [max] fails exactly on a list that mixes naive and aware
    datetimes; otherwise it returns one of them. *)
Lemma max_from_none (cur : Datetime.datetime) (l : list Datetime.datetime) :
  Datetime.max_from cur l = None
  <-> exists x, In x l /\ Notions.aware x <> Notions.aware cur.
Proof.
  revert cur; induction l as [|x l IH]; intros cur; cbn [Datetime.max_from].
  - split; [discriminate | intros (x & [] & _)].
  - destruct (Datetime.cmp x cur) as [c|] eqn:E.
    + pose proof (cmp_some_aware _ _ _ E) as Ha.
      assert (Hstep : forall nxt, Notions.aware nxt = Notions.aware cur ->
                (Datetime.max_from nxt l = None
                 <-> exists y, In y (x :: l)
                               /\ Notions.aware y <> Notions.aware cur)).
      { intros nxt Hn. rewrite IH, Hn. split.
        - intros (y & Hy & Hd). exists y. split; [now right | exact Hd].
        - intros (y & [<-|Hy] & Hd); [congruence|]. now exists y. }
      destruct c; [apply Hstep | apply Hstep | apply Hstep];
        solve [reflexivity | exact Ha].
    + split; [|reflexivity]. intros _. exists x.
      split; [now left | now apply cmp_none].
Qed.

Lemma max_from_in (cur m : Datetime.datetime) (l : list Datetime.datetime) :
  Datetime.max_from cur l = Some m -> In m (cur :: l).
Proof.
  revert cur; induction l as [|x l IH]; intros cur; cbn [Datetime.max_from].
  - intros H. injection H as <-. now left.
  - destruct (Datetime.cmp x cur) as [[| |]|]; intros H;
      try discriminate; apply IH in H; cbn [In] in *; intuition.
Qed.

(** X6.  The summary has no most recent timestamp exactly when an entry
    of the input does not parse, or the entries that parse mix
    datetimes with and without an offset; when it has one, it is the
    [isoformat()] of one of the parsed entries. *)
Theorem X6_most_recent_or_none (sd : scraped_data) :
  success sd = true -> tweets sd <> [] ->
  exists a,
    analyze_scraped_data sd = Some a
    /\ (last_tweet_time a = None
        <-> (exists tw, In tw (tweets sd)
                        /\ parse_datetime (tw_datetime tw) = None)
            \/ (exists x y, In x (Spec.parsed (tweets sd))
                            /\ In y (Spec.parsed (tweets sd))
                            /\ Notions.aware x <> Notions.aware y))
    /\ (forall s, last_tweet_time a = Some s ->
        exists m, In m (Spec.parsed (tweets sd))
                  /\ s = Datetime.isoformat m).
Proof.
  intros Hs Hne.
  destruct (analyze_some sd Hs Hne)
    as (a & Ha & _ & _ & _ & _ & _ & _ & Hl & _).
  exists a. split; [exact Ha|]. rewrite Hl. unfold most_recent.
  destruct (tweets sd) as [|tw0 l0] eqn:El; [congruence|].
  rewrite <- El. clear Hl.
  destruct (parse_all (tweets sd)) as [dts|] eqn:Ep.
  - pose proof (parse_all_some _ _ Ep) as Hd. subst dts.
    assert (Hall : ~ exists tw, In tw (tweets sd)
                     /\ parse_datetime (tw_datetime tw) = None).
    { intros H. apply parse_all_fails in H. congruence. }
    destruct (Spec.parsed (tweets sd)) as [|dt dts] eqn:Eq.
    + exfalso. rewrite El in Ep, Eq. cbn in Ep, Eq.
      destruct (parse_datetime (tw_datetime tw0)); [|discriminate].
      discriminate.
    + split.
      * destruct (Datetime.max_from dt dts) as [m|] eqn:Em; cbn.
        -- split; [discriminate|]. intros [H|(x & y & Hx & Hy & Hd)];
             [contradiction|].
           assert (Hnone : Datetime.max_from dt dts = None); [|congruence].
           apply max_from_none.
           destruct (Bool.bool_dec (Notions.aware x) (Notions.aware dt))
             as [Ex|Ex].
           ++ exists y. split.
              ** destruct Hy as [<-|Hy]; [congruence | exact Hy].
              ** congruence.
           ++ exists x. split; [|exact Ex].
              destruct Hx as [<-|Hx]; [congruence | exact Hx].
        -- split; [|reflexivity]. intros _. right.
           apply max_from_none in Em as (x & Hx & Hd).
           exists x, dt. split; [now right|]. split; [now left | exact Hd].
      * intros s H.
        destruct (Datetime.max_from dt dts) as [m|] eqn:Em; [|discriminate].
        cbn in H. injection H as <-. exists m.
        split; [now apply max_from_in in Em | reflexivity].
  - split.
    + split; [|reflexivity]. intros _. left. now apply parse_all_fails.
    + discriminate.
Qed.

Lemma X6_most_recent_witness :
  exists a,
    analyze_scraped_data Samples.all_good = Some a
    /\ (last_tweet_time a = None
        <-> (exists tw, In tw (tweets Samples.all_good)
                        /\ parse_datetime (tw_datetime tw) = None)
            \/ (exists x y, In x (Spec.parsed (tweets Samples.all_good))
                            /\ In y (Spec.parsed (tweets Samples.all_good))
                            /\ Notions.aware x <> Notions.aware y))
    /\ (forall s, last_tweet_time a = Some s ->
        exists m, In m (Spec.parsed (tweets Samples.all_good))
                  /\ s = Datetime.isoformat m).
Proof.
  apply (X6_most_recent_or_none Samples.all_good).
  - reflexivity.
  - discriminate.
Defined.

End MostRecent.

Section Latest.

Import Scraper.

Lemma cmp_fields_gt_lt (a b : list nat) :
  Datetime.cmp_fields a b = Gt -> Datetime.cmp_fields b a = Lt.
Proof.
  revert b; induction a as [|x a IH]; intros [|y b]; cbn;
    try discriminate; try reflexivity.
  rewrite (Nat.compare_antisym x y).
  destruct (x ?= y) eqn:E; cbn; try discriminate; auto.
Qed.

Lemma cmp_fields_le_trans (a b c : list nat) :
  Datetime.cmp_fields a b <> Gt -> Datetime.cmp_fields b c <> Gt ->
  Datetime.cmp_fields a c <> Gt.
Proof.
  revert b c; induction a as [|x a IH]; intros [|y b] [|z c]; cbn;
    try congruence.
  destruct (x ?= y) eqn:E1, (y ?= z) eqn:E2, (x ?= z) eqn:E3;
    rewrite ?Nat.compare_eq_iff, ?Nat.compare_lt_iff, ?Nat.compare_gt_iff
      in *;
    try congruence; try lia; eauto.
Qed.

Lemma cmp_same_tz (x y : Datetime.datetime) :
  Datetime.tzinfo x = Datetime.tzinfo y ->
  Datetime.cmp x y
  = Some (Datetime.cmp_fields (Datetime.fields x) (Datetime.fields y)).
Proof.
  unfold Datetime.cmp. intros <-.
  destruct (Datetime.tzinfo x) as [o|]; [|reflexivity].
  now rewrite Z.eqb_refl.
Qed.

(** Over datetimes of one and the same offset, or all naive, [max]
    returns one that none exceeds. *)
Lemma max_from_same_tz (tz : option Z) (cur : Datetime.datetime)
      (l : list Datetime.datetime) :
  Datetime.tzinfo cur = tz ->
  Forall (fun x => Datetime.tzinfo x = tz) l ->
  exists m,
    Datetime.max_from cur l = Some m
    /\ In m (cur :: l)
    /\ forall x, In x (cur :: l) -> Notions.fields_le x m.
Proof.
  intros Hc Hl. revert cur Hc.
  induction Hl as [|x l Hx Hl IH]; intros cur Hc.
  - exists cur. split; [reflexivity|]. split; [now left|].
    intros x [<-|[]]. unfold Notions.fields_le.
    assert (H : forall a, Datetime.cmp_fields a a = Eq).
    { induction a as [|n a IHa]; [reflexivity|]. cbn.
      now rewrite Nat.compare_refl. }
    rewrite H. discriminate.
  - cbn [Datetime.max_from]. rewrite cmp_same_tz by congruence.
    destruct (Datetime.cmp_fields (Datetime.fields x) (Datetime.fields cur))
      eqn:E.
    + destruct (IH cur Hc) as (m & Hm & Hin & Hle).
      exists m. split; [exact Hm|]. split.
      * destruct Hin as [<-|Hin]; [now left | now right; right].
      * intros y [<-|[<-|Hy]].
        -- apply Hle. now left.
        -- unfold Notions.fields_le.
           apply (cmp_fields_le_trans _ (Datetime.fields cur));
             [congruence | apply Hle; now left].
        -- apply Hle. now right.
    + destruct (IH cur Hc) as (m & Hm & Hin & Hle).
      exists m. split; [exact Hm|]. split.
      * destruct Hin as [<-|Hin]; [now left | now right; right].
      * intros y [<-|[<-|Hy]].
        -- apply Hle. now left.
        -- unfold Notions.fields_le.
           apply (cmp_fields_le_trans _ (Datetime.fields cur));
             [congruence | apply Hle; now left].
        -- apply Hle. now right.
    + destruct (IH x Hx) as (m & Hm & Hin & Hle).
      exists m. split; [exact Hm|]. split.
      * destruct Hin as [<-|Hin]; [now right; left | now right; right].
      * intros y [<-|[<-|Hy]].
        -- unfold Notions.fields_le.
           apply (cmp_fields_le_trans _ (Datetime.fields x)).
           ++ rewrite (cmp_fields_gt_lt _ _ E). discriminate.
           ++ apply Hle. now left.
        -- apply Hle. now left.
        -- apply Hle. now right.
Qed.

(** X7.  When every entry parses and all carry one and the same offset
    (or none does), the most recent timestamp of the summary is the
    [isoformat()] of an entry whose fields no other entry exceeds: the
    latest of them. *)
Theorem X7_most_recent_is_latest (sd : scraped_data) (tz : option Z) :
  success sd = true -> tweets sd <> [] ->
  Forall (fun tw => parse_datetime (tw_datetime tw) <> None) (tweets sd) ->
  Forall (fun dt => Datetime.tzinfo dt = tz) (Spec.parsed (tweets sd)) ->
  exists a m,
    analyze_scraped_data sd = Some a
    /\ last_tweet_time a = Some (Datetime.isoformat m)
    /\ In m (Spec.parsed (tweets sd))
    /\ forall x, In x (Spec.parsed (tweets sd)) -> Notions.fields_le x m.
Proof.
  intros Hs Hne Hall Htz.
  destruct (analyze_some sd Hs Hne)
    as (a & Ha & _ & _ & _ & _ & _ & _ & Hl & _).
  assert (Hp : parse_all (tweets sd) = Some (Spec.parsed (tweets sd))).
  { destruct (parse_all (tweets sd)) as [dts|] eqn:Ep.
    - now rewrite (parse_all_some _ _ Ep).
    - apply parse_all_fails in Ep as (tw & Hin & Hn).
      rewrite Forall_forall in Hall. now apply Hall in Hin. }
  unfold most_recent in Hl. rewrite Hp in Hl.
  destruct (tweets sd) as [|tw0 l0] eqn:El; [congruence|].
  rewrite <- El in *.
  destruct (Spec.parsed (tweets sd)) as [|dt dts] eqn:Eq.
  - exfalso. rewrite El in Hp. cbn in Hp.
    destruct (parse_datetime (tw_datetime tw0)); [|discriminate].
    destruct (parse_all l0); discriminate.
  - inversion Htz as [|? ? Hdt Hdts]; subst.
    destruct (max_from_same_tz _ dt dts eq_refl Hdts)
      as (m & Hm & Hin & Hle).
    rewrite Hm in Hl. exists a, m. auto.
Qed.

Lemma X7_most_recent_witness :
  exists a m,
    analyze_scraped_data Samples.all_good = Some a
    /\ last_tweet_time a = Some (Datetime.isoformat m)
    /\ In m (Spec.parsed (tweets Samples.all_good))
    /\ forall x, In x (Spec.parsed (tweets Samples.all_good)) ->
                 Notions.fields_le x m.
Proof.
  apply (X7_most_recent_is_latest Samples.all_good (Some 0%Z)).
  - reflexivity.
  - discriminate.
  - unfold Samples.all_good, Samples.scraped. cbn [tweets map].
    repeat (constructor; [cbv beta; vm_compute; discriminate|]).
    constructor.
  - vm_compute. repeat constructor.
Defined.

End Latest.

(** ** The zone marker *)

Section ZoneMarker.

Import Scraper.

Lemma parsed_by_parses (l1 l2 : list tweet) :
  Notions.parses l1 = Notions.parses l2 ->
  Spec.parsed l1 = Spec.parsed l2.
Proof.
  revert l2; induction l1 as [|tw1 l1 IH]; intros [|tw2 l2] H;
    try discriminate; [reflexivity|].
  cbn in H. injection H as H1 H2. cbn [Spec.parsed].
  rewrite H1, (IH l2 H2). reflexivity.
Qed.

Lemma parse_all_by_parses (l1 l2 : list tweet) :
  Notions.parses l1 = Notions.parses l2 -> parse_all l1 = parse_all l2.
Proof.
  revert l2; induction l1 as [|tw1 l1 IH]; intros [|tw2 l2] H;
    try discriminate; [reflexivity|].
  cbn in H. injection H as H1 H2. cbn [parse_all].
  rewrite H1, (IH l2 H2). reflexivity.
Qed.

(** The summary depends on the entries through what they parse to. *)
Lemma analyze_by_parses (ok : bool) (u dn img : string) (err : option string)
      (l1 l2 : list tweet) :
  Notions.parses l1 = Notions.parses l2 ->
  analyze_scraped_data (mkScraped ok u dn img l1 err)
  = analyze_scraped_data (mkScraped ok u dn img l2 err).
Proof.
  intros H.
  assert (Hlen : List.length l1 = List.length l2).
  { apply (f_equal (@List.length _)) in H. unfold Notions.parses in H.
    now rewrite !length_map in H. }
  unfold analyze_scraped_data. cbn [success tweets username display_name
                                     profile_image].
  rewrite !count_tweets_run, (parsed_by_parses l1 l2 H), Hlen.
  assert (Hm : most_recent l1 = most_recent l2).
  { unfold most_recent. rewrite (parse_all_by_parses l1 l2 H).
    destruct l1, l2; try discriminate; reflexivity. }
  rewrite Hm.
  destruct l1, l2; try discriminate; reflexivity.
Qed.

(** X8.  Timestamps written with the zone marker ["Z"] at the end (and
    no other ["Z"]) give the same summary as the same timestamps written
    with the offset ["+00:00"]. *)
Theorem X8_zone_marker_is_offset_zero
  (ok : bool) (u dn img : string) (err : option string) (ps : list string) :
  Forall (fun p => Py.contains "Z" p = false) ps ->
  analyze_scraped_data
    (mkScraped ok u dn img (map (fun p => mkTweet (p ++ "Z")) ps) err)
  = analyze_scraped_data
      (mkScraped ok u dn img (map (fun p => mkTweet (p ++ "+00:00")) ps) err).
Proof.
  intros H. apply analyze_by_parses. unfold Notions.parses. rewrite !map_map.
  cbn [tw_datetime].
  induction H as [|p ps Hp _ IH]; [reflexivity|].
  cbn [map]. now rewrite IH, (zone_marker_same_as_offset p Hp).
Qed.

Lemma X8_zone_marker_witness :
  analyze_scraped_data
    (mkScraped true "u" "@u" ""
       (map (fun p => mkTweet (p ++ "Z"))
          ["2024-01-01T09:00:00"; "2024-03-05T23:10:00.123"]) None)
  = analyze_scraped_data
      (mkScraped true "u" "@u" ""
         (map (fun p => mkTweet (p ++ "+00:00"))
            ["2024-01-01T09:00:00"; "2024-03-05T23:10:00.123"]) None).
Proof.
  apply (X8_zone_marker_is_offset_zero true "u" "@u" "" None
           ["2024-01-01T09:00:00"; "2024-03-05T23:10:00.123"]).
  repeat constructor.
Defined.

End ZoneMarker.

(** ** The scraper *)

Section ScrapeFacts.

Import Scraper Scrape.

Lemma known_in (datetime_str : string) (tweets_data : list tweet) :
  known datetime_str tweets_data = true
  <-> In datetime_str (map tw_datetime tweets_data).
Proof.
  unfold known. rewrite existsb_exists, in_map_iff.
  split; intros (t & H1 & H2).
  - exists t. apply String.eqb_eq in H2. auto.
  - exists t. split; [exact H2 | now apply String.eqb_eq].
Qed.

Lemma nodup_snoc {A} (x : A) (l : list A) :
  NoDup l -> ~ In x l -> NoDup (l ++ [x]).
Proof.
  intros Hl Hx. apply (Permutation_NoDup (Permutation_cons_append l x)).
  now constructor.
Qed.

Lemma collect_distinct (elems : list (option string))
      (tweets_data : list tweet) :
  Notions.distinct tweets_data ->
  Notions.distinct (collect tweets_data elems).
Proof.
  revert tweets_data.
  induction elems as [|[datetime_str|] rest IH]; intros tweets_data Hd;
    cbn [collect]; auto.
  destruct datetime_str as [|c rest_str] eqn:Es; cbn [Py.is_empty negb andb];
    auto.
  destruct (known (String c rest_str) tweets_data) eqn:Ek; cbn [negb]; auto.
  apply IH. destruct Hd as [Hn Hf]. split.
  - rewrite map_app. cbn [map tw_datetime]. apply nodup_snoc; [exact Hn|].
    intros Hin. apply known_in in Hin. congruence.
  - apply Forall_app. split; [exact Hf|]. constructor; [|constructor].
    cbn. discriminate.
Qed.

Lemma collect_from (elems : list (option string)) (tweets_data : list tweet)
      (tw : tweet) :
  In tw (collect tweets_data elems) ->
  In tw tweets_data \/ In (Some (tw_datetime tw)) elems.
Proof.
  revert tweets_data.
  induction elems as [|[datetime_str|] rest IH]; intros tweets_data Hin;
    cbn [collect] in Hin; auto.
  - destruct (negb (Py.is_empty datetime_str)
              && negb (known datetime_str tweets_data)).
    + apply IH in Hin as [Hin|Hin]; [|right; now right].
      apply in_app_or in Hin as [Hin|[<-|[]]]; [now left|].
      right. left. reflexivity.
    + apply IH in Hin as [Hin|Hin]; [now left | right; now right].
  - apply IH in Hin as [Hin|Hin]; [now left | right; now right].
Qed.

Lemma scroll_loop_distinct (turns scroll_attempts max_tweets : nat)
      (s : session) (tweets_data out : list tweet) :
  scroll_loop turns scroll_attempts max_tweets s tweets_data = Done out ->
  Notions.distinct tweets_data -> Notions.distinct out.
Proof.
  revert scroll_attempts tweets_data.
  induction turns as [|turns IH]; intros a tweets_data H Hd;
    cbn [scroll_loop] in H.
  - injection H as <-. exact Hd.
  - destruct (List.length tweets_data <? max_tweets);
      [|injection H as <-; exact Hd].
    destruct (tweet_elements s a) as [elems| |]; try discriminate.
    destruct (scroll_by s a); try discriminate.
    destruct (max_tweets <=? List.length (collect tweets_data elems)).
    + injection H as <-. now apply collect_distinct.
    + apply (IH _ _ H). now apply collect_distinct.
Qed.

Lemma scroll_loop_from (turns scroll_attempts max_tweets : nat)
      (s : session) (tweets_data out : list tweet) (tw : tweet) :
  scroll_loop turns scroll_attempts max_tweets s tweets_data = Done out ->
  In tw out ->
  In tw tweets_data
  \/ exists i elems,
       scroll_attempts <= i < scroll_attempts + turns
       /\ tweet_elements s i = Done elems
       /\ In (Some (tw_datetime tw)) elems.
Proof.
  revert scroll_attempts tweets_data.
  induction turns as [|turns IH]; intros a tweets_data H Hin;
    cbn [scroll_loop] in H.
  - injection H as <-. now left.
  - destruct (List.length tweets_data <? max_tweets);
      [|injection H as <-; now left].
    destruct (tweet_elements s a) as [elems| |] eqn:Ee; try discriminate.
    destruct (scroll_by s a); try discriminate.
    assert (Hc : In tw (collect tweets_data elems) ->
                 In tw tweets_data
                 \/ exists i elems0,
                      a <= i < a + S turns
                      /\ tweet_elements s i = Done elems0
                      /\ In (Some (tw_datetime tw)) elems0).
    { intros Hc. apply collect_from in Hc as [Hc|Hc]; [now left|].
      right. exists a, elems. repeat split; auto; lia. }
    destruct (max_tweets <=? List.length (collect tweets_data elems)).
    + injection H as <-. auto.
    + destruct (IH _ _ H Hin) as [Hc'|(i & elems0 & Hi & He & Hs)]; auto.
      right. exists i, elems0. repeat split; auto; lia.
Qed.

Lemma scroll_loop_none (turns scroll_attempts : nat) (s : session)
      (tweets_data : list tweet) :
  scroll_loop turns scroll_attempts 0 s tweets_data = Done tweets_data.
Proof. destruct turns; reflexivity. Qed.

(** What the loop hands over when it ends, whatever the browser did. *)
Lemma scrape_cases (s : session) (username : string) (max_tweets : nat) :
  let r := scrape_twitter_activity s username max_tweets in
  (success r = false /\ tweets r = [] /\ Scraper.username r = username
   /\ exists msg, error r = Some msg)
  \/ (exists tweets_data,
        scroll_loop max_scrolls 0 max_tweets s [] = Done tweets_data
        /\ tweets_data <> []
        /\ success r = true
        /\ tweets r = firstn max_tweets tweets_data
        /\ Scraper.username r = username
        /\ error r = None).
Proof.
  unfold scrape_twitter_activity, timed_out, scraping_error, set_error.
  destruct (goto s); [|left; cbn; eauto 6..].
  destruct (content s) as [page_content| |]; [|left; cbn; eauto 6..].
  destruct (Py.contains "This account doesn't exist" page_content
            || Py.contains "Account suspended" page_content);
    [left; cbn; eauto 6|].
  destruct (scroll_loop max_scrolls 0 max_tweets s []) as [tweets_data| |]
    eqn:El.
  - destruct tweets_data as [|tw rest].
    + left. destruct (user_name s), (avatar_src s); cbn;
        rewrite firstn_nil; eauto 6.
    + right. exists (tw :: rest).
      destruct (user_name s), (avatar_src s); cbn;
        repeat split; auto; discriminate.
  - left. destruct (user_name s), (avatar_src s); cbn; eauto 6.
  - left. destruct (user_name s), (avatar_src s); cbn; eauto 6.
Qed.

(** X9.  Whatever the browser does, the dictionary the scraper returns
    names the user asked for; it reports success exactly when it holds
    at least one entry, and exactly when it holds no error message; its
    entries carry pairwise different, non-empty timestamps; and there
    are at most [max_tweets] of them. *)
Theorem X9_scrape_result_is_consistent
  (s : session) (username : string) (max_tweets : nat) :
  let r := scrape_twitter_activity s username max_tweets in
  Scraper.username r = username
  /\ (success r = true <-> tweets r <> [])
  /\ (success r = true <-> error r = None)
  /\ NoDup (map tw_datetime (tweets r))
  /\ Forall (fun tw => tw_datetime tw <> "") (tweets r)
  /\ List.length (tweets r) <= max_tweets.
Proof.
  intros r.
  destruct (scrape_cases s username max_tweets)
    as [(Hs & Ht & Hu & msg & He)
       |(tweets_data & Hl & Hne & Hs & Ht & Hu & He)];
    fold r in Hs, Ht, Hu, He.
  - rewrite Hs, Ht, He. split; [exact Hu|].
    split; [split; [discriminate | congruence]|].
    split; [split; discriminate|].
    split; [constructor|]. split; [constructor | cbn; lia].
  - rewrite Hs, Ht, He. split; [exact Hu|].
    destruct (scroll_loop_distinct _ _ _ _ _ _ Hl) as [Hn Hf].
    { split; constructor. }
    split.
    { split; [|reflexivity]. intros _.
      destruct max_tweets as [|m].
      - rewrite scroll_loop_none in Hl. congruence.
      - destruct tweets_data; [congruence | discriminate]. }
    split; [split; reflexivity|].
    split.
    { rewrite <- (firstn_skipn max_tweets tweets_data), map_app in Hn.
      now apply NoDup_app_remove_r in Hn. }
    split.
    { rewrite <- (firstn_skipn max_tweets tweets_data) in Hf.
      now apply Forall_app in Hf. }
    apply firstn_le_length.
Qed.

(** X10.  The scraper invents nothing: each timestamp it returns is the
    [datetime] attribute of a tweet the page showed at one of the ten
    turns of the loop at most. *)
Theorem X10_scraped_timestamps_come_from_the_page
  (s : session) (username : string) (max_tweets : nat) (tw : tweet) :
  In tw (tweets (scrape_twitter_activity s username max_tweets)) ->
  exists i elems,
    i < max_scrolls
    /\ tweet_elements s i = Done elems
    /\ In (Some (tw_datetime tw)) elems.
Proof.
  intros Hin.
  destruct (scrape_cases s username max_tweets)
    as [(_ & Ht & _)|(tweets_data & Hl & _ & _ & Ht & _)];
    rewrite Ht in Hin; [destruct Hin|].
  assert (Hin' : In tw tweets_data).
  { rewrite <- (firstn_skipn max_tweets tweets_data).
    apply in_or_app. now left. }
  destruct (scroll_loop_from _ _ _ _ _ _ tw Hl Hin')
    as [[]|(i & elems & Hi & He & Hs)].
  exists i, elems. repeat split; auto; lia.
Qed.

Lemma X10_scraped_timestamps_witness :
  exists i elems,
    i < max_scrolls
    /\ tweet_elements
         (Notions.steady ["2024-01-01T09:00:00Z"; "2024-01-02T10:00:00Z"]) i
       = Done elems
    /\ In (Some (tw_datetime (mkTweet "2024-01-02T10:00:00Z"))) elems.
Proof.
  apply (X10_scraped_timestamps_come_from_the_page
           (Notions.steady ["2024-01-01T09:00:00Z"; "2024-01-02T10:00:00Z"])
           "someone" 50 (mkTweet "2024-01-02T10:00:00Z")).
  vm_compute. right. left. reflexivity.
Defined.

End ScrapeFacts.

(** ** The scraper behind the boundary *)

Section ScrapeAndFetch.

Import Main.

Lemma lower_app (a b : string) :
  Py.lower (a ++ b) = (Py.lower a ++ Py.lower b)%string.
Proof.
  induction a as [|c a IH]; [reflexivity|].
  cbn [append Py.lower]. now rewrite IH.
Qed.

Lemma contains_app_r (sub a b : string) :
  Py.contains sub b = true -> Py.contains sub (a ++ b) = true.
Proof.
  intros H. induction a as [|c a IH]; [exact H|].
  cbn [append Py.contains]. rewrite IH.
  now destruct (prefix sub (String c (a ++ b))).
Qed.

Lemma classify_no_such_user (username : string) :
  Spec.classify ("User @" ++ username ++ " not found or suspended")
  = Spec.NotFound.
Proof.
  unfold Spec.classify. rewrite !lower_app.
  rewrite (contains_app_r "not found" (Py.lower "User @")).
  - reflexivity.
  - apply contains_app_r. reflexivity.
Qed.

(** The words in front of the user name hold none of the key words, and
    none starts in them to end in the name. *)
Lemma classify_no_tweets (username : string) :
  Spec.classify ("No tweets found for @" ++ username)
  = Spec.classify username.
Proof.
  unfold Spec.classify. rewrite lower_app.
  change (Py.contains "not found"
            (Py.lower "No tweets found for @" ++ Py.lower username))
    with (Py.contains "not found" (Py.lower username)).
  change (Py.contains "suspended"
            (Py.lower "No tweets found for @" ++ Py.lower username))
    with (Py.contains "suspended" (Py.lower username)).
  change (Py.contains "timed out"
            (Py.lower "No tweets found for @" ++ Py.lower username))
    with (Py.contains "timed out" (Py.lower username)).
  reflexivity.
Qed.

Lemma classify_scraping_error (e : string) :
  Spec.classify ("Scraping error: " ++ e) = Spec.classify e.
Proof.
  unfold Spec.classify. rewrite lower_app.
  change (Py.contains "not found"
            (Py.lower "Scraping error: " ++ Py.lower e))
    with (Py.contains "not found" (Py.lower e)).
  change (Py.contains "suspended"
            (Py.lower "Scraping error: " ++ Py.lower e))
    with (Py.contains "suspended" (Py.lower e)).
  change (Py.contains "timed out"
            (Py.lower "Scraping error: " ++ Py.lower e))
    with (Py.contains "timed out" (Py.lower e)).
  reflexivity.
Qed.



(** What [fetch_via_scraper] returns over a scrape that failed. *)
Lemma fetch_of_failure (s : Scrape.session) (username msg : string)
      (w : world) :
  let r := Scrape.scrape_twitter_activity s username 50 in
  Scraper.success r = false -> Scraper.error r = Some msg ->
  fst (fetch_via_scraper (Scrape.scraper s) username w)
  = Raise (HTTPException (Spec.status_of (Spec.classify msg)) msg).
Proof.
  intros r Hs He.
  rewrite (fetch_unfold (Scrape.scraper s) username w r eq_refl).
  rewrite Hs, He. reflexivity.
Qed.


(** X12.  When the page of the profile says that the account does not
    exist or is suspended, the request ends in the HTTP error 404 with
    the detail ["User @<name> not found or suspended"], whatever the
    name. *)
Theorem X12_missing_account_is_404
  (s : Scrape.session) (username page_content : string) (w : world) :
  Scrape.goto s = Scrape.Done tt ->
  Scrape.content s = Scrape.Done page_content ->
  Py.contains "This account doesn't exist" page_content
  || Py.contains "Account suspended" page_content = true ->
  fst (fetch_via_scraper (Scrape.scraper s) username w)
  = Raise (HTTPException 404
             ("User @" ++ username ++ " not found or suspended")).
Proof.
  intros Hg Hc Hp.
  rewrite (fetch_of_failure s username
             ("User @" ++ username ++ " not found or suspended") w).
  - now rewrite classify_no_such_user.
  - unfold Scrape.scrape_twitter_activity. now rewrite Hg, Hc, Hp.
  - unfold Scrape.scrape_twitter_activity. now rewrite Hg, Hc, Hp.
Qed.

Lemma X12_missing_account_witness :
  fst (fetch_via_scraper (Scrape.scraper Notions.missing) "ghost"
         Samples.fresh_world)
  = Raise (HTTPException 404
             ("User @" ++ "ghost" ++ " not found or suspended")).
Proof.
  apply (X12_missing_account_is_404 Notions.missing "ghost"
           "<html>This account doesn't exist</html>" Samples.fresh_world);
    reflexivity.
Defined.

(** What the scraper returns once the profile is shown. *)
Lemma scrape_of_profile (s : Scrape.session) (username : string)
      (max_tweets : nat) :
  Notions.profile_shown s ->
  let r := Scrape.scrape_twitter_activity s username max_tweets in
  match Scrape.scroll_loop Scrape.max_scrolls 0 max_tweets s [] with
  | Scrape.Timeout =>
      Scraper.success r = false
      /\ Scraper.error r
         = Some "Request timed out. Twitter may be slow or blocking requests."
  | Scrape.Failed e =>
      Scraper.success r = false
      /\ Scraper.error r = Some ("Scraping error: " ++ e)%string
  | Scrape.Done [] =>
      Scraper.success r = false
      /\ Scraper.error r = Some ("No tweets found for @" ++ username)%string
  | Scrape.Done _ => Scraper.success r = true
  end.
Proof.
  intros (Hg & page_content & Hc & Hp) r. unfold r.
  unfold Scrape.scrape_twitter_activity. rewrite Hg, Hc, Hp.
  destruct (Scrape.scroll_loop Scrape.max_scrolls 0 max_tweets s [])
    as [[|tw l]| |]; destruct (Scrape.user_name s), (Scrape.avatar_src s);
    cbn; auto.
Qed.

(** X13.  When a call of the browser outside the inner [try] blocks
    runs into Playwright's time limit (loading the profile, reading the
    page, or a turn of the loop), the request ends in the HTTP error 504
    with the fixed detail of line 112. *)
Theorem X13_time_limit_is_504
  (s : Scrape.session) (username : string) (w : world) :
  Scrape.goto s = Scrape.Timeout
  \/ (Scrape.goto s = Scrape.Done tt /\ Scrape.content s = Scrape.Timeout)
  \/ (Notions.profile_shown s
      /\ Scrape.scroll_loop Scrape.max_scrolls 0 50 s [] = Scrape.Timeout) ->
  fst (fetch_via_scraper (Scrape.scraper s) username w)
  = Raise (HTTPException 504
             "Request timed out. Twitter may be slow or blocking requests.").
Proof.
  intros H.
  rewrite (fetch_of_failure s username
             "Request timed out. Twitter may be slow or blocking requests."
             w).
  - reflexivity.
  - destruct H as [H | [[H1 H2] | [H1 H2]]].
    + unfold Scrape.scrape_twitter_activity. now rewrite H.
    + unfold Scrape.scrape_twitter_activity. now rewrite H1, H2.
    + pose proof (scrape_of_profile s username 50 H1) as Hr.
      rewrite H2 in Hr. apply Hr.
  - destruct H as [H | [[H1 H2] | [H1 H2]]].
    + unfold Scrape.scrape_twitter_activity. now rewrite H.
    + unfold Scrape.scrape_twitter_activity. now rewrite H1, H2.
    + pose proof (scrape_of_profile s username 50 H1) as Hr.
      rewrite H2 in Hr. apply Hr.
Qed.

Lemma X13_time_limit_witness :
  fst (fetch_via_scraper (Scrape.scraper Notions.slow) "someone"
         Samples.fresh_world)
  = Raise (HTTPException 504
             "Request timed out. Twitter may be slow or blocking requests.").
Proof.
  apply (X13_time_limit_is_504 Notions.slow "someone" Samples.fresh_world).
  left. reflexivity.
Defined.

Lemma collect_nothing (elems : list (option string))
      (tweets_data : list Scraper.tweet) :
  Forall (fun e => e = None \/ e = Some ""%string) elems ->
  Scrape.collect tweets_data elems = tweets_data.
Proof.
  induction 1 as [|e elems [-> | ->] _ IH]; cbn [Scrape.collect]; auto.
Qed.

Lemma scroll_loop_nothing (turns scroll_attempts max_tweets : nat)
      (s : Scrape.session) :
  (forall i, scroll_attempts <= i < scroll_attempts + turns ->
     Scrape.scroll_by s i = Scrape.Done tt
     /\ exists elems,
          Scrape.tweet_elements s i = Scrape.Done elems
          /\ Forall (fun e => e = None \/ e = Some ""%string) elems) ->
  Scrape.scroll_loop turns scroll_attempts max_tweets s [] = Scrape.Done [].
Proof.
  revert scroll_attempts.
  induction turns as [|turns IH]; intros a H; [reflexivity|].
  cbn [Scrape.scroll_loop].
  destruct (List.length (@nil Scraper.tweet) <? max_tweets) eqn:El;
    [|reflexivity].
  destruct (H a) as (Hs & elems & He & Hf); [lia|].
  rewrite He, Hs, (collect_nothing elems [] Hf).
  apply Nat.ltb_lt in El.
  replace (max_tweets <=? List.length (@nil Scraper.tweet)) with false
    by (symmetry; apply Nat.leb_gt; exact El).
  apply IH. intros i Hi. apply H. lia.
Qed.

(** X14.  A profile on which no turn of the loop finds a timestamp does
    not reach the error 404 of line 113: the scraper reports the failure
    ["No tweets found for @<name>"] itself, and the status is decided by
    the words of this message, so by the user name: 500 unless the name
    holds one of the key words. *)
Theorem X14_empty_profile_status
  (s : Scrape.session) (username : string) (w : world) :
  Notions.profile_shown s ->
  (forall i, i < Scrape.max_scrolls ->
     Scrape.scroll_by s i = Scrape.Done tt
     /\ exists elems,
          Scrape.tweet_elements s i = Scrape.Done elems
          /\ Forall (fun e => e = None \/ e = Some ""%string) elems) ->
  fst (fetch_via_scraper (Scrape.scraper s) username w)
  = Raise (HTTPException (Spec.status_of (Spec.classify username))
             ("No tweets found for @" ++ username))
  /\ (Spec.classify username = Spec.Generic ->
      fst (fetch_via_scraper (Scrape.scraper s) username w)
      = Raise (HTTPException 500 ("No tweets found for @" ++ username))).
Proof.
  intros Hp Hn.
  assert (Hl : Scrape.scroll_loop Scrape.max_scrolls 0 50 s []
               = Scrape.Done []).
  { apply scroll_loop_nothing. intros i Hi. apply Hn. lia. }
  pose proof (scrape_of_profile s username 50 Hp) as Hr.
  rewrite Hl in Hr. destruct Hr as [Hs He].
  assert (H : fst (fetch_via_scraper (Scrape.scraper s) username w)
              = Raise (HTTPException (Spec.status_of (Spec.classify username))
                         ("No tweets found for @" ++ username))).
  { rewrite (fetch_of_failure s username _ w Hs He).
    now rewrite classify_no_tweets. }
  split; [exact H|]. intros Hc. now rewrite H, Hc.
Qed.

Lemma X14_empty_profile_witness :
  fst (fetch_via_scraper (Scrape.scraper (Notions.steady [])) "alice"
         Samples.fresh_world)
  = Raise (HTTPException (Spec.status_of (Spec.classify "alice"))
             ("No tweets found for @" ++ "alice"))
  /\ (Spec.classify "alice" = Spec.Generic ->
      fst (fetch_via_scraper (Scrape.scraper (Notions.steady [])) "alice"
             Samples.fresh_world)
      = Raise (HTTPException 500 ("No tweets found for @" ++ "alice"))).
Proof.
  apply (X14_empty_profile_status (Notions.steady []) "alice"
           Samples.fresh_world).
  - split; [reflexivity|]. eexists. split; reflexivity.
  - intros i _. split; [reflexivity|]. exists []. split; [reflexivity|].
    constructor.
Defined.

(** X15.  Any other exception [e] of the browser while the profile
    loads or the page is read comes back as ["Scraping error: <e>"], and
    the status is decided by the words of [e]: 500 unless [e] holds one
    of the key words. *)
Theorem X15_browser_failure_status
  (s : Scrape.session) (username e : string) (w : world) :
  Scrape.goto s = Scrape.Failed e
  \/ (Scrape.goto s = Scrape.Done tt /\ Scrape.content s = Scrape.Failed e)
  \/ (Notions.profile_shown s
      /\ Scrape.scroll_loop Scrape.max_scrolls 0 50 s [] = Scrape.Failed e) ->
  fst (fetch_via_scraper (Scrape.scraper s) username w)
  = Raise (HTTPException (Spec.status_of (Spec.classify e))
             ("Scraping error: " ++ e)).
Proof.
  intros H.
  rewrite (fetch_of_failure s username ("Scraping error: " ++ e) w).
  - now rewrite classify_scraping_error.
  - destruct H as [H | [[H1 H2] | [H1 H2]]].
    + unfold Scrape.scrape_twitter_activity. now rewrite H.
    + unfold Scrape.scrape_twitter_activity. now rewrite H1, H2.
    + pose proof (scrape_of_profile s username 50 H1) as Hr.
      rewrite H2 in Hr. apply Hr.
  - destruct H as [H | [[H1 H2] | [H1 H2]]].
    + unfold Scrape.scrape_twitter_activity. now rewrite H.
    + unfold Scrape.scrape_twitter_activity. now rewrite H1, H2.
    + pose proof (scrape_of_profile s username 50 H1) as Hr.
      rewrite H2 in Hr. apply Hr.
Qed.

Lemma X15_browser_failure_witness :
  fst (fetch_via_scraper
         (Scrape.scraper
            (Scrape.mkSession (Scrape.Failed "net::ERR_CONNECTION_RESET")
               (Scrape.Done "") None None
               (fun _ => Scrape.Done []) (fun _ => Scrape.Done tt)))
         "someone" Samples.fresh_world)
  = Raise (HTTPException
             (Spec.status_of (Spec.classify "net::ERR_CONNECTION_RESET"))
             ("Scraping error: " ++ "net::ERR_CONNECTION_RESET")).
Proof.
  apply (X15_browser_failure_status
           (Scrape.mkSession (Scrape.Failed "net::ERR_CONNECTION_RESET")
              (Scrape.Done "") None None
              (fun _ => Scrape.Done []) (fun _ => Scrape.Done tt))
           "someone" "net::ERR_CONNECTION_RESET" Samples.fresh_world).
  left. reflexivity.
Defined.

End ScrapeAndFetch.

(** ** The handler *)

Section Handler.

Import Main.

(** X16.  [analyze_user] lets no exception through but HTTP errors:
    when the scraper raises no [HTTPException] of its own, the call
    ends, whatever the scraper returns or raises, in a response or in an
    [HTTPException] whose status is 400, 404, 500 or 504. *)
Theorem X16_handler_raises_http_errors_only
  (scraper : string -> nat -> result Scraper.scraped_data)
  (username : string) (demo : bool) (w : world) :
  (forall u n status detail,
     scraper u n <> Raise (HTTPException status detail)) ->
  let out := fst (analyze_user scraper username demo w) in
  (exists resp, out = Ok resp)
  \/ (exists status detail,
        out = Raise (HTTPException status detail)
        /\ In status [400; 404; 500; 504]).
Proof.
  intros Hno. cbv zeta. unfold analyze_user.
  destruct (Py.is_empty (Py.lstrip (Py.strip username) "@")).
  { right. exists 400, "Username is required". cbn. auto. }
  destruct demo.
  { destruct (generate_demo_data_ok
                (Py.lstrip (Py.strip username) "@") w)
      as (n & ev & w' & _ & _ & _ & _ & Hg).
    rewrite Hg. left. cbn. eauto. }
  set (u := Py.lstrip (Py.strip username) "@").
  unfold try_except.
  destruct (scraper u 50) as [sd|[st d|msg]] eqn:Hsc.
  - pose proof (fetch_unfold scraper u w sd Hsc) as Hf. rewrite Hf.
    destruct (negb (Scraper.success sd)).
    + destruct (Scraper.error sd) as [m|].
      * right. exists (Spec.status_of (Spec.classify m)), m.
        split; [reflexivity|]. destruct (Spec.classify m); cbn; auto.
      * right. do 2 eexists. split; [reflexivity|]. cbn. auto.
    + destruct (Scraper.analyze_scraped_data sd).
      * left. cbn. eauto.
      * right. do 2 eexists. split; [reflexivity|]. cbn. auto.
  - exfalso. apply (Hno u 50 st d Hsc).
  - unfold fetch_via_scraper, bind, scrape_twitter_activity. rewrite Hsc.
    right. do 2 eexists. split; [reflexivity|]. cbn. auto.
Qed.

Lemma X16_handler_witness :
  (exists resp,
     fst (analyze_user (Scrape.scraper Notions.slow) "@someone" false
            Samples.fresh_world)
     = Ok resp)
  \/ (exists status detail,
        fst (analyze_user (Scrape.scraper Notions.slow) "@someone" false
               Samples.fresh_world)
        = Raise (HTTPException status detail)
        /\ In status [400; 404; 500; 504]).
Proof.
  apply (X16_handler_raises_http_errors_only (Scrape.scraper Notions.slow)
           "@someone" false Samples.fresh_world).
  intros u n status detail. discriminate.
Defined.

(** X17.  An exception of the scraper that is no [HTTPException] comes
    out of [analyze_user] as the HTTP error 500 with the detail
    ["Error: <message>"]; an [HTTPException] of the scraper comes out as
    it is. *)
Theorem X17_handler_wraps_exceptions
  (scraper : string -> nat -> result Scraper.scraped_data)
  (username : string) (w : world) (e : exn) :
  let u := Py.lstrip (Py.strip username) "@" in
  u <> "" ->
  scraper u 50 = Raise e ->
  fst (analyze_user scraper username false w)
  = Raise (match e with
           | HTTPException status detail => HTTPException status detail
           | Exception msg => HTTPException 500 ("Error: " ++ msg)
           end).
Proof.
  cbv zeta. intros Hu Hsc. unfold analyze_user.
  destruct (Py.lstrip (Py.strip username) "@") as [|c rest] eqn:Eu;
    [congruence|].
  cbn [Py.is_empty].
  unfold try_except, fetch_via_scraper, bind, scrape_twitter_activity.
  rewrite Hsc. destruct e; reflexivity.
Qed.

Lemma X17_handler_wraps_witness :
  fst (analyze_user
         (fun _ _ => Raise (Exception "Executable doesn't exist"))
         " @someone " false Samples.fresh_world)
  = Raise (HTTPException 500 ("Error: " ++ "Executable doesn't exist")).
Proof.
  apply (X17_handler_wraps_exceptions
           (fun _ _ => Raise (Exception "Executable doesn't exist"))
           " @someone " Samples.fresh_world
           (Exception "Executable doesn't exist")).
  - vm_compute. discriminate.
  - reflexivity.
Defined.

End Handler.

(** ** The order of the entries *)

Section Order.

Import Scraper.

Lemma parsed_perm (l1 l2 : list tweet) :
  Permutation l1 l2 -> Permutation (Spec.parsed l1) (Spec.parsed l2).
Proof.
  induction 1 as [|tw l1 l2 _ IH|tw1 tw2 l|l1 l2 l3 _ IH1 _ IH2].
  - constructor.
  - cbn [Spec.parsed].
    destruct (parse_datetime (tw_datetime tw)); [now constructor | exact IH].
  - cbn [Spec.parsed].
    destruct (parse_datetime (tw_datetime tw1)),
             (parse_datetime (tw_datetime tw2));
      try apply Permutation_refl.
    apply perm_swap.
  - now apply (perm_trans IH1).
Qed.

Lemma filter_length_perm {A} (f : A -> bool) (l1 l2 : list A) :
  Permutation l1 l2 ->
  List.length (filter f l1) = List.length (filter f l2).
Proof.
  induction 1 as [|x l1 l2 _ IH|x y l|l1 l2 l3 _ IH1 _ IH2].
  - reflexivity.
  - cbn [filter]. destruct (f x); cbn [List.length]; now rewrite IH.
  - cbn [filter]. destruct (f x), (f y); reflexivity.
  - now rewrite IH1.
Qed.

(** Two matrices of 7 rows of 24 cells with the same cells are the same
    list of lists. *)
Lemma heatmap_ext (hm1 hm2 : heatmap) :
  Spec.shaped hm1 -> Spec.shaped hm2 ->
  (forall d h, Spec.cell d h hm1 = Spec.cell d h hm2) ->
  hm1 = hm2.
Proof.
  intros [L1 R1] [L2 R2] Hc.
  apply (nth_ext _ _ [] []); [congruence|].
  intros d Hd.
  rewrite Forall_forall in R1, R2.
  assert (H1 : List.length (nth d hm1 []) = 24)
    by (apply R1, nth_In; lia).
  assert (H2 : List.length (nth d hm2 []) = 24)
    by (apply R2, nth_In; lia).
  apply (nth_ext _ _ 0 0); [congruence|].
  intros h _. apply (Hc d h).
Qed.

Lemma analyze_given (sd : scraped_data) (a : analysis) :
  analyze_scraped_data sd = Some a ->
  success sd = true /\ tweets sd <> [].
Proof.
  unfold analyze_scraped_data.
  destruct (success sd); [|discriminate].
  destruct (tweets sd); [discriminate|].
  intros _. split; [reflexivity | discriminate].
Qed.

(** X18.  The counts do not depend on the order of the entries: two
    scrapes that hold the same entries in another order have summaries
    with the same total, the same two maps and the same matrix.  (The
    peak lists may differ where counts tie.) *)
Theorem X18_counts_do_not_depend_on_the_order
  (sd1 sd2 : scraped_data) (a1 a2 : analysis) :
  Permutation (tweets sd1) (tweets sd2) ->
  analyze_scraped_data sd1 = Some a1 ->
  analyze_scraped_data sd2 = Some a2 ->
  total_tweets_analyzed a1 = total_tweets_analyzed a2
  /\ hourly_activity a1 = hourly_activity a2
  /\ daily_activity a1 = daily_activity a2
  /\ heatmap_data a1 = heatmap_data a2.
Proof.
  intros Hp H1 H2.
  destruct (analyze_given sd1 a1 H1) as [Hs1 Hn1].
  destruct (analyze_given sd2 a2 H2) as [Hs2 Hn2].
  destruct (analyze_counts sd1 Hs1 Hn1)
    as (b1 & Hb1 & Ht1 & Hh1 & Hd1 & Hsh1 & _ & Hc1).
  destruct (analyze_counts sd2 Hs2 Hn2)
    as (b2 & Hb2 & Ht2 & Hh2 & Hd2 & Hsh2 & _ & Hc2).
  assert (b1 = a1) by congruence. assert (b2 = a2) by congruence.
  subst b1 b2.
  assert (Hev : Permutation (map Spec.bucket (Spec.parsed (tweets sd1)))
                  (map Spec.bucket (Spec.parsed (tweets sd2)))).
  { apply Permutation_map, parsed_perm, Hp. }
  split; [rewrite Ht1, Ht2; now apply Permutation_length|].
  split.
  { rewrite Hh1, Hh2. apply map_ext. intros h. f_equal.
    unfold Spec.count_hour. now apply filter_length_perm. }
  split.
  { rewrite Hd1, Hd2. apply map_ext. intros d. f_equal.
    unfold Spec.count_day. now apply filter_length_perm. }
  apply heatmap_ext; auto.
  intros d h. rewrite Hc1, Hc2. unfold Spec.count_cell.
  now apply filter_length_perm.
Qed.

Lemma X18_counts_order_witness :
  exists a1 a2,
    analyze_scraped_data
      (Samples.scraped ["2024-01-01T09:00:00Z"; "2024-01-02T10:00:00Z"])
    = Some a1
    /\ analyze_scraped_data
         (Samples.scraped ["2024-01-02T10:00:00Z"; "2024-01-01T09:00:00Z"])
       = Some a2
    /\ total_tweets_analyzed a1 = total_tweets_analyzed a2
    /\ hourly_activity a1 = hourly_activity a2
    /\ daily_activity a1 = daily_activity a2
    /\ heatmap_data a1 = heatmap_data a2.
Proof.
  eexists. eexists.
  split; [vm_compute; reflexivity|]. split; [vm_compute; reflexivity|].
  apply (X18_counts_do_not_depend_on_the_order
           (Samples.scraped ["2024-01-01T09:00:00Z"; "2024-01-02T10:00:00Z"])
           (Samples.scraped ["2024-01-02T10:00:00Z"; "2024-01-01T09:00:00Z"])).
  - apply perm_swap.
  - vm_compute. reflexivity.
  - vm_compute. reflexivity.
Defined.

End Order.

(** ** Nothing shown is lost *)

Section Complete.

Import Scraper Scrape.

Lemma collect_grows (elems : list (option string))
      (tweets_data : list tweet) :
  incl tweets_data (collect tweets_data elems)
  /\ List.length tweets_data <= List.length (collect tweets_data elems).
Proof.
  revert tweets_data.
  induction elems as [|[datetime_str|] rest IH]; intros tweets_data;
    cbn [collect].
  - split; [apply incl_refl | apply Nat.le_refl].
  - destruct (negb (Py.is_empty datetime_str)
              && negb (known datetime_str tweets_data)); [|apply IH].
    destruct (IH (tweets_data ++ [mkTweet datetime_str])) as [Hi Hl].
    split.
    + intros tw Hin. apply Hi, in_or_app. now left.
    + rewrite length_app in Hl. cbn in Hl. lia.
  - apply IH.
Qed.

Lemma collect_all (elems : list (option string)) (tweets_data : list tweet)
      (datetime_str : string) :
  In (Some datetime_str) elems -> datetime_str <> "" ->
  In (mkTweet datetime_str) (collect tweets_data elems).
Proof.
  intros Hin Hne. revert tweets_data.
  induction elems as [|e rest IH]; intros tweets_data; [destruct Hin|].
  destruct Hin as [->|Hin].
  - cbn [collect].
    destruct datetime_str as [|c r]; [congruence|].
    cbn [Py.is_empty negb andb].
    destruct (known (String c r) tweets_data) eqn:Ek; cbn [negb].
    + apply (proj1 (collect_grows rest tweets_data)).
      apply known_in in Ek. apply in_map_iff in Ek as ([d] & Hd & Hin).
      cbn in Hd. now subst d.
    + apply (proj1 (collect_grows rest _)), in_or_app. right. now left.
  - destruct e as [d|]; cbn [collect]; [|now apply IH].
    destruct (negb (Py.is_empty d) && negb (known d tweets_data));
      now apply IH.
Qed.

Lemma scroll_loop_grows (turns scroll_attempts max_tweets : nat)
      (s : session) (tweets_data out : list tweet) :
  scroll_loop turns scroll_attempts max_tweets s tweets_data = Done out ->
  incl tweets_data out /\ List.length tweets_data <= List.length out.
Proof.
  revert scroll_attempts tweets_data.
  induction turns as [|turns IH]; intros a tweets_data H;
    cbn [scroll_loop] in H.
  - injection H as <-. split; [apply incl_refl | apply Nat.le_refl].
  - destruct (List.length tweets_data <? max_tweets);
      [|injection H as <-; split; [apply incl_refl | apply Nat.le_refl]].
    destruct (tweet_elements s a) as [elems| |]; try discriminate.
    destruct (scroll_by s a); try discriminate.
    destruct (collect_grows elems tweets_data) as [Hi Hl].
    destruct (max_tweets <=? List.length (collect tweets_data elems)).
    + injection H as <-. auto.
    + destruct (IH _ _ H) as [Hi' Hl'].
      split; [|lia]. intros tw Hin. apply Hi', Hi, Hin.
Qed.

Lemma scroll_loop_all (turns scroll_attempts max_tweets : nat)
      (s : session) (tweets_data out : list tweet)
      (i : nat) (elems : list (option string)) (datetime_str : string) :
  scroll_loop turns scroll_attempts max_tweets s tweets_data = Done out ->
  List.length out < max_tweets ->
  scroll_attempts <= i < scroll_attempts + turns ->
  tweet_elements s i = Done elems ->
  In (Some datetime_str) elems -> datetime_str <> "" ->
  In (mkTweet datetime_str) out.
Proof.
  revert scroll_attempts tweets_data.
  induction turns as [|turns IH]; intros a tweets_data H Hlen Hi He Hin Hne;
    [lia|].
  cbn [scroll_loop] in H.
  destruct (List.length tweets_data <? max_tweets) eqn:El.
  2: { injection H as <-. apply Nat.ltb_ge in El. lia. }
  destruct (tweet_elements s a) as [elems_a| |] eqn:Ea; try discriminate.
  destruct (scroll_by s a); try discriminate.
  destruct (max_tweets <=? List.length (collect tweets_data elems_a))
    eqn:Em.
  { injection H as <-. apply Nat.leb_le in Em. lia. }
  destruct (Nat.eq_dec i a) as [->|Hia].
  - rewrite Ea in He. injection He as ->.
    apply (proj1 (scroll_loop_grows _ _ _ _ _ _ H)).
    now apply collect_all.
  - apply (IH (S a) _ H Hlen); auto. lia.
Qed.

(** X19.  Nothing shown is lost: when the scrape succeeds with fewer
    than [max_tweets] entries, the loop made its ten turns, and every
    non-empty timestamp a tweet showed at any of them is among the
    entries returned. *)
Theorem X19_nothing_shown_is_lost
  (s : session) (username : string) (max_tweets : nat)
  (i : nat) (elems : list (option string)) (datetime_str : string) :
  let r := scrape_twitter_activity s username max_tweets in
  success r = true ->
  List.length (tweets r) < max_tweets ->
  i < max_scrolls ->
  tweet_elements s i = Done elems ->
  In (Some datetime_str) elems -> datetime_str <> "" ->
  In (mkTweet datetime_str) (tweets r).
Proof.
  intros r Hs Hlen Hi He Hin Hne.
  destruct (scrape_cases s username max_tweets)
    as [(Hs' & _)|(tweets_data & Hl & _ & _ & Ht & _)];
    [fold r in Hs'; congruence | fold r in Ht].
  rewrite Ht in Hlen. rewrite Ht.
  assert (Hd : List.length tweets_data < max_tweets).
  { rewrite length_firstn in Hlen. lia. }
  rewrite firstn_all2 by lia.
  apply (scroll_loop_all _ _ _ _ _ _ i elems datetime_str Hl Hd);
    auto; lia.
Qed.

Lemma X19_nothing_lost_witness :
  In (mkTweet "2024-01-02T10:00:00Z")
    (tweets
       (scrape_twitter_activity
          (Notions.steady ["2024-01-01T09:00:00Z"; "2024-01-02T10:00:00Z"])
          "someone" 50)).
Proof.
  apply (X19_nothing_shown_is_lost
           (Notions.steady ["2024-01-01T09:00:00Z"; "2024-01-02T10:00:00Z"])
           "someone" 50 3
           [Some "2024-01-01T09:00:00Z"; Some "2024-01-02T10:00:00Z"]
           "2024-01-02T10:00:00Z").
  - reflexivity.
  - vm_compute. lia.
  - vm_compute. lia.
  - reflexivity.
  - right. left. reflexivity.
  - discriminate.
Defined.

End Complete.
